(** * NetEase Cloud Music search/download tool: pagination, link checks,
      file naming, batch download, settings and the download log.

    The development embeds the methods of class [NeteaseSearchDownload]
    that carry the control flow of the tool and proves (or refutes on a
    concrete run) the properties stated for them.  Everything outside the
    program (network, file-system failures, clock, Python's [int()]
    parser) is supplied by an explicit environment record. *)

From Stdlib Require Import ZArith NArith List String Ascii Bool Lia.
From Stdlib Require Import Decimal DecimalString DecimalPos DecimalZ.
From Stdlib Require Import SpecFloat.
From stdpp Require Import gmap list.

Set Warnings "-register-all".
Local Open Scope Z_scope.

(** ** Python strings *)

Module Py.

(** A Python [str] is a sequence of Unicode code points. *)
Definition str := list N.

(** Literals are written as UTF-8 text, like the source file itself, and
    decoded to code points. *)
Fixpoint utf8_decode (bs : list N) : str :=
  match bs with
  | [] => []
  | b0 :: r0 =>
    if (b0 <? 128)%N then b0 :: utf8_decode r0
    else if (b0 <? 224)%N then
      match r0 with
      | b1 :: r1 => ((b0 mod 32) * 64 + b1 mod 64)%N :: utf8_decode r1
      | _ => []
      end
    else if (b0 <? 240)%N then
      match r0 with
      | b1 :: b2 :: r2 =>
        ((b0 mod 16) * 4096 + (b1 mod 64) * 64 + b2 mod 64)%N :: utf8_decode r2
      | _ => []
      end
    else
      match r0 with
      | b1 :: b2 :: b3 :: r3 =>
        ((b0 mod 8) * 262144 + (b1 mod 64) * 4096 + (b2 mod 64) * 64 + b3 mod 64)%N
          :: utf8_decode r3
      | _ => []
      end
  end.

Definition lit (s : string) : str :=
  utf8_decode (map N_of_ascii (list_ascii_of_string s)).

Definition str_eqb (a b : str) : bool := bool_decide (a = b).

(** [str.isspace] for one code point: the white-space table of CPython. *)
Definition isspace (c : N) : bool :=
  ((9 <=? c) && (c <=? 13) || (28 <=? c) && (c <=? 32) || (c =? 133)
   || (c =? 160) || (c =? 5760) || (8192 <=? c) && (c <=? 8202)
   || (c =? 8232) || (c =? 8233) || (c =? 8239) || (c =? 8287)
   || (c =? 12288))%N.

Fixpoint lstrip (s : str) : str :=
  match s with
  | [] => []
  | c :: r => if isspace c then lstrip r else s
  end.

Definition rstrip (s : str) : str := rev (lstrip (rev s)).

(** [s.strip()] *)
Definition strip (s : str) : str := rstrip (lstrip s).

(** [text.replace(old, new)] where [old] is a one-character string. *)
Definition replace (old : N) (new : str) (text : str) : str :=
  flat_map (fun c => if (c =? old)%N then new else [c]) text.

(** [str(n)] for an [int]: decimal digits, with a leading minus sign. *)
Definition str_of_int (n : Z) : str :=
  map N_of_ascii (list_ascii_of_string (NilZero.string_of_int (Z.to_int n))).

(** [s.startswith(c)] and [s.endswith(c)] for a one-character [c]. *)
Definition startswith (c : N) (s : str) : bool :=
  match s with
  | x :: _ => (x =? c)%N
  | [] => false
  end.

Definition endswith (c : N) (s : str) : bool := startswith c (rev s).

(** [s.rfind(c)]: index of the last occurrence, [-1] when there is none. *)
Fixpoint rfind_from (c : N) (s : str) (i acc : Z) : Z :=
  match s with
  | [] => acc
  | x :: r => rfind_from c r (i + 1) (if (x =? c)%N then i else acc)
  end.

Definition rfind (c : N) (s : str) : Z := rfind_from c s 0 (-1).

(** The slice [s[i:j]] for [0 <= i]. *)
Definition slice (s : str) (i j : Z) : str :=
  firstn (Z.to_nat (j - i)) (skipn (Z.to_nat i) s).

Definition sep : N := 47.      (* '/' *)
Definition extsep : N := 46.   (* '.' *)

(** [os.path.join(a, b)] of posixpath. *)
Definition os_path_join (a b : str) : str :=
  if startswith sep b then b
  else if (bool_decide (a = []) || endswith sep a)%bool then a ++ b
  else a ++ sep :: b.

(** [os.path.splitext(p)] of posixpath: the extension starts at the last
    dot of the last path component, unless only dots precede it there. *)
Definition os_path_splitext (p : str) : str * str :=
  let sepIndex := rfind sep p in
  let dotIndex := rfind extsep p in
  if (sepIndex <? dotIndex)
     && existsb (fun c => negb (c =? extsep)%N) (slice p (sepIndex + 1) dotIndex)
  then (firstn (Z.to_nat dotIndex) p, skipn (Z.to_nat dotIndex) p)
  else (p, []).

End Py.

Import Py.

(** A literal, decoded once where it is written. *)
Notation "'py' s" :=
  (ltac:(let v := eval vm_compute in (lit s%string) in exact v))
  (at level 1, s at level 0, only parsing).


(** ** Values decoded from JSON *)

(** What [json.load] and [response.json()] return.  A number without
    fraction and exponent is a Python [int], any other number (and the
    constants NaN and Infinity, which the parser accepts) a [float];
    objects are [dict]s (a later duplicate key has already replaced an
    earlier one). *)
Inductive json : Type :=
| JNull
| JBool (b : bool)
| JNum (n : Z)
| JFloat (x : spec_float)
| JStr (s : str)
| JArr (l : list json)
| JObj (m : gmap str json).

(** Truth value of [if v:] / [if not v:]. *)
Definition truthy (v : json) : bool :=
  match v with
  | JNull => false
  | JBool b => b
  | JNum n => negb (n =? 0)
  | JFloat (S754_zero _) => false
  | JFloat _ => true
  | JStr s => negb (bool_decide (s = []))
  | JArr l => match l with [] => false | _ => true end
  | JObj m => match size m with O => false | S _ => true end
  end.

(** [v.get(key, default)]; [None] when [v] is not a [dict] and the call
    raises [AttributeError]. *)
Definition dict_get (v : json) (key : str) (dflt : json) : option json :=
  match v with
  | JObj m => Some (default dflt (m !! key))
  | _ => None
  end.

(** ** Data model *)

(** The dictionary built by [extract_song_info] (without [raw_data]). *)
Record song_info := {
  song_id : Z;
  name : str;
  artists : list str;
  artist_ids : list str;
  artist_str : str;
  album_id : Z;
  album_name : str;
  duration : str;
  duration_ms : Z;
  publish_time : str;
  download_link : str
}.

(** [self.selected_song] *)
Record selection := {
  sel_id : Z;
  sel_name : str;
  sel_artist : str;
  sel_download_link : str
}.

(** A [requests] response: final URL after redirects, status, body, the
    header table (keys in lower case) and what [.json()] gives ([None]:
    it raises). *)
Record response := {
  url : str;
  status_code : Z;
  content : list N;
  headers : gmap str str;
  json_body : option json
}.

Inductive http_outcome :=
| Raises (e : str)            (* requests.exceptions.RequestException, str(e) *)
| Responds (r : response).

(** A path that exists is a directory or a file with its bytes;
    [os.path.exists p] is [is_Some (fs !! p)]. *)
Inductive node :=
| Dir
| File (bytes : list N).

Abbreviation filesystem := (gmap str node).

(** Everything the program obtains from outside itself.  The natural
    number of the two request oracles is the time of the call. *)
Record env := {
  requests_get : nat -> str -> http_outcome;
  requests_head : nat -> str -> http_outcome;
  (** [os.makedirs d]: [inl e] raises [OSError e]; [inr ps] creates [d]
      and the missing ancestors [ps]. *)
  os_makedirs : filesystem -> str -> str + list str;
  (** [open(p, 'wb')] then [write]: [None] succeeds; [Some (e, partial)]
      raises with text [e], leaving behind the file [partial] if any. *)
  open_write_error : filesystem -> str -> option (str * option (list N));
  (** text of the [TypeError] of [os.path] functions on a non-string *)
  path_type_error : json -> str;
  (** [str(e)] of what [raise_for_status()] or [.json()] raises *)
  exc_text : response -> str;
  (** [str(v)] of a decoded value that is not a string *)
  py_str : json -> str;
  (** Python's [int(s)]; [None] raises [ValueError] *)
  int_of_str : str -> option Z;
  (** [extract_song_info]; [None] when it raises on a malformed record *)
  extract_song_info : json -> option song_info
}.

Inductive btn := normal | disabled.

Inductive mb_kind := showinfo | showwarning | showerror.

(** Calls on the interface, made in place or deferred to the main loop. *)
Inductive ui_call :=
| StatusLabel (text : str)                     (* status_label.config(text=..) *)
| DetailDownloadStatus (text : str)            (* detail_download_status.config(text=..) *)
| Log (message level : str)                    (* self.log(message, level) *)
| AddDownloadLog (message : str)               (* self.add_download_log(message) *)
| MessageBox (kind : mb_kind) (title message : str)
| DisplayResults (data : json).                (* self.display_results(data) *)

(** What a method leaves behind besides the state it returns: the
    requests it sent and the interface calls whose effect on the widgets
    is still to come ([mainloop] applies them in order).  A method of the
    interface thread updates the widgets in the state it returns and
    lists only its dialogs; a worker thread lists every call it makes.
    A worker is run to completion as one step, with the settings it
    started with. *)
Inductive event :=
| After (c : ui_call)       (* self.root.after(0, lambda: c) *)
| Call (c : ui_call)        (* c called directly *)
| HttpGet (t : nat) (link : str)
| HttpHead (t : nat) (link : str).

(** ** The object state *)

(** Search state and selection. *)
Record search_state := {
  current_keywords : str;
  current_offset : Z;
  current_limit : Z;
  song_details : list song_info;
  selected_song : option selection
}.

(** The two persisted preferences, as read from the settings document. *)
Record settings := {
  naming_format : json;
  download_dir : json
}.

(** Tk variables behind the entry fields. *)
Record tkvars := {
  keyword_var : str;
  offset_var : str;
  goto_var : str;
  limit_var : str
}.

Record buttons := {
  prev_btn : btn;
  next_btn : btn;
  download_btn : btn;
  batch_download_btn : btn;
  test_download_btn : btn
}.

(** Labels and the download-record pane.  The diagnostic log pane, the
    raw-JSON pane, the tree view and the detail labels are write-only
    displays and are left out. *)
Record texts := {
  status_label : str;
  detail_download_status : str;
  download_log_text : str
}.

Record app := {
  search : search_state;
  prefs : settings;
  vars : tkvars;
  btns : buttons;
  txt : texts
}.

(** Field updates. *)
Definition with_search (f : search_state -> search_state) (a : app) : app :=
  {| search := f (search a); prefs := prefs a; vars := vars a; btns := btns a; txt := txt a |}.
Definition with_vars (f : tkvars -> tkvars) (a : app) : app :=
  {| search := search a; prefs := prefs a; vars := f (vars a); btns := btns a; txt := txt a |}.
Definition with_btns (f : buttons -> buttons) (a : app) : app :=
  {| search := search a; prefs := prefs a; vars := vars a; btns := f (btns a); txt := txt a |}.
Definition with_txt (f : texts -> texts) (a : app) : app :=
  {| search := search a; prefs := prefs a; vars := vars a; btns := btns a; txt := f (txt a) |}.

Definition set_current_keywords (v : str) (s : search_state) : search_state :=
  {| current_keywords := v; current_offset := current_offset s;
     current_limit := current_limit s; song_details := song_details s;
     selected_song := selected_song s |}.
Definition set_current_offset (v : Z) (s : search_state) : search_state :=
  {| current_keywords := current_keywords s; current_offset := v;
     current_limit := current_limit s; song_details := song_details s;
     selected_song := selected_song s |}.
Definition set_current_limit (v : Z) (s : search_state) : search_state :=
  {| current_keywords := current_keywords s; current_offset := current_offset s;
     current_limit := v; song_details := song_details s;
     selected_song := selected_song s |}.
Definition set_song_details (v : list song_info) (s : search_state) : search_state :=
  {| current_keywords := current_keywords s; current_offset := current_offset s;
     current_limit := current_limit s; song_details := v;
     selected_song := selected_song s |}.
Definition set_selected_song (v : option selection) (s : search_state) : search_state :=
  {| current_keywords := current_keywords s; current_offset := current_offset s;
     current_limit := current_limit s; song_details := song_details s;
     selected_song := v |}.

Definition set_keyword_var (v : str) (s : tkvars) : tkvars :=
  {| keyword_var := v; offset_var := offset_var s; goto_var := goto_var s;
     limit_var := limit_var s |}.
Definition set_offset_var (v : str) (s : tkvars) : tkvars :=
  {| keyword_var := keyword_var s; offset_var := v; goto_var := goto_var s;
     limit_var := limit_var s |}.
Definition set_goto_var (v : str) (s : tkvars) : tkvars :=
  {| keyword_var := keyword_var s; offset_var := offset_var s; goto_var := v;
     limit_var := limit_var s |}.

Definition set_prev_btn (v : btn) (s : buttons) : buttons :=
  {| prev_btn := v; next_btn := next_btn s; download_btn := download_btn s;
     batch_download_btn := batch_download_btn s;
     test_download_btn := test_download_btn s |}.
Definition set_next_btn (v : btn) (s : buttons) : buttons :=
  {| prev_btn := prev_btn s; next_btn := v; download_btn := download_btn s;
     batch_download_btn := batch_download_btn s;
     test_download_btn := test_download_btn s |}.
Definition set_download_btn (v : btn) (s : buttons) : buttons :=
  {| prev_btn := prev_btn s; next_btn := next_btn s; download_btn := v;
     batch_download_btn := batch_download_btn s;
     test_download_btn := test_download_btn s |}.
Definition set_batch_download_btn (v : btn) (s : buttons) : buttons :=
  {| prev_btn := prev_btn s; next_btn := next_btn s; download_btn := download_btn s;
     batch_download_btn := v; test_download_btn := test_download_btn s |}.
Definition set_test_download_btn (v : btn) (s : buttons) : buttons :=
  {| prev_btn := prev_btn s; next_btn := next_btn s; download_btn := download_btn s;
     batch_download_btn := batch_download_btn s; test_download_btn := v |}.

Definition set_status_label (v : str) (s : texts) : texts :=
  {| status_label := v; detail_download_status := detail_download_status s;
     download_log_text := download_log_text s |}.
Definition set_detail_download_status (v : str) (s : texts) : texts :=
  {| status_label := status_label s; detail_download_status := v;
     download_log_text := download_log_text s |}.
Definition set_download_log_text (v : str) (s : texts) : texts :=
  {| status_label := status_label s; detail_download_status := detail_download_status s;
     download_log_text := v |}.

(** ** Settings *)

Definition default_naming_format : json := JStr (py "歌曲名-歌手").
Definition default_download_dir : json := JStr (py "downloads").
Definition default_settings : settings :=
  {| naming_format := default_naming_format; download_dir := default_download_dir |}.

(** What opening and decoding [settings.json] gives. *)
Inductive settings_file :=
| NoFile                   (* os.path.exists("settings.json") is False *)
| Unreadable               (* open or json.load raises *)
| Loaded (v : json).       (* json.load returns v *)

(** [load_settings]: the two assignments run in order inside the [try];
    any exception (also the [AttributeError] of [.get] on a value that is
    not a [dict]) resets both preferences. *)
Definition load_settings (f : settings_file) (s : settings) : settings :=
  match f with
  | NoFile => s
  | Unreadable => default_settings
  | Loaded v =>
    match dict_get v (py "naming_format") (JStr (py "歌曲名-歌手")) with
    | None => default_settings
    | Some nf =>
      match dict_get v (py "download_dir") (JStr (py "downloads")) with
      | None => default_settings
      | Some dd => {| naming_format := nf; download_dir := dd |}
      end
    end
  end.

(** The state [__init__] builds: the defaults are assigned, then
    [load_settings] runs, then the widgets are created. *)
Definition __init__ (f : settings_file) : app :=
  {| search := {| current_keywords := []; current_offset := 0; current_limit := 20;
                  song_details := []; selected_song := None |};
     prefs := load_settings f default_settings;
     vars := {| keyword_var := []; offset_var := py "0"; goto_var := [];
                limit_var := py "20" |};
     btns := {| prev_btn := disabled; next_btn := disabled; download_btn := disabled;
                batch_download_btn := disabled; test_download_btn := disabled |};
     txt := {| status_label := py "就绪"; detail_download_status := [];
               download_log_text := [] |} |}.

(** ** File names *)

(** The raw string of illegal characters: less-than, greater-than, colon,
    double quote, slash, backslash (twice: the literal is raw and writes
    it doubled), bar, question mark, star. *)
Definition illegal_chars : str := [60; 62; 58; 34; 47; 92; 92; 124; 63; 42]%N.

Definition clean_filename (text : str) : str :=
  strip (fold_left (fun text char => replace char (py "_") text) illegal_chars text).

Definition generate_filename (naming_format : json) (song_name artist : str) : str :=
  let clean_song_name := clean_filename song_name in
  let clean_artist := clean_filename artist in
  if match naming_format with
     | JStr s => str_eqb s (py "歌曲名")
     | _ => false
     end
  then clean_song_name ++ py ".mp3"
  else clean_song_name ++ py " - " ++ clean_artist ++ py ".mp3".

(** ** Single download *)

Definition os_path_exists (fs : filesystem) (p : str) : bool :=
  bool_decide (is_Some (fs !! p)).

(** The name tried at a given value of [counter]. *)
Definition numbered (download_dir filename : str) (counter : Z) : str :=
  let '(base_name, ext) := os_path_splitext filename in
  let new_filename := base_name ++ py " (" ++ str_of_int counter ++ py ")" ++ ext in
  os_path_join download_dir new_filename.

(** The [while os.path.exists(full_path)] loop, bounded by [fuel]
    iterations ([None]: still running). *)
Fixpoint probe (fuel : nat) (fs : filesystem) (download_dir filename full_path : str)
    (counter : Z) : option str :=
  match fuel with
  | O => None
  | S fuel' =>
    if os_path_exists fs full_path
    then probe fuel' fs download_dir filename
           (numbered download_dir filename counter) (counter + 1)
    else Some full_path
  end.

(** The loop run from [counter = 1].  [size fs + 2] iterations always
    suffice ([probe_terminates]), so the default is never taken. *)
Definition avoid_duplicate (fs : filesystem) (download_dir filename : str) : str :=
  let full_path := os_path_join download_dir filename in
  default full_path (probe (size fs + 2) fs download_dir filename full_path 1).

Definition sentinel : str := py "https://music.163.com/#/404".

Definition nonempty (s : str) : bool := negb (bool_decide (s = [])).

Definition fetch_and_download_song (E : env) (t : nat) (cfg : settings)
    (fs : filesystem) (song_id : Z) (song_name artist download_link : str)
    : filesystem * (bool * str) * list event :=
  let download_link :=
    if nonempty download_link then download_link
    else py "http://music.163.com/song/media/outer/url?id=" ++ str_of_int song_id
         ++ py ".mp3" in
  let ev := [Call (Log (py "下载链接: " ++ download_link) (py "DEBUG"));
             HttpGet t download_link] in
  match requests_get E t download_link with
  | Raises e => (fs, (false, py "网络请求失败: " ++ e), ev)
  | Responds response =>
    if str_eqb (url response) (py "https://music.163.com/#/404")
    then (fs, (false, py "无法下载歌曲，请检查ID是否正确"), ev)
    else if negb (status_code response =? 200)
    then (fs, (false, py "下载失败，状态码: " ++ str_of_int (status_code response)), ev)
    else
      match download_dir cfg with
      | JStr dir =>
        match (if os_path_exists fs dir then inr fs
               else match os_makedirs E fs dir with
                    | inl e => inl e
                    | inr ps => inr (<[dir := Dir]> (foldr (fun p m => <[p := Dir]> m) fs ps))
                    end) with
        | inl e => (fs, (false, py "下载失败: " ++ e), ev)
        | inr fs1 =>
          let filename :=
            if nonempty song_name && nonempty artist
            then generate_filename (naming_format cfg) song_name artist
            else py "歌曲_" ++ str_of_int song_id ++ py ".mp3" in
          let full_path := avoid_duplicate fs1 dir filename in
          match open_write_error E fs1 full_path with
          | Some (e, partial) =>
            (match partial with
             | Some bytes => <[full_path := File bytes]> fs1
             | None => fs1
             end, (false, py "下载失败: " ++ e), ev)
          | None =>
            (<[full_path := File (content response)]> fs1, (true, full_path), ev)
          end
        end
      | other => (fs, (false, py "下载失败: " ++ path_type_error E other), ev)
      end
  end.

(** ** Worker threads *)

Definition nl : str := [10]%N.

(** [os.path.basename] of posixpath. *)
Definition os_path_basename (p : str) : str :=
  skipn (Z.to_nat (rfind sep p + 1)) p.

Definition _do_download (E : env) (t : nat) (cfg : settings) (fs : filesystem)
    (song_id : Z) (song_name artist download_link : str) : filesystem * list event :=
  let '(fs1, (success, result), ev) :=
    fetch_and_download_song E t cfg fs song_id song_name artist download_link in
  (fs1,
   After (StatusLabel (py "正在下载: " ++ song_name))
   :: After (DetailDownloadStatus (py "下载中..."))
   :: ev ++
   (if success then
      [After (Log (py "下载成功: " ++ song_name ++ py " - " ++ artist) (py "INFO"));
       After (AddDownloadLog (py "✅ 下载成功: " ++ song_name ++ py " - " ++ artist));
       After (DetailDownloadStatus (py "✅ 下载完成: " ++ os_path_basename result));
       After (MessageBox showinfo (py "下载成功") (py "歌曲已下载到:" ++ nl ++ result))]
    else
      [After (Log (py "下载失败: " ++ result) (py "ERROR"));
       After (AddDownloadLog (py "❌ 下载失败: " ++ song_name ++ py " - " ++ result));
       After (DetailDownloadStatus (py "❌ 下载失败: " ++ result));
       After (MessageBox showerror (py "下载失败") (py "下载失败:" ++ nl ++ result))])).

Definition progress_text (done total : Z) : str :=
  py "批量下载中... " ++ str_of_int done ++ py "/" ++ str_of_int total.

(** The [for i, song_info in enumerate(songs_info)] loop; the request of
    the track at position [i] is made at time [t]. *)
Fixpoint batch_loop (E : env) (cfg : settings) (total : Z) (t : nat) (i : Z)
    (songs_info : list song_info) (fs : filesystem) (success_count fail_count : Z)
    : filesystem * (Z * Z) * list event :=
  match songs_info with
  | [] => (fs, (success_count, fail_count), [])
  | song_info :: rest =>
    let song_name := name song_info in
    let artist := artist_str song_info in
    let '(fs1, (success, result), ev) :=
      fetch_and_download_song E t cfg fs (song_id song_info) song_name artist
        (download_link song_info) in
    let '(fs2, counts, evs) :=
      if success
      then batch_loop E cfg total (S t) (i + 1) rest fs1 (success_count + 1) fail_count
      else batch_loop E cfg total (S t) (i + 1) rest fs1 success_count (fail_count + 1) in
    (fs2, counts,
     After (StatusLabel (progress_text (i + 1) total))
     :: ev ++
     After (AddDownloadLog
              (if success
               then py "✅ 下载成功: " ++ song_name ++ py " - " ++ artist
               else py "❌ 下载失败: " ++ song_name ++ py " - " ++ artist
                    ++ py " (" ++ result ++ py ")"))
     :: evs)
  end.

Definition format_dir (E : env) (v : json) : str :=
  match v with
  | JStr s => s
  | other => py_str E other
  end.

Definition batch_summary (total success_count fail_count : Z) : str :=
  py "批量下载完成: 共 " ++ str_of_int total ++ py " 首，成功 " ++ str_of_int success_count
  ++ py " 首，失败 " ++ str_of_int fail_count ++ py " 首".

Definition _do_batch_download (E : env) (t : nat) (cfg : settings) (fs : filesystem)
    (songs_info : list song_info) : filesystem * list event :=
  let total := Z.of_nat (length songs_info) in
  let '(fs1, (success_count, fail_count), evs) :=
    batch_loop E cfg total t 0 songs_info fs 0 0 in
  (fs1,
   After (StatusLabel (progress_text 0 total))
   :: evs ++
   [After (StatusLabel (py "批量下载完成: 成功 " ++ str_of_int success_count
                        ++ py " 首，失败 " ++ str_of_int fail_count ++ py " 首"));
    After (AddDownloadLog (batch_summary total success_count fail_count));
    if fail_count =? 0
    then After (MessageBox showinfo (py "批量下载完成")
                  (py "批量下载完成！" ++ nl ++ py "成功下载 " ++ str_of_int success_count
                   ++ py " 首歌曲到 " ++ format_dir E (download_dir cfg) ++ py " 文件夹。"))
    else After (MessageBox showwarning (py "批量下载完成")
                  (py "批量下载完成！" ++ nl ++ py "成功下载 " ++ str_of_int success_count
                   ++ py " 首，失败 " ++ str_of_int fail_count ++ py " 首。" ++ nl
                   ++ py "请查看下载记录获取详细信息。"))]).

(** ** Interface methods *)

(** [log]: the status bar follows messages of level INFO. *)
Definition log (message level : str) (a : app) : app :=
  if str_eqb level (py "INFO") then with_txt (set_status_label message) a else a.

(** [add_download_log]; [timestamp] is
    [datetime.now().strftime("%Y-%m-%d %H:%M:%S")].  A widget object is
    always true, so the line is always inserted at the end. *)
Definition add_download_log (timestamp message : str) (a : app) : app :=
  let log_entry := py "[" ++ timestamp ++ py "] " ++ message in
  with_txt (set_download_log_text (download_log_text (txt a) ++ log_entry ++ nl)) a.

Definition base_url : str := py "https://163api.qijieya.cn/search".

Definition search_music (E : env) (t : nat) (keywords offset limit : str) (a : app)
    : app * option json * list event :=
  let link := base_url ++ py "?keywords=" ++ keywords ++ py "&offset=" ++ offset
              ++ py "&limit=" ++ limit ++ py "&type=1" in
  let a := log (py "开始搜索: '" ++ keywords ++ py "' (offset=" ++ offset
                ++ py ", limit=" ++ limit ++ py ")") (py "INFO") a in
  let a := log (py "请求URL: " ++ link) (py "DEBUG") a in
  let failed (e : str) :=
    (log (py "搜索失败: " ++ e) (py "ERROR") a, None,
     [HttpGet t link;
      Call (MessageBox showerror (py "搜索失败") (py "搜索过程中发生错误:" ++ nl ++ e))]) in
  match requests_get E t link with
  | Raises e => failed e
  | Responds response =>
    let a := log (py "响应状态: " ++ str_of_int (status_code response)) (py "DEBUG") a in
    if (400 <=? status_code response) && (status_code response <? 600)
    then failed (exc_text E response)
    else match json_body response with
         | None => failed (exc_text E response)
         | Some data => (a, Some data, [HttpGet t link])
         end
  end.

Definition _do_search (E : env) (t : nat) (keywords offset limit : str) (a : app)
    : app * list event :=
  let '(a, data, ev) := search_music E t keywords offset limit a in
  match data with
  | Some d => if truthy d then (a, ev ++ [After (DisplayResults d)]) else (a, ev)
  | None => (a, ev)
  end.

Definition or_default (s dflt : str) : str := if nonempty s then s else dflt.

Definition on_search (E : env) (t : nat) (a : app) : app * list event :=
  let keywords := strip (keyword_var (vars a)) in
  if negb (nonempty keywords)
  then (a, [Call (MessageBox showwarning (py "输入错误") (py "请输入搜索关键词"))])
  else
    let offset := or_default (strip (offset_var (vars a))) (py "0") in
    let limit := or_default (strip (limit_var (vars a))) (py "20") in
    match int_of_str E offset, int_of_str E limit with
    | Some offset_int, Some limit_int =>
      let a := with_search (set_current_keywords keywords) a in
      let a := with_search (set_current_offset offset_int) a in
      let a := with_search (set_current_limit limit_int) a in
      _do_search E t keywords offset limit a
    | _, _ => (a, [Call (MessageBox showwarning (py "输入错误") (py "请输入有效的数字"))])
    end.

Definition prev_page (E : env) (t : nat) (a : app) : app * list event :=
  if current_offset (search a) <=? 0 then (a, [])
  else
    let new_offset := Z.max 0 (current_offset (search a) - current_limit (search a)) in
    let a := with_vars (set_offset_var (str_of_int new_offset)) a in
    let a := with_search (set_current_offset new_offset) a in
    _do_search E t (current_keywords (search a)) (str_of_int new_offset)
      (str_of_int (current_limit (search a))) a.

Definition next_page (E : env) (t : nat) (a : app) : app * list event :=
  let new_offset := current_offset (search a) + current_limit (search a) in
  let a := with_vars (set_offset_var (str_of_int new_offset)) a in
  let a := with_search (set_current_offset new_offset) a in
  _do_search E t (current_keywords (search a)) (str_of_int new_offset)
    (str_of_int (current_limit (search a))) a.

Definition goto_offset (E : env) (t : nat) (a : app) : app * list event :=
  let offset_str := strip (goto_var (vars a)) in
  if negb (nonempty offset_str) then (a, [])
  else
    let invalid :=
      (a, [Call (MessageBox showwarning (py "输入错误") (py "请输入有效的数字偏移量"))]) in
    match int_of_str E offset_str with
    | None => invalid
    | Some offset =>
      if offset <? 0 then invalid
      else
        let a := with_vars (set_offset_var (str_of_int offset)) a in
        let a := with_search (set_current_offset offset) a in
        _do_search E t (current_keywords (search a)) (str_of_int offset)
          (str_of_int (current_limit (search a))) a
    end.

Definition reset_search (a : app) : app :=
  let a := with_vars (set_keyword_var []) a in
  let a := with_vars (set_offset_var (py "0")) a in
  let a := with_vars (set_goto_var []) a in
  let a := with_txt (set_download_log_text []) a in
  let a := with_txt (set_detail_download_status []) a in
  let a := with_btns (set_prev_btn disabled) a in
  let a := with_btns (set_next_btn disabled) a in
  let a := with_btns (set_download_btn disabled) a in
  let a := with_btns (set_batch_download_btn disabled) a in
  let a := with_btns (set_test_download_btn disabled) a in
  let a := with_search (set_current_keywords []) a in
  let a := with_search (set_current_offset 0) a in
  let a := with_search (set_song_details []) a in
  let a := with_search (set_selected_song None) a in
  let a := log (py "搜索状态已重置") (py "INFO") a in
  with_txt (set_status_label (py "就绪")) a.

(** [update_song_detail(index)] *)
Definition update_song_detail (index : Z) (a : app) : app :=
  if (index <? 0) || (Z.of_nat (length (song_details (search a))) <=? index) then a
  else
    match song_details (search a) !! Z.to_nat index with
    | None => a
    | Some song_info =>
      let a := with_txt (set_detail_download_status []) a in
      let a := with_search (set_selected_song
                 (Some {| sel_id := song_id song_info; sel_name := name song_info;
                          sel_artist := artist_str song_info;
                          sel_download_link := download_link song_info |})) a in
      let a := with_btns (set_download_btn normal) a in
      with_btns (set_test_download_btn normal) a
    end.

(** The extraction loop of [display_results]: records are appended one
    by one; [false] when [extract_song_info] raised on the way. *)
Fixpoint extract_loop (E : env) (songs : list json) (details : list song_info)
    : list song_info * bool :=
  match songs with
  | [] => (details, true)
  | song :: rest =>
    match extract_song_info E song with
    | None => (details, false)
    | Some song_info => extract_loop E rest (details ++ [song_info])
    end
  end.

(** [display_results(data)].  An exception leaves the method with the
    assignments made so far; the page label is not modelled. *)
Definition display_results (E : env) (data : json) (a : app) : app * list event :=
  if negb (truthy data) then (a, [])
  else
    let a := with_search (set_song_details []) a in
    match dict_get data (py "result") (JObj ∅) with
    | None => (a, [])
    | Some result =>
      match dict_get result (py "songs") (JArr []) with
      | None => (a, [])
      | Some songs =>
        if negb (truthy songs) then
          let a := log (py "未找到歌曲") (py "INFO") a in
          let a := with_btns (set_download_btn disabled) a in
          let a := with_btns (set_batch_download_btn disabled) a in
          let a := with_btns (set_test_download_btn disabled) a in
          (a, [Call (MessageBox showinfo (py "无结果") (py "未找到相关歌曲"))])
        else
          match songs with
          | JArr l =>
            match extract_loop E l [] with
            | (details, false) => (with_search (set_song_details details) a, [])
            | (details, true) =>
              let a := with_search (set_song_details details) a in
              let a := with_btns (set_prev_btn
                         (if 0 <? current_offset (search a) then normal else disabled)) a in
              let a := with_btns (set_next_btn
                         (if current_limit (search a) <=? Z.of_nat (length l)
                          then normal else disabled)) a in
              let a := with_btns (set_batch_download_btn normal) a in
              let a := log (py "显示 " ++ str_of_int (Z.of_nat (length l)) ++ py " 首歌曲")
                         (py "INFO") a in
              (match details with
               | [] => a
               | _ :: _ => update_song_detail 0 a
               end, [])
            end
          | _ => (a, [])
          end
      end
    end.

Definition text_valid (content_length content_type : str) : str :=
  py "✅ 链接有效 | 大小: " ++ content_length ++ py " bytes | 类型: " ++ content_type.
Definition text_unavailable : str := py "❌ 链接指向404页面（可能没有下载权限）".
Definition text_failed (status : Z) : str := py "❌ 链接测试失败: HTTP " ++ str_of_int status.
Definition text_error (e : str) : str := py "❌ 链接测试异常: " ++ e.

Definition test_download_link (E : env) (t : nat) (a : app) : app * list event :=
  match selected_song (search a) with
  | None => (a, [Call (MessageBox showwarning (py "测试错误") (py "请先选择一首歌曲"))])
  | Some sel =>
    let download_link := sel_download_link sel in
    let a := with_txt (set_detail_download_status (py "正在测试链接...")) a in
    match requests_head E t download_link with
    | Raises e =>
      let a := with_txt (set_detail_download_status (text_error e)) a in
      (log (py "链接测试异常: " ++ e) (py "ERROR") a, [HttpHead t download_link])
    | Responds response =>
      if status_code response =? 200 then
        let content_length :=
          default (py "未知") (headers response !! py "content-length") in
        let content_type :=
          default (py "未知") (headers response !! py "content-type") in
        let a := with_txt (set_detail_download_status
                             (text_valid content_length content_type)) a in
        (log (py "链接测试成功: " ++ download_link) (py "INFO") a,
         [HttpHead t download_link])
      else if str_eqb (url response) (py "https://music.163.com/#/404") then
        let a := with_txt (set_detail_download_status text_unavailable) a in
        (log (py "链接测试失败: 指向404页面") (py "WARNING") a, [HttpHead t download_link])
      else
        let a := with_txt (set_detail_download_status
                             (text_failed (status_code response))) a in
        (log (py "链接测试失败: HTTP " ++ str_of_int (status_code response))
           (py "WARNING") a, [HttpHead t download_link])
    end
  end.

(** [download_selected_song]: the worker thread is run to completion. *)
Definition download_selected_song (E : env) (t : nat) (a : app) (fs : filesystem)
    : filesystem * list event :=
  match selected_song (search a) with
  | None => (fs, [Call (MessageBox showwarning (py "下载错误") (py "请先选择一首歌曲"))])
  | Some sel =>
    _do_download E t (prefs a) fs (sel_id sel) (sel_name sel) (sel_artist sel)
      (sel_download_link sel)
  end.

(** [batch_download]; [confirmed] is the answer to the yes/no dialog. *)
Definition batch_download (E : env) (t : nat) (confirmed : bool) (a : app)
    (fs : filesystem) : filesystem * list event :=
  match song_details (search a) with
  | [] => (fs, [Call (MessageBox showwarning (py "下载错误") (py "没有可下载的歌曲"))])
  | _ :: _ =>
    if confirmed then _do_batch_download E t (prefs a) fs (song_details (search a))
    else (fs, [])
  end.

(** ** The main loop *)

(** One interface call, run at a moment whose formatted time is
    [timestamp]. *)
Definition run_ui_call (E : env) (timestamp : str) (c : ui_call) (a : app) : app :=
  match c with
  | StatusLabel text => with_txt (set_status_label text) a
  | DetailDownloadStatus text => with_txt (set_detail_download_status text) a
  | Log message level => log message level a
  | AddDownloadLog message => add_download_log timestamp message a
  | MessageBox _ _ _ => a
  | DisplayResults data => fst (display_results E data a)
  end.

Definition ui_call_of (e : event) : option ui_call :=
  match e with
  | After c | Call c => Some c
  | HttpGet _ _ | HttpHead _ _ => None
  end.

(** The interface calls of a run take effect in the order they were
    issued; the call number [k] is made at time [clock k]. *)
Fixpoint mainloop (E : env) (clock : nat -> str) (k : nat) (evs : list event) (a : app)
    : app :=
  match evs with
  | [] => a
  | e :: rest =>
    match ui_call_of e with
    | Some c => mainloop E clock (S k) rest (run_ui_call E (clock k) c a)
    | None => mainloop E clock k rest a
    end
  end.

(** A button runs its command only while it is enabled. *)
Definition press (b : btn) (command : app -> app * list event) (a : app)
    : app * list event :=
  match b with
  | normal => command a
  | disabled => (a, [])
  end.

Definition press_prev (E : env) (t : nat) (a : app) : app * list event :=
  press (prev_btn (btns a)) (prev_page E t) a.

Definition press_next (E : env) (t : nat) (a : app) : app * list event :=
  press (next_btn (btns a)) (next_page E t) a.

(** ** Vocabulary of the stated properties *)

(** The characters a file name must not contain:
    less-than, greater-than, colon, double quote, slash, backslash, bar,
    question mark and star. *)
Definition forbidden : list N := [60; 62; 58; 34; 47; 92; 124; 63; 42]%N.

(** A forbidden character becomes an underscore, any other is kept. *)
Definition sanitize (c : N) : N :=
  if existsb (N.eqb c) forbidden then 95%N else c.

(** The link a download requests: the one given, or the one built from
    the track id when none is given. *)
Definition effective_link (song_id : Z) (download_link : str) : str :=
  if nonempty download_link then download_link
  else py "http://music.163.com/song/media/outer/url?id=" ++ str_of_int song_id
       ++ py ".mp3".

(** The file system in which the collision loop of a download runs: the
    one found, with the download directory made when it was absent. *)
Definition with_download_dir (E : env) (fs : filesystem) (dir : str) : str + filesystem :=
  if os_path_exists fs dir then inr fs
  else match os_makedirs E fs dir with
       | inl e => inl e
       | inr ps => inr (<[dir := Dir]> (foldr (fun p m => <[p := Dir]> m) fs ps))
       end.

(** The file name a download starts from. *)
Definition filename_of (cfg : settings) (song_id : Z) (song_name artist : str) : str :=
  if nonempty song_name && nonempty artist
  then generate_filename (naming_format cfg) song_name artist
  else py "歌曲_" ++ str_of_int song_id ++ py ".mp3".

(** [n] downloads of the same track, one after the other, each on the
    file system the previous one left. *)
Fixpoint consecutive (E : env) (t : nat) (cfg : settings) (fs : filesystem)
    (song_id : Z) (song_name artist download_link : str) (n : nat)
    : filesystem * list (bool * str) :=
  match n with
  | O => (fs, [])
  | S n' =>
    let '(fs1, res, _) :=
      fetch_and_download_song E t cfg fs song_id song_name artist download_link in
    let '(fs2, rs) :=
      consecutive E (S t) cfg fs1 song_id song_name artist download_link n' in
    (fs2, res :: rs)
  end.

(** The paths of the downloads that succeeded. *)
Definition saved_paths (rs : list (bool * str)) : list str :=
  map snd (List.filter (fun r : bool * str => fst r) rs).

(** The results of the downloads of a batch, in order: each runs on the
    file system the previous one left, one time step later. *)
Fixpoint attempts (E : env) (t : nat) (cfg : settings) (fs : filesystem)
    (songs_info : list song_info) : list (bool * str) :=
  match songs_info with
  | [] => []
  | s :: rest =>
    let '(fs1, res, _) :=
      fetch_and_download_song E t cfg fs (song_id s) (name s) (artist_str s)
        (download_link s) in
    res :: attempts E (S t) cfg fs1 rest
  end.

(** ** A test environment *)

(** The [int()] of the sample runs: decimal digits with an optional minus
    sign.  Python's [int()] accepts more (a plus sign, underscores
    between digits, digits of other scripts, surrounding white space). *)
Definition decimal_int (s : str) : option Z :=
  option_map Z.of_int
    (NilZero.int_of_string (string_of_list_ascii (map ascii_of_N s))).

(** The extraction of the sample runs, a stand-in for the method of the
    source (which is [Track.extract_song_info] below): a record with an
    id and a name becomes a track by one artist. *)
Definition sample_extract (song : json) : option song_info :=
  match song with
  | JObj m =>
    let id := match m !! py "id" with Some (JNum n) => n | _ => 0 end in
    Some {| song_id := id;
            name := match m !! py "name" with Some (JStr s) => s | _ => py "未知歌曲" end;
            artists := [py "歌手"]; artist_ids := [py "1"]; artist_str := py "歌手";
            album_id := 0; album_name := py "未知专辑"; duration := py "0:00";
            duration_ms := 0; publish_time := py "未知";
            download_link := py "http://music.163.com/song/media/outer/url?id="
                             ++ str_of_int id ++ py ".mp3" |}
  | _ => None
  end.

(** A network given by [get] and [head] over a file system that never
    fails. *)
Definition sample_env (get head : nat -> str -> http_outcome) : env :=
  {| requests_get := get;
     requests_head := head;
     os_makedirs := fun _ _ => inr [];
     open_write_error := fun _ _ => None;
     path_type_error := fun _ => py "expected str, bytes or os.PathLike object";
     exc_text := fun _ => py "HTTPError";
     py_str := fun _ => py "None";
     int_of_str := decimal_int;
     extract_song_info := sample_extract |}.

Definition page (link : str) (status : Z) : response :=
  {| url := link; status_code := status; content := [73; 68; 51]%N;
     headers := ∅; json_body := None |}.

(** The two failure messages of a download that got a response. *)
Definition msg_unavailable : str := py "无法下载歌曲，请检查ID是否正确".
Definition msg_status (code : Z) : str := py "下载失败，状态码: " ++ str_of_int code.

(** Every path of [fs] is still there in [fs']. *)
Definition grows (fs fs' : filesystem) : Prop :=
  forall q, is_Some (fs !! q) -> is_Some (fs' !! q).

(** A network on which every link ends on the sentinel page, served
    with status 200. *)
Definition sentinel_env : env :=
  sample_env (fun _ _ => Responds (page sentinel 200))
             (fun _ _ => Responds (page sentinel 200)).

(** A network on which every link is served. *)
Definition serving_env : env :=
  sample_env (fun _ link => Responds (page link 200))
             (fun _ link => Responds (page link 200)).

(** A world in which the download of [link] cannot fail: each request is
    answered with status 200 away from the sentinel page, missing
    directories can be created and files written. *)
Definition serves (E : env) (link : str) : Prop :=
  (forall t, exists r, requests_get E t link = Responds r
                       /\ url r <> sentinel /\ status_code r = 200)
  /\ (forall fs d, exists ps, os_makedirs E fs d = inr ps)
  /\ (forall fs p, open_write_error E fs p = None).

(** The download-record line of one track of a batch. *)
Definition track_entry (s : song_info) (res : bool * str) : str :=
  if res.1
  then py "✅ 下载成功: " ++ name s ++ py " - " ++ artist_str s
  else py "❌ 下载失败: " ++ name s ++ py " - " ++ artist_str s
       ++ py " (" ++ res.2 ++ py ")".

(** What a run shows from outside: the requests sent, the lines handed
    to the download record, the texts put in the status bar. *)
Definition requests_of (evs : list event) : list (nat * str) :=
  omap (fun e => match e with HttpGet t link => Some (t, link) | _ => None end) evs.

Definition entries_of (evs : list event) : list str :=
  omap (fun e => match e with After (AddDownloadLog m) => Some m | _ => None end) evs.

Definition status_of (evs : list event) : list str :=
  omap (fun e => match e with After (StatusLabel m) => Some m | _ => None end) evs.

(** The events with which a download of [link] at time [t] starts. *)
Definition attempt_events (t : nat) (link : str) : list event :=
  [Call (Log (py "下载链接: " ++ link) (py "DEBUG")); HttpGet t link].

Definition failures (rs : list (bool * str)) : nat :=
  length (List.filter (fun r : bool * str => negb r.1) rs).

Definition successes (rs : list (bool * str)) : nat :=
  length (List.filter (fun r : bool * str => r.1) rs).

(** A track as the test extraction builds it. *)
Definition track (id : Z) (title : str) : song_info :=
  {| song_id := id; name := title;
     artists := [py "歌手"]; artist_ids := [py "1"]; artist_str := py "歌手";
     album_id := 0; album_name := py "未知专辑"; duration := py "0:00";
     duration_ms := 0; publish_time := py "未知";
     download_link := py "http://music.163.com/song/media/outer/url?id="
                      ++ str_of_int id ++ py ".mp3" |}.

(** A network that serves every track but number 2, whose link ends on
    the sentinel page. *)
Definition mixed_env : env :=
  sample_env
    (fun _ link =>
       if str_eqb link (py "http://music.163.com/song/media/outer/url?id=2.mp3")
       then Responds (page sentinel 200) else Responds (page link 200))
    (fun _ link => Responds (page link 200)).

(** The address [search_music] requests. *)
Definition search_link (keywords offset limit : str) : str :=
  base_url ++ py "?keywords=" ++ keywords ++ py "&offset=" ++ offset
  ++ py "&limit=" ++ limit ++ py "&type=1".

(** The four pagination operations; [OpGoto s] is the jump button
    pressed with [s] typed in the jump field. *)
Inductive page_op :=
| OpNext
| OpPrev
| OpGoto (typed : str)
| OpReset.

(** One operation at time [t], followed by the interface calls it left
    for the main loop (the display of the page found). *)
Definition run_op (E : env) (clock : nat -> str) (t : nat) (op : page_op) (a : app) : app :=
  let '(a', evs) :=
    match op with
    | OpNext => next_page E t a
    | OpPrev => prev_page E t a
    | OpGoto typed => goto_offset E t (with_vars (set_goto_var typed) a)
    | OpReset => (reset_search a, [])
    end in
  mainloop E clock 0 evs a'.

Fixpoint run_ops (E : env) (clock : nat -> str) (t : nat) (ops : list page_op) (a : app)
    : app :=
  match ops with
  | [] => a
  | op :: rest => run_ops E clock (S t) rest (run_op E clock t op a)
  end.

Definition invalid_offset_warning : event :=
  Call (MessageBox showwarning (py "输入错误") (py "请输入有效的数字偏移量")).

(** Two states that differ at most in the status bar. *)
Definition same_but_status (a a' : app) : Prop :=
  search a' = search a /\ vars a' = vars a /\ btns a' = btns a /\ prefs a' = prefs a
  /\ download_log_text (txt a') = download_log_text (txt a)
  /\ detail_download_status (txt a') = detail_download_status (txt a).

(** The paging cursor: keyword, offset, limit. *)
Definition cursor (a : app) : str * Z * Z :=
  (current_keywords (search a), current_offset (search a), current_limit (search a)).

(** The jump field holding a negative number between blanks. *)
Definition typed_minus_five : app := with_vars (set_goto_var (py " -5 ")) (__init__ NoFile).

(** Values the two preferences may take: one of the two formats, and a
    path. *)
Definition valid_naming_format (v : json) : Prop :=
  v = JStr (py "歌曲名") \/ v = JStr (py "歌曲名-歌手").

Definition valid_download_dir (v : json) : Prop := exists d : str, v = JStr d.

Definition valid_settings (s : settings) : Prop :=
  valid_naming_format (naming_format s) /\ valid_download_dir (download_dir s).

(** A settings document that parses and holds a number and a null. *)
Definition odd_settings_document : json :=
  JObj (<[py "naming_format" := JNum 5]> (<[py "download_dir" := JNull]> ∅)).

(** The line [add_download_log] inserts. *)
Definition log_line (timestamp message : str) : str :=
  py "[" ++ timestamp ++ py "] " ++ message ++ nl.

(** The messages a run hands to [add_download_log], in place or
    deferred. *)
Definition logged (evs : list event) : list str :=
  omap (fun e => match ui_call_of e with
                 | Some (AddDownloadLog m) => Some m
                 | _ => None
                 end) evs.

(** A state with one track listed and selected. *)
Definition selected_track : app :=
  update_song_detail 0
    (with_search (set_song_details [track 1 (py "a")]) (__init__ NoFile)).

(** A search response carrying [data]. *)
Definition json_page (link : str) (data : json) : response :=
  {| url := link; status_code := 200; content := []; headers := ∅;
     json_body := Some data |}.

Definition result_page (songs : list json) : json :=
  JObj {[ py "result" :=
            JObj (<[py "songs" := JArr songs]> {[ py "songCount" := JNum 137 ]}) ]}.

Definition sample_song : json :=
  JObj (<[py "id" := JNum 1]> {[ py "name" := JStr (py "a") ]}).

(** A catalogue whose first page of 20 is full and whose later pages are
    empty, the total being reported as 137. *)
Definition paging_env : env :=
  sample_env
    (fun _ link =>
       if str_eqb link (search_link (py "测试") (py "0") (py "20"))
       then Responds (json_page link (result_page (replicate 20 sample_song)))
       else Responds (json_page link (result_page [])))
    (fun _ link => Responds (page link 200)).

Definition noon (k : nat) : str := py "2025-01-01 12:00:00".

(** The keyword typed, the search button pressed, the page displayed. *)
Definition first_page_shown : app :=
  let '(a, evs) :=
    on_search paging_env 0 (with_vars (set_keyword_var (py "测试")) (__init__ NoFile)) in
  mainloop paging_env noon 0 evs a.

(** Then the next button pressed and the (empty) page displayed. *)
Definition second_page_shown : app :=
  let '(a, evs) := press_next paging_env 1 first_page_shown in
  mainloop paging_env noon 0 evs a.

(** ** Track extraction *)

Module Track.

(** The dictionary [extract_song_info] returns (without [raw_data]), with
    every field as the method leaves it: what [.get] found is kept as it
    is, whatever its type. *)
Record song_dict := {
  d_song_id : json;
  d_name : json;
  d_artists : list str;
  d_artist_ids : list str;
  d_artist_str : str;
  d_album_id : json;
  d_album_name : json;
  d_duration : str;
  d_duration_ms : json;
  d_publish_time : str;
  d_download_link : str
}.

(** [sep.join(l)] for a list of strings. *)
Definition join (sep : str) (l : list str) : str :=
  match l with
  | [] => []
  | x :: rest => x ++ flat_map (fun y => sep ++ y) rest
  end.

(** The elements of a list of values when all of them are strings;
    [None] otherwise ([str.join] raises [TypeError]). *)
Fixpoint all_str (l : list json) : option (list str) :=
  match l with
  | [] => Some []
  | JStr s :: rest => option_map (cons s) (all_str rest)
  | _ :: _ => None
  end.

(** The value as an [int]: an integer, or a boolean counted as 1 or 0;
    [None] for a [float] and for what arithmetic rejects. *)
Definition int_value (v : json) : option Z :=
  match v with
  | JNum n => Some n
  | JBool b => Some (if b then 1 else 0)
  | _ => None
  end.

(** The numbers of Python arithmetic. *)
Inductive number :=
| Int (n : Z)
| Float (x : spec_float).

(** The value as a number; [None] for what [/] rejects with
    [TypeError]. *)
Definition number_value (v : json) : option number :=
  match v with
  | JFloat x => Some (Float x)
  | other => option_map Int (int_value other)
  end.

(** What [for x in v] goes through; [None] when [v] is not iterable.  A
    string gives its characters, a [dict] its keys. *)
Definition elements_of (v : json) : option (list json) :=
  match v with
  | JArr l => Some l
  | JStr s => Some (map (fun c => JStr [c]) s)
  | JObj m => Some (map (fun kv : str * json => JStr kv.1) (map_to_list m))
  | _ => None
  end.

(** [f"{n:02d}"] *)
Definition format_02d (n : Z) : str :=
  let digits := str_of_int n in
  if (length digits <? 2)%nat then py "0" ++ digits else digits.

Section Extraction.

(** [E] gives [str] of floats, lists and dictionaries; [fromtimestamp ms]
    is [datetime.fromtimestamp(ms/1000).strftime('%Y-%m-%d')], [None]
    when it raises. *)
Variable E : env.
Variable fromtimestamp : number -> option str.

(** [str(v)] *)
Definition str_of_value (v : json) : str :=
  match v with
  | JStr s => s
  | JNum n => str_of_int n
  | JBool true => py "True"
  | JBool false => py "False"
  | JNull => py "None"
  | other => py_str E other
  end.

(** The [for artist in artists_data] loop. *)
Fixpoint artists_loop (artists_data : list json) (artist_names : list json)
    (artist_ids : list str) : option (list json * list str) :=
  match artists_data with
  | [] => Some (artist_names, artist_ids)
  | artist :: rest =>
    match dict_get artist (py "name") (JStr (py "未知歌手")),
          dict_get artist (py "id") (JNum 0) with
    | Some name, Some artist_id =>
      artists_loop rest (artist_names ++ [name])
        (artist_ids ++ [str_of_value artist_id])
    | _, _ => None
    end
  end.

(** The duration text.  On a [float] the divisions go through and the
    format code [02d] raises [ValueError]. *)
Definition format_duration (duration_ms : json) : option str :=
  if truthy duration_ms then
    match int_value duration_ms with
    | Some n =>
      let total_seconds := n / 1000 in
      let minutes := total_seconds / 60 in
      let seconds := total_seconds mod 60 in
      Some (str_of_int minutes ++ py ":" ++ format_02d seconds)
    | None => None
    end
  else Some (py "0:00").

Definition format_publish (publish_time : json) : str :=
  if truthy publish_time then
    match number_value publish_time with
    | Some ms =>
      match fromtimestamp ms with
      | Some date => date
      | None => str_of_value publish_time
      end
    | None => str_of_value publish_time
    end
  else py "未知".

(** [extract_song_info(song)]; [None] when it raises. *)
Definition extract_song_info (song : json) : option song_dict :=
  song_id ← dict_get song (py "id") (JNum 0);
  album_data ← dict_get song (py "album") (JObj ∅);
  album_id ← dict_get album_data (py "id") (JNum 0);
  album_name ← dict_get album_data (py "name") (JStr (py "未知专辑"));
  artists_data ← dict_get song (py "artists") (JArr []);
  artists ← elements_of artists_data;
  '(artist_names, artist_ids) ← artists_loop artists [] [];
  name ← dict_get song (py "name") (JStr (py "未知歌曲"));
  duration_ms ← dict_get song (py "duration") (JNum 0);
  duration_str ← format_duration duration_ms;
  publish_time ← dict_get album_data (py "publishTime") (JNum 0);
  let publish_str := format_publish publish_time in
  let download_link :=
    py "http://music.163.com/song/media/outer/url?id=" ++ str_of_value song_id
    ++ py ".mp3" in
  names ← all_str artist_names;
  Some {| d_song_id := song_id; d_name := name; d_artists := names;
          d_artist_ids := artist_ids;
          d_artist_str := match names with
                          | [] => py "未知歌手"
                          | _ :: _ => join (py "/") names
                          end;
          d_album_id := album_id; d_album_name := album_name;
          d_duration := duration_str; d_duration_ms := duration_ms;
          d_publish_time := publish_str; d_download_link := download_link |}.

(** A dictionary whose id, name, album and duration have the types of
    the data model, as a track. *)
Definition to_song_info (d : song_dict) : option song_info :=
  match d_song_id d, d_name d, d_album_id d, d_album_name d, d_duration_ms d with
  | JNum id, JStr title, JNum album, JStr album_title, JNum ms =>
    Some {| song_id := id; name := title; artists := d_artists d;
            artist_ids := d_artist_ids d; artist_str := d_artist_str d;
            album_id := album; album_name := album_title; duration := d_duration d;
            duration_ms := ms; publish_time := d_publish_time d;
            download_link := d_download_link d |}
  | _, _, _, _, _ => None
  end.

End Extraction.

(** Records an artist list must consist of for the extraction not to
    raise: dictionaries whose name, when present, is a string. *)
Definition artist_ok (artist : json) : bool :=
  match artist with
  | JObj m => match m !! (py "name" : str) with
              | Some (JStr _) | None => true
              | Some _ => false
              end
  | _ => false
  end.

(** The song records on which the extraction does not raise. *)
Definition well_shaped (song : json) : bool :=
  match song with
  | JObj m =>
    match m !! (py "album" : str) with
    | Some (JObj _) | None => true
    | Some _ => false
    end
    && match m !! (py "artists" : str) with
       | None => true
       | Some (JArr l) => forallb artist_ok l
       | Some (JStr s) => bool_decide (s = [])
       | Some (JObj keys) => match size keys with O => true | S _ => false end
       | Some _ => false
       end
    && match m !! (py "duration" : str) with
       | None | Some (JNum _) | Some (JBool _) => true
       | Some v => negb (truthy v)
       end
  | _ => false
  end.

End Track.

(** ** Saving the preferences *)

(** How writing [settings.json] ends: written in full, not opened (the
    old file stays), or broken off during [json.dump] (a truncated file
    stays, which does not parse). *)
Inductive save_outcome :=
| Written
| NotOpened
| BrokenOff.

(** [save_settings]: the document left on disk.  Every exception is
    caught and only logged. *)
Definition save_settings (o : save_outcome) (s : settings) (old : settings_file)
    : settings_file :=
  match o with
  | Written =>
    Loaded (JObj (<[py "naming_format" := naming_format s]>
                    (<[py "download_dir" := download_dir s]> ∅)))
  | NotOpened => old
  | BrokenOff => Unreadable
  end.

Definition with_prefs (f : settings -> settings) (a : app) : app :=
  {| search := search a; prefs := f (prefs a); vars := vars a; btns := btns a;
     txt := txt a |}.

(** [save_naming_settings] of the naming dialog; [chosen] is the value of
    the selected radio button. *)
Definition save_naming_settings (o : save_outcome) (chosen : str) (a : app)
    (file : settings_file) : app * settings_file :=
  let a := with_prefs (fun s => {| naming_format := JStr chosen;
                                   download_dir := download_dir s |}) a in
  let file := save_settings o (prefs a) file in
  (log (py "歌曲命名格式已设置为: " ++ chosen) (py "INFO") a, file).

(** [save_location_settings] of the location dialog; [typed] is the
    content of the entry field, [remove_error] tells whether [os.remove]
    raises and [abspath] is [os.path.abspath]. *)
Definition save_location_settings (E : env)
    (remove_error : filesystem -> str -> option str) (abspath : str -> str)
    (o : save_outcome) (typed : str) (a : app) (fs : filesystem) (file : settings_file)
    : app * filesystem * settings_file * list event :=
  let new_location := strip typed in
  if negb (nonempty new_location)
  then (a, fs, file, [Call (MessageBox showwarning (py "输入错误") (py "请输入下载位置"))])
  else
    match (if os_path_exists fs new_location then inr fs
           else match os_makedirs E fs new_location with
                | inl e => inl e
                | inr ps => inr (<[new_location := Dir]>
                                   (foldr (fun p m => <[p := Dir]> m) fs ps))
                end) with
    | inl _ =>
      (a, fs, file,
       [Call (MessageBox showerror (py "路径错误")
                (py "无法创建指定的目录，请检查路径是否有写权限。"))])
    | inr fs1 =>
      let test_file := os_path_join new_location (py "test_write.tmp") in
      let denied := Call (MessageBox showerror (py "权限错误")
                            (py "无法写入到指定目录，请检查目录权限。")) in
      match open_write_error E fs1 test_file with
      | Some (_, partial) =>
        (a, match partial with
            | Some bytes => <[test_file := File bytes]> fs1
            | None => fs1
            end, file, [denied])
      | None =>
        let fs2 := <[test_file := File (py "test")]> fs1 in
        match remove_error fs2 test_file with
        | Some _ => (a, fs2, file, [denied])
        | None =>
          let fs3 := delete test_file fs2 in
          let a := with_prefs (fun s => {| naming_format := naming_format s;
                                           download_dir := JStr new_location |}) a in
          let file := save_settings o (prefs a) file in
          (log (py "下载位置已设置为: " ++ abspath new_location) (py "INFO") a,
           fs3, file, [])
        end
      end
    end.

(** [on_song_selected]; [selection] is the position in the tree of the
    first selected row, if any.  A row stands for the track at the same
    position of [song_details]. *)
Definition on_song_selected (selection : option nat) (a : app) : app :=
  match selection with
  | None => a
  | Some index =>
    let a := update_song_detail (Z.of_nat index) a in
    match song_details (search a) !! index with
    | Some song_info =>
      with_txt (set_status_label
                  (py "选中: " ++ name song_info ++ py " - ID: "
                   ++ str_of_int (song_id song_info))) a
    | None => a
    end
  end.

(** The name and the id text the artist loop takes from one entry. *)
Definition name_of_artist (artist : json) : json :=
  match artist with
  | JObj m => default (JStr (py "未知歌手")) (m !! (py "name" : str))
  | _ => JNull
  end.

Definition id_of_artist (E : env) (artist : json) : str :=
  match artist with
  | JObj m => Track.str_of_value E (default (JNum 0) (m !! (py "id" : str)))
  | _ => []
  end.

Definition is_dict (v : json) : bool :=
  match v with
  | JObj _ => true
  | _ => false
  end.

Definition is_str (v : json) : bool :=
  match v with
  | JStr _ => true
  | _ => false
  end.

(** ** Vocabulary of the further properties *)

(** The dialogs that reject the input of a search. *)
Definition keyword_warning : event :=
  Call (MessageBox showwarning (py "输入错误") (py "请输入搜索关键词")).

Definition number_warning : event :=
  Call (MessageBox showwarning (py "输入错误") (py "请输入有效的数字")).

(** The dialog of a failed search; [e] is the text of the exception. *)
Definition search_error (e : str) : event :=
  Call (MessageBox showerror (py "搜索失败") (py "搜索过程中发生错误:" ++ nl ++ e)).

(** The dialog of a link test without a selected track. *)
Definition select_first_warning : event :=
  Call (MessageBox showwarning (py "测试错误") (py "请先选择一首歌曲")).

(** The dialog of the location dialog on a blank entry. *)
Definition location_warning : event :=
  Call (MessageBox showwarning (py "输入错误") (py "请输入下载位置")).

(** The entry [update_song_detail] stores in [selected_song] for a track. *)
Definition selection_of (s : song_info) : selection :=
  {| sel_id := song_id s; sel_name := name s; sel_artist := artist_str s;
     sel_download_link := download_link s |}.

(** Result pages with two good records, and with a record that is no
    dictionary between two good ones. *)
Definition two_songs : json := result_page [sample_song; sample_song].

Definition one_good_one_bad : json := result_page [sample_song; JNull; sample_song].

(** [os.makedirs] reports as created only paths that did not exist. *)
Definition makedirs_only_new (E : env) : Prop :=
  forall (fs : filesystem) (d : str) (ps : list str),
    os_makedirs E fs d = inr ps -> forall p, In p ps -> fs !! p = None.

(** The preferences read from a settings document whose values are no
    strings. *)
Definition unchecked_prefs : settings := prefs (__init__ (Loaded odd_settings_document)).

(** Whether the naming format is the title-only one. *)
Definition title_only (naming_format : json) : bool :=
  match naming_format with
  | JStr s => str_eqb s (py "歌曲名")
  | _ => false
  end.

(** The part of a generated name before [.mp3]. *)
Definition stem_of (naming_format : json) (song_name artist : str) : str :=
  if title_only naming_format then clean_filename song_name
  else clean_filename song_name ++ py " - " ++ clean_filename artist.

(** A record with an id and a duration only, and what the extraction
    makes of it. *)
Definition hundred_seconds : json :=
  JObj (<[py "id" := JNum 7]> {[ py "duration" := JNum 100999 ]}).

Definition seven_dict : Track.song_dict :=
  {| Track.d_song_id := JNum 7; Track.d_name := JStr (py "未知歌曲"); Track.d_artists := [];
     Track.d_artist_ids := []; Track.d_artist_str := py "未知歌手"; Track.d_album_id := JNum 0;
     Track.d_album_name := JStr (py "未知专辑"); Track.d_duration := py "1:40";
     Track.d_duration_ms := JNum 100999; Track.d_publish_time := py "未知";
     Track.d_download_link := py "http://music.163.com/song/media/outer/url?id=7.mp3" |}.

Definition seven_track : song_info :=
  {| song_id := 7; name := py "未知歌曲"; artists := []; artist_ids := [];
     artist_str := py "未知歌手"; album_id := 0; album_name := py "未知专辑";
     duration := py "1:40"; duration_ms := 100999; publish_time := py "未知";
     download_link := py "http://music.163.com/song/media/outer/url?id=7.mp3" |}.

(** What the extraction makes of the empty record. *)
Definition default_dict : Track.song_dict :=
  {| Track.d_song_id := JNum 0; Track.d_name := JStr (py "未知歌曲"); Track.d_artists := [];
     Track.d_artist_ids := []; Track.d_artist_str := py "未知歌手"; Track.d_album_id := JNum 0;
     Track.d_album_name := JStr (py "未知专辑"); Track.d_duration := py "0:00";
     Track.d_duration_ms := JNum 0; Track.d_publish_time := py "未知";
     Track.d_download_link := py "http://music.163.com/song/media/outer/url?id=0.mp3" |}.

(** A record with two artists, the second without a name. *)
Definition duet : gmap str json :=
  {[ py "artists" :=
       JArr [JObj (<[py "id" := JNum 11]> {[ py "name" := JStr (py "甲") ]});
             JObj {[ py "id" := JNum 12 ]}] ]}.

Definition duet_dict : Track.song_dict :=
  {| Track.d_song_id := JNum 0; Track.d_name := JStr (py "未知歌曲");
     Track.d_artists := [py "甲"; py "未知歌手"];
     Track.d_artist_ids := [py "11"; py "12"]; Track.d_artist_str := py "甲/未知歌手";
     Track.d_album_id := JNum 0;
     Track.d_album_name := JStr (py "未知专辑"); Track.d_duration := py "0:00";
     Track.d_duration_ms := JNum 0; Track.d_publish_time := py "未知";
     Track.d_download_link := py "http://music.163.com/song/media/outer/url?id=0.mp3" |}.

(** * Properties *)

(** ** Python strings *)

Example lit_title : lit "歌曲名"%string = [27468; 26354; 21517]%N.
Proof. reflexivity. Qed.

Example strip_ideographic_space :
  strip ([12288; 32] ++ py "a b" ++ [10; 160])%N = py "a b".
Proof. reflexivity. Qed.

Example str_of_int_examples :
  str_of_int 0 = py "0" /\ str_of_int (-15) = py "-15" /\ str_of_int 1203 = py "1203".
Proof. repeat split; reflexivity. Qed.

Example splitext_examples :
  os_path_splitext (py "a.mp3") = (py "a", py ".mp3")
  /\ os_path_splitext (py ".mp3") = (py ".mp3", [])
  /\ os_path_splitext (py "a.b/c") = (py "a.b/c", [])
  /\ os_path_splitext (py ".a.b") = (py ".a", py ".b")
  /\ os_path_splitext (py "a/b.c.d") = (py "a/b.c", py ".d").
Proof. repeat split; reflexivity. Qed.

Example join_examples :
  os_path_join [] (py "x") = py "x"
  /\ os_path_join (py "d/") (py "x") = py "d/x"
  /\ os_path_join (py "d") (py "x") = py "d/x"
  /\ os_path_join (py "d") (py "/x") = py "/x".
Proof. repeat split; reflexivity. Qed.

Lemma lstrip_spec (s : str) :
  exists l, s = l ++ lstrip s /\ forallb isspace l = true
            /\ (forall c r, lstrip s = c :: r -> isspace c = false).
Proof.
  induction s as [|c s IH]; simpl.
  - exists []. split; [reflexivity|]. split; [reflexivity|]. discriminate.
  - destruct (isspace c) eqn:Hc.
    + destruct IH as (l & Hl & Hsp & Hhd). exists (c :: l). simpl.
      rewrite Hc, Hsp. split; [congruence|]. split; [reflexivity | exact Hhd].
    + exists []. split; [reflexivity|]. split; [reflexivity|].
      intros c' r Heq. injection Heq as <- _. exact Hc.
Qed.

Lemma lstrip_head (s : str) (c : N) (r : str) :
  lstrip s = c :: r -> isspace c = false.
Proof. destruct (lstrip_spec s) as (l & _ & _ & H). apply H. Qed.

(** [strip] removes white space, and only white space, at both ends. *)
Lemma strip_spec (s : str) :
  exists l r, s = l ++ strip s ++ r
    /\ forallb isspace l = true /\ forallb isspace r = true
    /\ (forall c t, strip s = c :: t -> isspace c = false)
    /\ (forall c t, strip s = t ++ [c] -> isspace c = false).
Proof.
  unfold strip, rstrip.
  destruct (lstrip_spec s) as (l & Hl & Hlsp & Hhd).
  destruct (lstrip_spec (rev (lstrip s))) as (r & Hr & Hrsp & Hlast).
  exists l, (rev r). split; [|split; [exact Hlsp|split; [|split]]].
  - rewrite <- rev_app_distr, <- Hr, rev_involutive. exact Hl.
  - rewrite forallb_forall in *. intros x Hx. apply Hrsp, in_rev. exact Hx.
  - intros c t Hct.
    assert (Hls : lstrip s = c :: t ++ rev r).
    { rewrite <- (rev_involutive (lstrip s)), Hr, rev_app_distr, Hct. reflexivity. }
    eapply Hhd. exact Hls.
  - intros c t Hct. apply (Hlast c (rev t)).
    rewrite <- (rev_involutive (lstrip (rev (lstrip s)))), Hct, rev_app_distr.
    reflexivity.
Qed.

Lemma strip_subset (s : str) (c : N) : In c (strip s) -> In c s.
Proof.
  destruct (strip_spec s) as (l & r & Hs & _). intros Hc.
  rewrite Hs. apply in_or_app. right. apply in_or_app. left. exact Hc.
Qed.

(** ** File names *)

Lemma replace_underscore (old : N) (text : str) :
  replace old (py "_") text = map (fun c => if (c =? old)%N then 95%N else c) text.
Proof.
  unfold replace. induction text as [|c text IH]; simpl; [reflexivity|].
  rewrite IH. destruct (c =? old)%N; reflexivity.
Qed.

Lemma sanitize_not_forbidden (c : N) : ~ In (sanitize c) forbidden.
Proof.
  unfold sanitize. destruct (existsb (N.eqb c) forbidden) eqn:H.
  - simpl. intros Hin. repeat (destruct Hin as [Hin|Hin]; [discriminate Hin|]). exact Hin.
  - intros Hin. assert (existsb (N.eqb c) forbidden = true) as Ht; [|congruence].
    apply existsb_exists. exists c. split; [exact Hin | apply N.eqb_refl].
Qed.

Lemma clean_filename_map (text : str) :
  clean_filename text = strip (map sanitize text).
Proof.
  unfold clean_filename, illegal_chars. simpl fold_left.
  rewrite !replace_underscore, !map_map. f_equal. apply map_ext. intros c.
  unfold sanitize, forbidden. simpl existsb. cbv beta.
  destruct (N.eqb_spec c 60) as [->|?]; [reflexivity|cbv beta iota].
  destruct (N.eqb_spec c 62) as [->|?]; [reflexivity|cbv beta iota].
  destruct (N.eqb_spec c 58) as [->|?]; [reflexivity|cbv beta iota].
  destruct (N.eqb_spec c 34) as [->|?]; [reflexivity|cbv beta iota].
  destruct (N.eqb_spec c 47) as [->|?]; [reflexivity|cbv beta iota].
  destruct (N.eqb_spec c 92) as [->|?]; [reflexivity|cbv beta iota].
  destruct (N.eqb_spec c 92) as [->|_]; [contradiction|cbv beta iota].
  destruct (N.eqb_spec c 124) as [->|?]; [reflexivity|cbv beta iota].
  destruct (N.eqb_spec c 63) as [->|?]; [reflexivity|cbv beta iota].
  destruct (N.eqb_spec c 42) as [->|?]; reflexivity.
Qed.

Lemma clean_filename_not_forbidden (text : str) (c : N) :
  In c (clean_filename text) -> ~ In c forbidden.
Proof.
  rewrite clean_filename_map. intros Hc. apply strip_subset in Hc.
  apply in_map_iff in Hc. destruct Hc as (x & <- & _). apply sanitize_not_forbidden.
Qed.

Lemma literal_not_forbidden (l : str) (c : N) :
  forallb (fun x => negb (existsb (N.eqb x) forbidden)) l = true ->
  In c l -> ~ In c forbidden.
Proof.
  intros Hl Hc Hf. rewrite forallb_forall in Hl. specialize (Hl c Hc).
  apply negb_true_iff in Hl.
  assert (existsb (N.eqb c) forbidden = true) as Ht; [|congruence].
  apply existsb_exists. exists c. split; [exact Hf | apply N.eqb_refl].
Qed.

(** C5.  [generate_filename] replaces every forbidden character of the
    track name and of the artist by an underscore and then trims white
    space at both ends; the format [歌曲名] gives [name.mp3] and the format
    [歌曲名-歌手] gives [name - artist.mp3]; the name [A/B:C] by [X*Y]
    becomes [A_B_C - X_Y.mp3]; no forbidden character is left in the
    result, whatever the format. *)
Theorem generate_filename_sanitized (naming_format : json) (song_name artist : str) :
  let clean := fun text => strip (map sanitize text) in
  clean_filename song_name = clean song_name
  /\ (exists l r, map sanitize song_name = l ++ clean song_name ++ r
        /\ forallb isspace l = true /\ forallb isspace r = true
        /\ (forall c t, clean song_name = c :: t -> isspace c = false)
        /\ (forall c t, clean song_name = t ++ [c] -> isspace c = false))
  /\ generate_filename (JStr (py "歌曲名")) song_name artist
     = clean song_name ++ py ".mp3"
  /\ generate_filename (JStr (py "歌曲名-歌手")) song_name artist
     = clean song_name ++ py " - " ++ clean artist ++ py ".mp3"
  /\ generate_filename (JStr (py "歌曲名-歌手")) (py "A/B:C") (py "X*Y")
     = py "A_B_C - X_Y.mp3"
  /\ (forall c, In c (generate_filename naming_format song_name artist) ->
       ~ In c forbidden).
Proof.
  intros clean. split; [apply clean_filename_map|].
  split; [apply strip_spec|].
  split; [unfold generate_filename; rewrite clean_filename_map; reflexivity|].
  split; [unfold generate_filename; rewrite !clean_filename_map; reflexivity|].
  split; [reflexivity|].
  intros c Hc. unfold generate_filename in Hc.
  destruct (match naming_format with JStr s => str_eqb s (py "歌曲名") | _ => false end).
  - apply in_app_or in Hc. destruct Hc as [Hc|Hc].
    + eapply clean_filename_not_forbidden, Hc.
    + eapply literal_not_forbidden; [|exact Hc]. reflexivity.
  - apply in_app_or in Hc. destruct Hc as [Hc|Hc];
      [eapply clean_filename_not_forbidden, Hc|].
    apply in_app_or in Hc. destruct Hc as [Hc|Hc];
      [eapply literal_not_forbidden; [|exact Hc]; reflexivity|].
    apply in_app_or in Hc. destruct Hc as [Hc|Hc];
      [eapply clean_filename_not_forbidden, Hc|].
    eapply literal_not_forbidden; [|exact Hc]. reflexivity.
Qed.

(** ** Single download *)

Lemma fetch_unfold (E : env) (t : nat) (cfg : settings) (fs : filesystem)
    (song_id : Z) (song_name artist download_link : str) :
  fetch_and_download_song E t cfg fs song_id song_name artist download_link =
  let link := effective_link song_id download_link in
  let ev := [Call (Log (py "下载链接: " ++ link) (py "DEBUG")); HttpGet t link] in
  match requests_get E t link with
  | Raises e => (fs, (false, py "网络请求失败: " ++ e), ev)
  | Responds response =>
    if str_eqb (url response) sentinel
    then (fs, (false, py "无法下载歌曲，请检查ID是否正确"), ev)
    else if negb (status_code response =? 200)
    then (fs, (false, py "下载失败，状态码: " ++ str_of_int (status_code response)), ev)
    else
      match download_dir cfg with
      | JStr dir =>
        match with_download_dir E fs dir with
        | inl e => (fs, (false, py "下载失败: " ++ e), ev)
        | inr fs1 =>
          let full_path := avoid_duplicate fs1 dir (filename_of cfg song_id song_name artist) in
          match open_write_error E fs1 full_path with
          | Some (e, partial) =>
            (match partial with
             | Some bytes => <[full_path := File bytes]> fs1
             | None => fs1
             end, (false, py "下载失败: " ++ e), ev)
          | None =>
            (<[full_path := File (content response)]> fs1, (true, full_path), ev)
          end
        end
      | other => (fs, (false, py "下载失败: " ++ path_type_error E other), ev)
      end
  end.
Proof. reflexivity. Qed.

(** C1.  When the request of a download is answered and the final URL is
    the sentinel page, the download fails with the message of an
    unavailable track, whatever the status code, and that message is no
    status-code message; when the final URL is another one and the status
    is not 200, it fails with the message carrying that status code.  In
    both cases nothing is written. *)
Theorem fetch_sentinel_then_status (E : env) (t : nat) (cfg : settings) (fs : filesystem)
    (song_id : Z) (song_name artist download_link : str) (r : response) :
  requests_get E t (effective_link song_id download_link) = Responds r ->
  let out := fetch_and_download_song E t cfg fs song_id song_name artist download_link in
  (url r = sentinel ->
     out.1.2 = (false, msg_unavailable) /\ out.1.1 = fs
     /\ forall code, msg_unavailable <> msg_status code)
  /\ (url r <> sentinel -> status_code r <> 200 ->
     out.1.2 = (false, msg_status (status_code r)) /\ out.1.1 = fs).
Proof.
  intros Hget out. subst out. rewrite fetch_unfold. cbv zeta. rewrite Hget.
  unfold str_eqb. split.
  - intros Hu. rewrite bool_decide_eq_true_2 by exact Hu. 
    split; [reflexivity|]. split; [reflexivity|].
    intros code. unfold msg_unavailable, msg_status. discriminate.
  - intros Hu Hs. rewrite bool_decide_eq_false_2 by exact Hu.
    destruct (Z.eqb_spec (status_code r) 200) as [|_]; [contradiction|].
    split; reflexivity.
Qed.

Lemma fetch_sentinel_then_status_witness :
  requests_get sentinel_env 0 (effective_link 7 (py "http://music.163.com/x"))
    = Responds (page sentinel 200)
  /\ let out := fetch_and_download_song sentinel_env 0 default_settings ∅ 7
                  (py "A") (py "B") (py "http://music.163.com/x") in
     (url (page sentinel 200) = sentinel ->
        out.1.2 = (false, msg_unavailable) /\ out.1.1 = ∅
        /\ forall code, msg_unavailable <> msg_status code)
     /\ (url (page sentinel 200) <> sentinel -> status_code (page sentinel 200) <> 200 ->
        out.1.2 = (false, msg_status (status_code (page sentinel 200))) /\ out.1.1 = ∅).
Proof.
  split; [reflexivity|].
  apply (fetch_sentinel_then_status sentinel_env 0 default_settings ∅ 7
           (py "A") (py "B") (py "http://music.163.com/x") (page sentinel 200)).
  reflexivity.
Defined.

Example fetch_status_404 :
  (fetch_and_download_song
     (sample_env (fun _ link => Responds (page link 404)) (fun _ _ => Raises []))
     0 default_settings ∅ 7 (py "A") (py "B") []).1.2
  = (false, py "下载失败，状态码: 404").
Proof. reflexivity. Qed.

(** ** Path resolution *)

Lemma to_int_not_nil (a : Z) : Z.to_int a <> Pos Nil /\ Z.to_int a <> Neg Nil.
Proof.
  destruct a as [|p|p]; simpl; split; try discriminate; intros H; injection H as H;
    exact (Unsigned.to_uint_nonnil p H).
Qed.

Lemma ascii_of_N_of_ascii (l : list ascii) : map ascii_of_N (map N_of_ascii l) = l.
Proof.
  induction l as [|x l IH]; simpl; [reflexivity|].
  rewrite ascii_N_embedding, IH. reflexivity.
Qed.

Lemma str_of_int_inj (a b : Z) : str_of_int a = str_of_int b -> a = b.
Proof.
  unfold str_of_int. intros H.
  apply (f_equal (map ascii_of_N)) in H. rewrite !ascii_of_N_of_ascii in H.
  apply (f_equal string_of_list_ascii) in H.
  rewrite !string_of_list_ascii_of_string in H.
  apply (f_equal NilZero.int_of_string) in H.
  destruct (to_int_not_nil a) as [Ha1 Ha2]. destruct (to_int_not_nil b) as [Hb1 Hb2].
  rewrite !NilZero.isi in H by assumption.
  apply DecimalZ.to_int_inj. congruence.
Qed.

Lemma numbered_inj (download_dir filename : str) (j k : Z) :
  numbered download_dir filename j = numbered download_dir filename k -> j = k.
Proof.
  unfold numbered. destruct (os_path_splitext filename) as [base_name ext].
  unfold os_path_join.
  assert (Hs : forall n, startswith sep (base_name ++ py " (" ++ str_of_int n ++ py ")" ++ ext)
                         = startswith sep (base_name ++ py " (")).
  { intros n. destruct base_name; reflexivity. }
  rewrite !Hs. intros H.
  assert (Hn : base_name ++ py " (" ++ str_of_int j ++ py ")" ++ ext
               = base_name ++ py " (" ++ str_of_int k ++ py ")" ++ ext).
  { destruct (startswith sep (base_name ++ py " (")); [exact H|].
    destruct (bool_decide (download_dir = []) || endswith sep download_dir)%bool.
    - apply app_inv_head in H. exact H.
    - apply app_inv_head in H. injection H as H. exact H. }
  apply app_inv_head in Hn. apply app_inv_head in Hn.
  rewrite !(app_assoc _ (py ")") ext) in Hn. apply app_inv_tail in Hn.
  apply app_inv_tail in Hn. apply str_of_int_inj. exact Hn.
Qed.

Lemma os_path_exists_true (fs : filesystem) (p : str) :
  os_path_exists fs p = true <-> p ∈ dom fs.
Proof. unfold os_path_exists. rewrite bool_decide_eq_true, elem_of_dom. reflexivity. Qed.

Lemma os_path_exists_false (fs : filesystem) (p : str) :
  os_path_exists fs p = false <-> fs !! p = None.
Proof.
  unfold os_path_exists. rewrite bool_decide_eq_false, eq_None_not_Some. reflexivity.
Qed.

Lemma probe_numbered_terminates (fs : filesystem) (download_dir filename : str) :
  forall (fuel : nat) (k : Z) (seen : gset str),
    seen ⊆ dom fs ->
    (forall j, k <= j -> numbered download_dir filename j ∉ seen) ->
    (size fs < fuel + size seen)%nat ->
    exists p, probe fuel fs download_dir filename (numbered download_dir filename k) (k + 1)
              = Some p.
Proof.
  induction fuel as [|fuel IH]; intros k seen Hsub Hfresh Hsize.
  - apply subseteq_size in Hsub. rewrite size_dom in Hsub. lia.
  - simpl. destruct (os_path_exists fs (numbered download_dir filename k)) eqn:Hex;
      [|eexists; reflexivity].
    apply os_path_exists_true in Hex.
    apply (IH (k + 1) ({[numbered download_dir filename k]} ∪ seen)).
    + apply union_subseteq. split; [apply singleton_subseteq_l; exact Hex | exact Hsub].
    + intros j Hj Hin. apply elem_of_union in Hin. destruct Hin as [Hin|Hin].
      * apply elem_of_singleton in Hin. apply numbered_inj in Hin. lia.
      * apply (Hfresh j); [lia | exact Hin].
    + rewrite size_union, size_singleton; [lia|].
      apply disjoint_singleton_l. apply Hfresh. lia.
Qed.

Lemma probe_terminates (fs : filesystem) (download_dir filename full_path : str) :
  exists p, probe (size fs + 2) fs download_dir filename full_path 1 = Some p.
Proof.
  replace (size fs + 2)%nat with (S (S (size fs))) by lia.
  cbn [probe]. destruct (os_path_exists fs full_path); [|eexists; reflexivity].
  apply (probe_numbered_terminates fs download_dir filename (S (size fs)) 1 ∅).
  - set_solver.
  - intros j _. set_solver.
  - rewrite size_empty. lia.
Qed.

Lemma probe_result (fs : filesystem) (download_dir filename : str) :
  forall (fuel : nat) (full_path : str) (k : Z) (p : str),
    probe fuel fs download_dir filename full_path k = Some p ->
    fs !! p = None
    /\ (fs !! full_path = None -> p = full_path)
    /\ (is_Some (fs !! full_path) ->
        exists m, k <= m /\ p = numbered download_dir filename m
                  /\ forall j, k <= j < m ->
                       is_Some (fs !! numbered download_dir filename j)).
Proof.
  induction fuel as [|fuel IH]; intros full_path k p Hp; [discriminate|].
  simpl in Hp. destruct (os_path_exists fs full_path) eqn:Hex.
  - apply IH in Hp. destruct Hp as (Hfree & Hfirst & Hnext).
    apply os_path_exists_true, elem_of_dom in Hex.
    split; [exact Hfree|]. split.
    + intros Hnone. rewrite Hnone in Hex. destruct Hex as [? ?]. discriminate.
    + intros _. destruct (fs !! numbered download_dir filename k) eqn:Hk.
      * destruct Hnext as (m & Hm & -> & Hall); [eauto|].
        exists m. split; [lia|]. split; [reflexivity|].
        intros j Hj. destruct (Z.eq_dec j k) as [->|]; [rewrite Hk; eauto|].
        apply Hall. lia.
      * exists k. split; [lia|]. split; [apply Hfirst; reflexivity|]. intros j Hj. lia.
  - injection Hp as <-. apply os_path_exists_false in Hex.
    split; [exact Hex|]. split; [reflexivity|].
    intros [x Hx]. congruence.
Qed.

Lemma avoid_duplicate_spec (fs : filesystem) (download_dir filename : str) :
  let p := avoid_duplicate fs download_dir filename in
  let candidate := os_path_join download_dir filename in
  fs !! p = None
  /\ (fs !! candidate = None -> p = candidate)
  /\ (is_Some (fs !! candidate) ->
      exists k, 1 <= k /\ p = numbered download_dir filename k
                /\ forall j, 1 <= j < k ->
                     is_Some (fs !! numbered download_dir filename j)).
Proof.
  intros p candidate. subst p. unfold avoid_duplicate. fold candidate.
  destruct (probe_terminates fs download_dir filename candidate) as [q Hq].
  rewrite Hq. simpl. exact (probe_result _ _ _ _ _ _ _ Hq).
Qed.

Lemma grows_refl (fs : filesystem) : grows fs fs.
Proof. intros q H. exact H. Qed.

Lemma grows_trans (a b c : filesystem) : grows a b -> grows b c -> grows a c.
Proof. intros H1 H2 q H. apply H2, H1, H. Qed.

Lemma grows_insert (fs : filesystem) (p : str) (x : node) : grows fs (<[p := x]> fs).
Proof.
  intros q H. destruct (decide (p = q)) as [->|Hne].
  - rewrite lookup_insert_eq. eauto.
  - rewrite lookup_insert_ne by exact Hne. exact H.
Qed.

Lemma grows_makedirs (fs : filesystem) (ps : list str) :
  grows fs (foldr (fun p m => <[p := Dir]> m) fs ps).
Proof.
  induction ps as [|p ps IH]; simpl; [apply grows_refl|].
  eapply grows_trans; [exact IH | apply grows_insert].
Qed.

Lemma with_download_dir_spec (E : env) (fs fs1 : filesystem) (dir : str) :
  with_download_dir E fs dir = inr fs1 -> grows fs fs1 /\ is_Some (fs1 !! dir).
Proof.
  unfold with_download_dir. destruct (os_path_exists fs dir) eqn:Hex.
  - intros [= <-]. split; [apply grows_refl|].
    apply os_path_exists_true, elem_of_dom in Hex. exact Hex.
  - destruct (os_makedirs E fs dir) as [e|ps]; [discriminate|]. intros [= <-]. split.
    + eapply grows_trans; [apply grows_makedirs | apply grows_insert].
    + rewrite lookup_insert_eq. eauto.
Qed.

(** What a download that reports success has done. *)
Lemma fetch_success (E : env) (t : nat) (cfg : settings) (fs : filesystem)
    (song_id : Z) (song_name artist download_link p : str) :
  (fetch_and_download_song E t cfg fs song_id song_name artist download_link).1.2
    = (true, p) ->
  exists dir fs1 r,
    download_dir cfg = JStr dir
    /\ requests_get E t (effective_link song_id download_link) = Responds r
    /\ with_download_dir E fs dir = inr fs1
    /\ p = avoid_duplicate fs1 dir (filename_of cfg song_id song_name artist)
    /\ (fetch_and_download_song E t cfg fs song_id song_name artist download_link).1.1
       = <[p := File (content r)]> fs1.
Proof.
  rewrite fetch_unfold. cbv zeta.
  destruct (requests_get E t (effective_link song_id download_link)) as [e|r];
    [discriminate|].
  destruct (str_eqb (url r) sentinel); [discriminate|].
  destruct (negb (status_code r =? 200)); [discriminate|].
  destruct (download_dir cfg) as [| | | |dir| |]; try discriminate.
  destruct (with_download_dir E fs dir) as [e|fs1] eqn:Hdir; [discriminate|].
  destruct (open_write_error E fs1 _) as [[e partial]|] eqn:Hw; [discriminate|].
  simpl. intros [= <-]. exists dir, fs1, r.
  split; [reflexivity|]. split; [reflexivity|]. split; [exact Hdir|].
  split; reflexivity.
Qed.

(** A download, successful or not, removes no path. *)
Lemma fetch_grows (E : env) (t : nat) (cfg : settings) (fs : filesystem)
    (song_id : Z) (song_name artist download_link : str) :
  grows fs (fetch_and_download_song E t cfg fs song_id song_name artist download_link).1.1.
Proof.
  rewrite fetch_unfold. cbv zeta.
  destruct (requests_get E t (effective_link song_id download_link)) as [e|r];
    [apply grows_refl|].
  destruct (str_eqb (url r) sentinel); [apply grows_refl|].
  destruct (negb (status_code r =? 200)); [apply grows_refl|].
  destruct (download_dir cfg) as [| | | |dir| |]; try apply grows_refl.
  destruct (with_download_dir E fs dir) as [e|fs1] eqn:Hdir; [apply grows_refl|].
  apply with_download_dir_spec in Hdir. destruct Hdir as [Hg _].
  destruct (open_write_error E fs1 _) as [[e [bytes|]]|]; simpl.
  - eapply grows_trans; [exact Hg | apply grows_insert].
  - exact Hg.
  - eapply grows_trans; [exact Hg | apply grows_insert].
Qed.

Lemma fetch_success_fresh (E : env) (t : nat) (cfg : settings) (fs : filesystem)
    (song_id : Z) (song_name artist download_link p : str) :
  (fetch_and_download_song E t cfg fs song_id song_name artist download_link).1.2
    = (true, p) ->
  fs !! p = None
  /\ is_Some ((fetch_and_download_song E t cfg fs song_id song_name artist
                 download_link).1.1 !! p).
Proof.
  intros H. apply fetch_success in H.
  destruct H as (dir & fs1 & r & _ & _ & Hdir & Hp & Hfs).
  apply with_download_dir_spec in Hdir. destruct Hdir as [Hg _].
  rewrite Hfs, lookup_insert_eq. split; [|eauto].
  destruct (avoid_duplicate_spec fs1 dir (filename_of cfg song_id song_name artist))
    as [Hfree _]. rewrite <- Hp in Hfree.
  destruct (fs !! p) eqn:Hq; [|reflexivity].
  destruct (Hg p) as [x Hx]; [eauto|]. congruence.
Qed.




Example consecutive_three :
  (consecutive serving_env 0 default_settings ∅ 7 (py "A/B:C") (py "X*Y") [] 3).2
  = [(true, py "downloads/A_B_C - X_Y.mp3");
     (true, py "downloads/A_B_C - X_Y (1).mp3");
     (true, py "downloads/A_B_C - X_Y (2).mp3")].
Proof. vm_compute. reflexivity. Qed.


Example resolution_skips_existing :
  avoid_duplicate
    (<[py "d/a (1).mp3" := File []]> (<[py "d/a.mp3" := File []]> ∅))
    (py "d") (py "a.mp3")
  = py "d/a (2).mp3".
Proof. vm_compute. reflexivity. Qed.




Lemma serving_env_serves (song_id : Z) :
  serves serving_env (effective_link song_id []).
Proof.
  split; [|split].
  - intros t. eexists. split; [reflexivity|]. split; [|reflexivity].
    cbn [url page]. unfold effective_link, sentinel. cbn [nonempty]. discriminate.
  - intros fs d. exists []. reflexivity.
  - reflexivity.
Qed.


(** ** Batch download *)

Lemma fetch_events (E : env) (t : nat) (cfg : settings) (fs : filesystem)
    (song_id : Z) (song_name artist download_link : str) :
  (fetch_and_download_song E t cfg fs song_id song_name artist download_link).2
  = attempt_events t (effective_link song_id download_link).
Proof.
  rewrite fetch_unfold. cbv zeta.
  destruct (requests_get E t (effective_link song_id download_link)) as [e|r];
    [reflexivity|].
  destruct (str_eqb (url r) sentinel); [reflexivity|].
  destruct (negb (status_code r =? 200)); [reflexivity|].
  destruct (download_dir cfg) as [| | | |dir| |]; try reflexivity.
  destruct (with_download_dir E fs dir) as [e|fs1]; [reflexivity|].
  destruct (open_write_error E fs1 _) as [[e partial]|]; reflexivity.
Qed.

Lemma batch_loop_cons (E : env) (cfg : settings) (total : Z) (t : nat) (i : Z)
    (s : song_info) (rest : list song_info) (fs : filesystem) (sc fc : Z) :
  batch_loop E cfg total t i (s :: rest) fs sc fc =
  let r := fetch_and_download_song E t cfg fs (song_id s) (name s) (artist_str s)
             (download_link s) in
  let next := batch_loop E cfg total (S t) (i + 1) rest r.1.1
                (if r.1.2.1 then sc + 1 else sc) (if r.1.2.1 then fc else fc + 1) in
  (next.1.1, next.1.2,
   After (StatusLabel (progress_text (i + 1) total))
   :: attempt_events t (effective_link (song_id s) (download_link s))
   ++ After (AddDownloadLog (track_entry s r.1.2)) :: next.2).
Proof.
  cbv zeta. rewrite <- fetch_events with (E := E) (cfg := cfg) (fs := fs)
    (song_name := name s) (artist := artist_str s).
  cbn [batch_loop].
  destruct (fetch_and_download_song E t cfg fs (song_id s) (name s) (artist_str s)
              (download_link s)) as [[fs1 [ok res]] ev].
  destruct ok; cbn [fst snd];
    destruct (batch_loop E cfg total (S t) (i + 1) rest fs1 _ _) as [[fs2 counts] evs];
    reflexivity.
Qed.

Lemma attempts_cons (E : env) (t : nat) (cfg : settings) (fs : filesystem)
    (s : song_info) (rest : list song_info) :
  attempts E t cfg fs (s :: rest) =
  let r := fetch_and_download_song E t cfg fs (song_id s) (name s) (artist_str s)
             (download_link s) in
  r.1.2 :: attempts E (S t) cfg r.1.1 rest.
Proof.
  cbn [attempts].
  destruct (fetch_and_download_song E t cfg fs (song_id s) (name s) (artist_str s)
              (download_link s)) as [[fs1 res] ev]. reflexivity.
Qed.

Lemma attempts_length (E : env) (cfg : settings) (songs : list song_info) :
  forall (t : nat) (fs : filesystem), length (attempts E t cfg fs songs) = length songs.
Proof.
  induction songs as [|s rest IH]; intros t fs; [reflexivity|].
  rewrite attempts_cons. cbv zeta. simpl. rewrite IH. reflexivity.
Qed.

Lemma successes_failures (rs : list (bool * str)) :
  (successes rs + failures rs = length rs)%nat.
Proof.
  unfold successes, failures. induction rs as [|[ok m] rs IH]; [reflexivity|].
  cbn [List.filter]. destruct ok; simpl in *; lia.
Qed.

Lemma requests_of_track (p m link : str) (t : nat) (rest : list event) :
  requests_of (After (StatusLabel p) :: attempt_events t link
               ++ After (AddDownloadLog m) :: rest)
  = (t, link) :: requests_of rest.
Proof. reflexivity. Qed.

Lemma entries_of_track (p m link : str) (t : nat) (rest : list event) :
  entries_of (After (StatusLabel p) :: attempt_events t link
              ++ After (AddDownloadLog m) :: rest)
  = m :: entries_of rest.
Proof. reflexivity. Qed.

Lemma status_of_track (p m link : str) (t : nat) (rest : list event) :
  status_of (After (StatusLabel p) :: attempt_events t link
             ++ After (AddDownloadLog m) :: rest)
  = p :: status_of rest.
Proof. reflexivity. Qed.

(** The loop, from any counter values. *)
Lemma batch_loop_spec (E : env) (cfg : settings) (total : Z) (songs : list song_info) :
  forall (t : nat) (i : Z) (fs : filesystem) (sc fc : Z),
    let out := batch_loop E cfg total t i songs fs sc fc in
    let rs := attempts E t cfg fs songs in
    out.1.2 = (sc + Z.of_nat (successes rs), fc + Z.of_nat (failures rs))
    /\ requests_of out.2
       = imap (fun j s => ((t + j)%nat, effective_link (song_id s) (download_link s))) songs
    /\ entries_of out.2 = zip_with track_entry songs rs
    /\ status_of out.2 = imap (fun j _ => progress_text (i + 1 + Z.of_nat j) total) songs
    /\ (forall (j : nat) (s : song_info), songs !! j = Some s ->
          exists pre post,
            out.2 = pre
                    ++ After (StatusLabel (progress_text (i + 1 + Z.of_nat j) total))
                       :: attempt_events (t + j)
                            (effective_link (song_id s) (download_link s))
                    ++ post).
Proof.
  induction songs as [|s rest IH]; intros t i fs sc fc.
  - cbn. repeat split; try (f_equal; lia). intros j s Hj. discriminate.
  - cbv zeta. rewrite batch_loop_cons, attempts_cons. cbv zeta.
    set (r := fetch_and_download_song E t cfg fs (song_id s) (name s) (artist_str s)
                (download_link s)).
    specialize (IH (S t) (i + 1) r.1.1 (if r.1.2.1 then sc + 1 else sc)
                  (if r.1.2.1 then fc else fc + 1)).
    cbv zeta in IH. destruct IH as (Hc & Hreq & Hent & Hst & Hpos).
    cbn [fst snd]. split; [|split; [|split; [|split]]].
    + rewrite Hc. unfold successes, failures. cbn [List.filter].
      destruct (r.1.2) as [ok m]. destruct ok; simpl; f_equal; lia.
    + rewrite requests_of_track, Hreq. cbn [imap]. f_equal; [f_equal; lia|].
      apply imap_ext. intros j x _. simpl. f_equal. lia.
    + rewrite entries_of_track, Hent. reflexivity.
    + rewrite status_of_track, Hst. cbn [imap]. f_equal; [f_equal; lia|].
      apply imap_ext. intros j x _. simpl. f_equal. lia.
    + intros [|j] s' Hj.
      * injection Hj as <-. exists [], (After (AddDownloadLog (track_entry s r.1.2))
                   :: (batch_loop E cfg total (S t) (i + 1) rest r.1.1
                         (if r.1.2.1 then sc + 1 else sc) (if r.1.2.1 then fc else fc + 1)).2).
        cbn [Datatypes.app]. replace (t + 0)%nat with t by lia.
        replace (i + 1 + Z.of_nat 0) with (i + 1) by lia. reflexivity.
      * destruct (Hpos j s' Hj) as (pre & post & Heq). rewrite Heq.
        exists (After (StatusLabel (progress_text (i + 1) total))
                :: attempt_events t (effective_link (song_id s) (download_link s))
                ++ After (AddDownloadLog (track_entry s r.1.2)) :: pre), post.
        replace (t + S j)%nat with (S t + j)%nat by lia.
        replace (i + 1 + Z.of_nat (S j)) with (i + 1 + 1 + Z.of_nat j) by lia.
        cbn [Datatypes.app]. rewrite <- !app_assoc. reflexivity.
Qed.

Lemma _do_batch_download_events (E : env) (t : nat) (cfg : settings) (fs : filesystem)
    (songs : list song_info) :
  let total := Z.of_nat (length songs) in
  let out := batch_loop E cfg total t 0 songs fs 0 0 in
  exists box,
    (_do_batch_download E t cfg fs songs).2
    = After (StatusLabel (progress_text 0 total))
      :: out.2
      ++ [After (StatusLabel (py "批量下载完成: 成功 " ++ str_of_int out.1.2.1
                              ++ py " 首，失败 " ++ str_of_int out.1.2.2 ++ py " 首"));
          After (AddDownloadLog (batch_summary total out.1.2.1 out.1.2.2));
          After (MessageBox box.1 box.2.1 box.2.2)].
Proof.
  cbv zeta. unfold _do_batch_download.
  destruct (batch_loop E cfg (Z.of_nat (length songs)) t 0 songs fs 0 0)
    as [[fs1 [sc fc]] evs]. cbn [fst snd].
  destruct (fc =? 0); eexists (_, (_, _)); reflexivity.
Qed.

Example batch_of_three :
  entries_of (_do_batch_download mixed_env 0 default_settings ∅
                [track 1 (py "a"); track 2 (py "b"); track 3 (py "c")]).2
  = [py "✅ 下载成功: a - 歌手";
     py "❌ 下载失败: b - 歌手 (无法下载歌曲，请检查ID是否正确)";
     py "✅ 下载成功: c - 歌手";
     py "批量下载完成: 共 3 首，成功 2 首，失败 1 首"].
Proof. vm_compute. reflexivity. Qed.


(** ** Pagination *)

(** What [log] leaves alone. *)
Lemma log_frame (message level : str) (a : app) :
  search (log message level a) = search a
  /\ vars (log message level a) = vars a
  /\ btns (log message level a) = btns a
  /\ prefs (log message level a) = prefs a
  /\ download_log_text (txt (log message level a)) = download_log_text (txt a)
  /\ detail_download_status (txt (log message level a)) = detail_download_status (txt a).
Proof. unfold log. destruct (str_eqb level _); repeat split; reflexivity. Qed.

Lemma same_but_status_log (message level : str) (a : app) :
  same_but_status a (log message level a).
Proof. apply log_frame. Qed.

Lemma same_but_status_refl (a : app) : same_but_status a a.
Proof. repeat split. Qed.

Lemma same_but_status_trans (a b c : app) :
  same_but_status a b -> same_but_status b c -> same_but_status a c.
Proof.
  unfold same_but_status. intros (H1 & H2 & H3 & H4 & H5 & H6) (G1 & G2 & G3 & G4 & G5 & G6).
  repeat split; congruence.
Qed.

Lemma search_music_spec (E : env) (t : nat) (keywords offset limit : str) (a : app) :
  same_but_status a (search_music E t keywords offset limit a).1.1
  /\ requests_of (search_music E t keywords offset limit a).2
     = [(t, search_link keywords offset limit)].
Proof.
  unfold search_music. fold (search_link keywords offset limit).
  set (a1 := log _ (py "DEBUG") (log _ (py "INFO") a)).
  assert (H1 : same_but_status a a1).
  { eapply same_but_status_trans; apply same_but_status_log. }
  destruct (requests_get E t (search_link keywords offset limit)) as [e|r]; cbn [fst snd].
  - split; [|reflexivity]. eapply same_but_status_trans; [exact H1 | apply same_but_status_log].
  - destruct ((400 <=? status_code r) && (status_code r <? 600)); cbn [fst snd].
    + split; [|reflexivity].
      eapply same_but_status_trans; [exact H1 | apply same_but_status_log].
    + destruct (json_body r); cbn [fst snd]; (split; [|reflexivity]).
      * eapply same_but_status_trans; [exact H1 | apply same_but_status_log].
      * eapply same_but_status_trans; [exact H1 | apply same_but_status_log].
Qed.

Lemma requests_of_snoc_after (evs : list event) (c : ui_call) :
  requests_of (evs ++ [After c]) = requests_of evs.
Proof. unfold requests_of. rewrite omap_app. cbn. apply app_nil_r. Qed.

Lemma _do_search_spec (E : env) (t : nat) (keywords offset limit : str) (a : app) :
  same_but_status a (_do_search E t keywords offset limit a).1
  /\ requests_of (_do_search E t keywords offset limit a).2
     = [(t, search_link keywords offset limit)].
Proof.
  unfold _do_search.
  destruct (search_music_spec E t keywords offset limit a) as [Hs Hr].
  destruct (search_music E t keywords offset limit a) as [[a1 data] ev].
  cbn [fst snd] in *. destruct data as [d|]; [destruct (truthy d)|]; cbn [fst snd];
    (split; [exact Hs|]); try exact Hr.
  rewrite requests_of_snoc_after. exact Hr.
Qed.

Lemma update_song_detail_cursor (index : Z) (a : app) :
  cursor (update_song_detail index a) = cursor a
  /\ vars (update_song_detail index a) = vars a
  /\ prev_btn (btns (update_song_detail index a)) = prev_btn (btns a)
  /\ next_btn (btns (update_song_detail index a)) = next_btn (btns a)
  /\ download_log_text (txt (update_song_detail index a)) = download_log_text (txt a).
Proof.
  unfold update_song_detail.
  destruct ((index <? 0) || _); [repeat split|].
  destruct (song_details (search a) !! Z.to_nat index); repeat split.
Qed.

Lemma display_results_cursor (E : env) (data : json) (a : app) :
  cursor (display_results E data a).1 = cursor a
  /\ vars (display_results E data a).1 = vars a
  /\ download_log_text (txt (display_results E data a).1) = download_log_text (txt a).
Proof.
  unfold display_results.
  destruct (negb (truthy data)); [repeat split|].
  destruct (dict_get data _ _) as [result|]; [|repeat split].
  destruct (dict_get result _ _) as [songs|]; [|repeat split].
  destruct (negb (truthy songs)); [repeat split|].
  destruct songs as [| | | | |l|]; try solve [repeat split].
  destruct (extract_loop E l []) as [details ok]. destruct ok; [|repeat split].
  destruct details as [|d details]; [repeat split|].
  cbn [fst].
  match goal with
  | |- context [update_song_detail 0 ?x] =>
    destruct (update_song_detail_cursor 0 x) as (H1 & H2 & _ & _ & H5)
  end.
  split; [exact (eq_trans H1 eq_refl)|].
  split; [exact (eq_trans H2 eq_refl)|].
  exact (eq_trans H5 eq_refl).
Qed.

Lemma run_ui_call_cursor (E : env) (timestamp : str) (c : ui_call) (a : app) :
  cursor (run_ui_call E timestamp c a) = cursor a
  /\ vars (run_ui_call E timestamp c a) = vars a.
Proof.
  destruct c; cbn [run_ui_call]; try (split; reflexivity).
  - destruct (log_frame message level a) as (H1 & H2 & _). unfold cursor. rewrite H1, H2.
    split; reflexivity.
  - destruct (display_results_cursor E data a) as (H1 & H2 & _). split; assumption.
Qed.

Lemma mainloop_cursor (E : env) (clock : nat -> str) (evs : list event) :
  forall (k : nat) (a : app),
    cursor (mainloop E clock k evs a) = cursor a
    /\ vars (mainloop E clock k evs a) = vars a.
Proof.
  induction evs as [|e evs IH]; intros k a; [split; reflexivity|].
  cbn [mainloop]. destruct (ui_call_of e) as [c|]; [|apply IH].
  destruct (IH (S k) (run_ui_call E (clock k) c a)) as [H1 H2].
  destruct (run_ui_call_cursor E (clock k) c a) as [G1 G2].
  split; congruence.
Qed.

Lemma prev_page_spec (E : env) (t : nat) (a : app) :
  (current_offset (search a) <= 0 -> prev_page E t a = (a, []))
  /\ (0 < current_offset (search a) ->
      let new_offset := Z.max 0 (current_offset (search a) - current_limit (search a)) in
      cursor (prev_page E t a).1
        = (current_keywords (search a), new_offset, current_limit (search a))
      /\ offset_var (vars (prev_page E t a).1) = str_of_int new_offset
      /\ requests_of (prev_page E t a).2
         = [(t, search_link (current_keywords (search a)) (str_of_int new_offset)
                  (str_of_int (current_limit (search a))))]).
Proof.
  unfold prev_page. split; intros H.
  - destruct (Z.leb_spec (current_offset (search a)) 0); [reflexivity|lia].
  - destruct (Z.leb_spec (current_offset (search a)) 0); [lia|]. cbv zeta.
    match goal with
    | |- context [_do_search E t ?k ?o ?l ?x] =>
      destruct (_do_search_spec E t k o l x) as [(Hs & Hv & _) Hr]
    end.
    unfold cursor. rewrite Hs, Hv, Hr. repeat split.
Qed.

Lemma next_page_spec (E : env) (t : nat) (a : app) :
  let new_offset := current_offset (search a) + current_limit (search a) in
  cursor (next_page E t a).1
    = (current_keywords (search a), new_offset, current_limit (search a))
  /\ offset_var (vars (next_page E t a).1) = str_of_int new_offset
  /\ requests_of (next_page E t a).2
     = [(t, search_link (current_keywords (search a)) (str_of_int new_offset)
              (str_of_int (current_limit (search a))))].
Proof.
  unfold next_page. cbv zeta.
  match goal with
  | |- context [_do_search E t ?k ?o ?l ?x] =>
    destruct (_do_search_spec E t k o l x) as [(Hs & Hv & _) Hr]
  end.
  unfold cursor. rewrite Hs, Hv, Hr. repeat split.
Qed.

Lemma goto_offset_spec (E : env) (t : nat) (a : app) (n : Z) :
  strip (goto_var (vars a)) <> [] ->
  int_of_str E (strip (goto_var (vars a))) = Some n ->
  (n < 0 -> goto_offset E t a = (a, [invalid_offset_warning]))
  /\ (0 <= n ->
      cursor (goto_offset E t a).1
        = (current_keywords (search a), n, current_limit (search a))
      /\ offset_var (vars (goto_offset E t a).1) = str_of_int n
      /\ requests_of (goto_offset E t a).2
         = [(t, search_link (current_keywords (search a)) (str_of_int n)
                  (str_of_int (current_limit (search a))))]).
Proof.
  intros Hne Hint. unfold goto_offset, nonempty.
  rewrite bool_decide_eq_false_2 by exact Hne. cbn [negb]. rewrite Hint.
  split; intros Hn.
  - destruct (Z.ltb_spec n 0); [reflexivity|lia].
  - destruct (Z.ltb_spec n 0); [lia|]. cbv zeta.
    match goal with
    | |- context [_do_search E t ?k ?o ?l ?x] =>
      destruct (_do_search_spec E t k o l x) as [(Hs & Hv & _) Hr]
    end.
    unfold cursor. rewrite Hs, Hv, Hr. repeat split.
Qed.

Lemma goto_offset_cursor (E : env) (t : nat) (a : app) :
  current_keywords (search (goto_offset E t a).1) = current_keywords (search a)
  /\ current_limit (search (goto_offset E t a).1) = current_limit (search a)
  /\ (0 <= current_offset (search a) -> 0 <= current_offset (search (goto_offset E t a).1)).
Proof.
  unfold goto_offset. destruct (negb (nonempty _)); [repeat split; trivial|].
  destruct (int_of_str E _) as [n|]; [|repeat split; trivial].
  destruct (Z.ltb_spec n 0); [repeat split; trivial|]. cbv zeta.
  match goal with
  | |- context [_do_search E t ?k ?o ?l ?x] =>
    destruct (_do_search_spec E t k o l x) as [(Hs & _) _]
  end.
  rewrite Hs. repeat split; trivial.
Qed.

Lemma with_txt_search (f : texts -> texts) (a : app) : search (with_txt f a) = search a.
Proof. reflexivity. Qed.

Lemma reset_search_search (a : app) :
  search (reset_search a)
  = {| current_keywords := []; current_offset := 0;
       current_limit := current_limit (search a); song_details := [];
       selected_song := None |}.
Proof.
  unfold reset_search. rewrite with_txt_search.
  match goal with |- context [log ?m ?l ?x] => destruct (log_frame m l x) as (Hs & _) end.
  rewrite Hs. reflexivity.
Qed.

Lemma reset_search_offset (a : app) : current_offset (search (reset_search a)) = 0.
Proof. rewrite reset_search_search. reflexivity. Qed.

Lemma reset_search_limit (a : app) :
  current_limit (search (reset_search a)) = current_limit (search a).
Proof. rewrite reset_search_search. reflexivity. Qed.

Lemma run_op_invariant (E : env) (clock : nat -> str) (t : nat) (op : page_op) (a : app) :
  0 <= current_offset (search a) -> 0 <= current_limit (search a) ->
  0 <= current_offset (search (run_op E clock t op a))
  /\ current_limit (search (run_op E clock t op a)) = current_limit (search a).
Proof.
  intros Ho Hl. unfold run_op.
  assert (Hm : forall (p : app * list event),
             0 <= current_offset (search p.1) ->
             current_limit (search p.1) = current_limit (search a) ->
             0 <= current_offset (search (let '(a', evs) := p in mainloop E clock 0 evs a'))
             /\ current_limit (search (let '(a', evs) := p in mainloop E clock 0 evs a'))
                = current_limit (search a)).
  { intros [a' evs] H1 H2. cbn [fst] in *.
    destruct (mainloop_cursor E clock evs 0 a') as [Hc _].
    unfold cursor in Hc. injection Hc as _ Hc1 Hc2. rewrite Hc1, Hc2. split; assumption. }
  destruct op; [apply Hm | apply Hm | apply Hm | apply (Hm (reset_search a, []))].
  - destruct (next_page_spec E t a) as (Hc & _). unfold cursor in Hc.
    injection Hc as _ Hc _. rewrite Hc. lia.
  - destruct (next_page_spec E t a) as (Hc & _). unfold cursor in Hc.
    injection Hc as _ _ Hc. exact Hc.
  - destruct (prev_page_spec E t a) as [H0 H1].
    destruct (Z.le_gt_cases (current_offset (search a)) 0) as [H|H].
    + rewrite (H0 H). exact Ho.
    + destruct (H1 H) as (Hc & _). unfold cursor in Hc. injection Hc as _ Hc _.
      rewrite Hc. lia.
  - destruct (prev_page_spec E t a) as [H0 H1].
    destruct (Z.le_gt_cases (current_offset (search a)) 0) as [H|H].
    + rewrite (H0 H). reflexivity.
    + destruct (H1 H) as (Hc & _). unfold cursor in Hc. injection Hc as _ _ Hc. exact Hc.
  - destruct (goto_offset_cursor E t (with_vars (set_goto_var typed) a)) as (_ & _ & H).
    apply H. exact Ho.
  - destruct (goto_offset_cursor E t (with_vars (set_goto_var typed) a)) as (_ & H & _).
    exact H.
  - cbn [fst]. rewrite reset_search_offset. lia.
  - cbn [fst]. apply reset_search_limit.
Qed.

Lemma run_ops_invariant (E : env) (clock : nat -> str) (ops : list page_op) :
  forall (t : nat) (a : app),
    0 <= current_offset (search a) -> 0 <= current_limit (search a) ->
    0 <= current_offset (search (run_ops E clock t ops a))
    /\ current_limit (search (run_ops E clock t ops a)) = current_limit (search a).
Proof.
  induction ops as [|op ops IH]; intros t a Ho Hl; [split; [exact Ho|reflexivity]|].
  cbn [run_ops].
  destruct (run_op_invariant E clock t op a Ho Hl) as [Ho' Hl'].
  destruct (IH (S t) (run_op E clock t op a)) as [Ho2 Hl2]; [exact Ho' | lia |].
  split; [exact Ho2 | congruence].
Qed.

(** C6.  From the state the constructor builds (offset 0), after any
    sequence of next, previous, jump and reset operations, each followed
    by the display of what it found, the offset is not negative; previous
    at offset 0 changes nothing and requests nothing; previous at a
    positive offset sets the offset to [max(0, offset - limit)]. *)
Theorem offset_never_negative (E : env) (clock : nat -> str) (f : settings_file)
    (ops : list page_op) (t : nat) :
  0 <= current_offset (search (run_ops E clock t ops (__init__ f)))
  /\ (forall (a : app) (t0 : nat),
        current_offset (search a) = 0 -> prev_page E t0 a = (a, []))
  /\ (forall (a : app) (t0 : nat),
        0 < current_offset (search a) ->
        current_offset (search (prev_page E t0 a).1)
        = Z.max 0 (current_offset (search a) - current_limit (search a))).
Proof.
  split; [|split].
  - apply run_ops_invariant; cbn; lia.
  - intros a t0 H. apply prev_page_spec. lia.
  - intros a t0 H. destruct (prev_page_spec E t0 a) as [_ Hp].
    destruct (Hp H) as (Hc & _). unfold cursor in Hc. injection Hc as _ Hc _. exact Hc.
Qed.

(** C7.  When the jump field holds an integer [n]: for [n < 0] the
    state is unchanged, no request is sent and the only effect is the
    warning dialog; for [n >= 0] the offset becomes [n], keyword and limit
    are kept, the offset field shows [n], and the search is requested
    again with that keyword, offset [n] and that limit. *)
Theorem goto_offset_validates (E : env) (t : nat) (a : app) (n : Z) :
  strip (goto_var (vars a)) <> [] ->
  int_of_str E (strip (goto_var (vars a))) = Some n ->
  (n < 0 ->
     (goto_offset E t a).1 = a
     /\ (goto_offset E t a).2 = [invalid_offset_warning]
     /\ requests_of (goto_offset E t a).2 = [])
  /\ (0 <= n ->
      current_offset (search (goto_offset E t a).1) = n
      /\ current_keywords (search (goto_offset E t a).1) = current_keywords (search a)
      /\ current_limit (search (goto_offset E t a).1) = current_limit (search a)
      /\ offset_var (vars (goto_offset E t a).1) = str_of_int n
      /\ requests_of (goto_offset E t a).2
         = [(t, search_link (current_keywords (search a)) (str_of_int n)
                  (str_of_int (current_limit (search a))))]).
Proof.
  intros Hne Hint. destruct (goto_offset_spec E t a n Hne Hint) as [Hneg Hpos].
  split; intros Hn.
  - rewrite (Hneg Hn). repeat split.
  - destruct (Hpos Hn) as (Hc & Hv & Hr). unfold cursor in Hc.
    injection Hc as Hk Ho Hl. repeat split; assumption.
Qed.

Lemma goto_offset_validates_witness :
  strip (goto_var (vars typed_minus_five)) <> []
  /\ int_of_str serving_env (strip (goto_var (vars typed_minus_five))) = Some (-5)
  /\ ((-5 < 0 ->
        (goto_offset serving_env 0 typed_minus_five).1 = typed_minus_five
        /\ (goto_offset serving_env 0 typed_minus_five).2 = [invalid_offset_warning]
        /\ requests_of (goto_offset serving_env 0 typed_minus_five).2 = [])
      /\ (0 <= -5 ->
        current_offset (search (goto_offset serving_env 0 typed_minus_five).1) = -5
        /\ current_keywords (search (goto_offset serving_env 0 typed_minus_five).1)
           = current_keywords (search typed_minus_five)
        /\ current_limit (search (goto_offset serving_env 0 typed_minus_five).1)
           = current_limit (search typed_minus_five)
        /\ offset_var (vars (goto_offset serving_env 0 typed_minus_five).1) = str_of_int (-5)
        /\ requests_of (goto_offset serving_env 0 typed_minus_five).2
           = [(0%nat, search_link (current_keywords (search typed_minus_five))
                        (str_of_int (-5))
                        (str_of_int (current_limit (search typed_minus_five))))])).
Proof.
  split; [discriminate|]. split; [reflexivity|].
  apply (goto_offset_validates serving_env 0 typed_minus_five (-5)); [discriminate|reflexivity].
Defined.

Example goto_forty :
  let out := goto_offset serving_env 3 (with_vars (set_goto_var (py "40")) (__init__ NoFile)) in
  current_offset (search out.1) = 40
  /\ requests_of out.2
     = [(3%nat, py "https://163api.qijieya.cn/search?keywords=&offset=40&limit=20&type=1")].
Proof. vm_compute. split; reflexivity. Qed.

(** ** Paging buttons *)

Example first_page :
  cursor first_page_shown = (py "测试", 0, 20)
  /\ next_btn (btns first_page_shown) = normal
  /\ prev_btn (btns first_page_shown) = disabled
  /\ length (song_details (search first_page_shown)) = 20%nat.
Proof. vm_compute. repeat split. Qed.

(** C8.  After the search for a keyword at offset 0 and limit 20 found
    20 tracks, next is enabled, previous is disabled, and pressing next
    sets the offset to 20 and requests the search again with the same
    keyword and limit.  When the page then found is empty, the display
    returns before it sets the two buttons: next stays enabled although
    the last page holds 0 tracks, fewer than the limit 20, previous stays
    disabled although the offset is 20, and pressing next again moves the
    offset to 40. *)
Theorem next_stays_enabled_after_empty_page :
  (next_btn (btns first_page_shown) = normal
   /\ prev_btn (btns first_page_shown) = disabled
   /\ current_offset (search (press_next paging_env 1 first_page_shown).1) = 20
   /\ requests_of (press_next paging_env 1 first_page_shown).2
      = [(1%nat, search_link (py "测试") (py "20") (py "20"))])
  /\ (song_details (search second_page_shown) = []
      /\ current_limit (search second_page_shown) = 20
      /\ next_btn (btns second_page_shown) = normal
      /\ prev_btn (btns second_page_shown) = disabled
      /\ current_offset (search (press_next paging_env 2 second_page_shown).1) = 40).
Proof. vm_compute. repeat split. Qed.

(** An empty page leaves both paging buttons as they were. *)
Lemma display_results_empty_page (E : env) (a : app) (data result songs : json) :
  truthy data = true ->
  dict_get data (py "result") (JObj ∅) = Some result ->
  dict_get result (py "songs") (JArr []) = Some songs ->
  truthy songs = false ->
  next_btn (btns (display_results E data a).1) = next_btn (btns a)
  /\ prev_btn (btns (display_results E data a).1) = prev_btn (btns a).
Proof.
  intros Hd Hr Hs Hempty. unfold display_results.
  rewrite Hd, Hr, Hs, Hempty. cbn [negb fst].
  match goal with |- context [log ?m ?l ?x] => destruct (log_frame m l x) as (_ & _ & Hb & _) end.
  split.
  - exact (f_equal next_btn Hb).
  - exact (f_equal prev_btn Hb).
Qed.

(** ** Link test *)

(** A response with status 200 is reported valid whatever its final URL. *)
Lemma test_download_link_status_first (E : env) (t : nat) (a : app) (sel : selection)
    (r : response) :
  selected_song (search a) = Some sel ->
  requests_head E t (sel_download_link sel) = Responds r ->
  status_code r = 200 ->
  detail_download_status (txt (test_download_link E t a).1)
  = text_valid (default (py "未知") (headers r !! py "content-length"))
               (default (py "未知") (headers r !! py "content-type")).
Proof.
  intros Hsel Hhead Hst. unfold test_download_link. rewrite Hsel, Hhead, Hst.
  cbn [Z.eqb Pos.eqb fst].
  match goal with |- context [log ?m ?l ?x] => destruct (log_frame m l x) as (_ & _ & _ & _ & _ & Hd) end.
  rewrite Hd. reflexivity.
Qed.

(** C2.  With a track selected whose link ends on the sentinel page
    served with status 200, the link test reports the link valid (size
    and type unknown), which is not the text of an unavailable link,
    while a download of the same track fails as unavailable. *)
Theorem test_download_link_sentinel_200 :
  selected_song (search selected_track)
  = Some {| sel_id := 1; sel_name := py "a"; sel_artist := py "歌手";
            sel_download_link := py "http://music.163.com/song/media/outer/url?id=1.mp3" |}
  /\ requests_head sentinel_env 0 (py "http://music.163.com/song/media/outer/url?id=1.mp3")
     = Responds (page sentinel 200)
  /\ detail_download_status (txt (test_download_link sentinel_env 0 selected_track).1)
     = text_valid (py "未知") (py "未知")
  /\ text_valid (py "未知") (py "未知") <> text_unavailable
  /\ (fetch_and_download_song sentinel_env 0 default_settings ∅ 1 (py "a") (py "歌手")
        (py "http://music.163.com/song/media/outer/url?id=1.mp3")).1.2
     = (false, msg_unavailable).
Proof.
  split; [reflexivity|]. split; [reflexivity|]. split; [vm_compute; reflexivity|].
  split; [discriminate|]. vm_compute. reflexivity.
Qed.

Example test_download_link_sentinel_404 :
  detail_download_status
    (txt (test_download_link
            (sample_env (fun _ _ => Raises []) (fun _ _ => Responds (page sentinel 404)))
            0 selected_track).1)
  = text_unavailable.
Proof. vm_compute. reflexivity. Qed.

(** ** Settings *)

(** C9, as stated, fails: a settings document that parses and holds a
    number and a null leaves the preferences with values that are not
    valid. *)
Lemma load_settings_keeps_unchecked_values :
  ~ (forall f : settings_file, valid_settings (prefs (__init__ f))).
Proof.
  intros H. specialize (H (Loaded odd_settings_document)).
  destruct H as [_ [d Hd]]. vm_compute in Hd. discriminate Hd.
Qed.

(** C9, amended.  With no settings file the constructor ends with the
    defaults ([load_settings] changes nothing); an unreadable or
    unparsable file, or a document that is not an object, resets both
    preferences to the defaults; in an object an absent key takes its
    default and a present key gives its stored value unchecked; the
    defaults are valid, and the loaded preferences are valid whenever the
    stored values of the present keys are. *)
Theorem load_settings_defaults (s : settings) :
  prefs (__init__ NoFile) = default_settings
  /\ load_settings NoFile s = s
  /\ load_settings Unreadable s = default_settings
  /\ (forall v : json, (forall m, v <> JObj m) -> load_settings (Loaded v) s = default_settings)
  /\ (forall m : gmap str json,
        load_settings (Loaded (JObj m)) s
        = {| naming_format := default (JStr (py "歌曲名-歌手")) (m !! py "naming_format");
             download_dir := default (JStr (py "downloads")) (m !! py "download_dir") |})
  /\ valid_settings default_settings
  /\ (forall m : gmap str json,
        (forall v, m !! py "naming_format" = Some v -> valid_naming_format v) ->
        (forall v, m !! py "download_dir" = Some v -> valid_download_dir v) ->
        valid_settings (load_settings (Loaded (JObj m)) s)).
Proof.
  split; [reflexivity|]. split; [reflexivity|]. split; [reflexivity|].
  split; [|split; [reflexivity|split]].
  - intros v Hv. destruct v; try reflexivity. exfalso. eapply Hv. reflexivity.
  - split; [right; reflexivity | eexists; reflexivity].
  - intros m Hn Hd.
    change (load_settings (Loaded (JObj m)) s)
      with {| naming_format := default (JStr (py "歌曲名-歌手")) (m !! py "naming_format");
              download_dir := default (JStr (py "downloads")) (m !! py "download_dir") |}.
    split; cbn [naming_format download_dir].
    + destruct (m !! py "naming_format") as [v|] eqn:Hv; cbn [default].
      * apply Hn. reflexivity.
      * right. reflexivity.
    + destruct (m !! py "download_dir") as [v|] eqn:Hv; cbn [default].
      * apply Hd. reflexivity.
      * eexists. reflexivity.
Qed.

(** ** Download record *)

Lemma add_download_log_text (timestamp message : str) (a : app) :
  download_log_text (txt (add_download_log timestamp message a))
  = download_log_text (txt a) ++ log_line timestamp message.
Proof.
  unfold add_download_log, log_line. cbn [txt with_txt download_log_text set_download_log_text].
  rewrite <- !app_assoc. reflexivity.
Qed.

Lemma run_ui_call_log (E : env) (timestamp : str) (c : ui_call) (a : app) :
  download_log_text (txt (run_ui_call E timestamp c a))
  = download_log_text (txt a)
    ++ match c with
       | AddDownloadLog m => log_line timestamp m
       | _ => []
       end.
Proof.
  destruct c; cbn [run_ui_call]; rewrite ?app_nil_r; try reflexivity.
  - apply log_frame.
  - apply add_download_log_text.
  - apply display_results_cursor.
Qed.

Lemma mainloop_log (E : env) (clock : nat -> str) (evs : list event) :
  forall (k : nat) (a : app),
    exists stamps : list str,
      length stamps = length (logged evs)
      /\ download_log_text (txt (mainloop E clock k evs a))
         = download_log_text (txt a) ++ concat (zip_with log_line stamps (logged evs)).
Proof.
  induction evs as [|e evs IH]; intros k a.
  - exists []. split; [reflexivity|]. cbn. rewrite app_nil_r. reflexivity.
  - cbn [mainloop]. unfold logged. cbn [omap list_omap]. fold (logged evs).
    destruct (ui_call_of e) as [c|]; [|apply IH].
    destruct (IH (S k) (run_ui_call E (clock k) c a)) as (stamps & Hlen & Hlog).
    rewrite Hlog, run_ui_call_log.
    destruct c; try (exists stamps; split; [exact Hlen|]; rewrite app_nil_r; reflexivity).
    exists (clock k :: stamps). split; [cbn; rewrite Hlen; reflexivity|].
    cbn [zip_with concat]. rewrite <- !app_assoc. reflexivity.
Qed.

Lemma logged_track (p m link : str) (t : nat) (rest : list event) :
  logged (After (StatusLabel p) :: attempt_events t link
          ++ After (AddDownloadLog m) :: rest)
  = m :: logged rest.
Proof. reflexivity. Qed.

Lemma batch_loop_logged (E : env) (cfg : settings) (total : Z) (songs : list song_info) :
  forall (t : nat) (i : Z) (fs : filesystem) (sc fc : Z),
    logged (batch_loop E cfg total t i songs fs sc fc).2
    = zip_with track_entry songs (attempts E t cfg fs songs).
Proof.
  induction songs as [|s rest IH]; intros t i fs sc fc; [reflexivity|].
  rewrite batch_loop_cons, attempts_cons. cbv zeta. cbn [snd].
  rewrite logged_track, IH. reflexivity.
Qed.

Lemma _do_batch_download_logged (E : env) (t : nat) (cfg : settings) (fs : filesystem)
    (songs : list song_info) :
  let total := Z.of_nat (length songs) in
  let rs := attempts E t cfg fs songs in
  logged (_do_batch_download E t cfg fs songs).2
  = zip_with track_entry songs rs
    ++ [batch_summary total (total - Z.of_nat (failures rs)) (Z.of_nat (failures rs))].
Proof.
  intros total rs.
  destruct (_do_batch_download_events E t cfg fs songs) as [box Hev].
  cbv zeta in Hev. fold total in Hev. rewrite Hev.
  destruct (batch_loop_spec E cfg total songs t 0 fs 0 0) as (Hc & _). fold rs in Hc.
  pose proof (attempts_length E cfg songs t fs) as Hlen. fold rs in Hlen.
  pose proof (successes_failures rs) as Hsum.
  unfold logged. cbn [omap list_omap ui_call_of]. rewrite omap_app.
  fold (logged (batch_loop E cfg total t 0 songs fs 0 0).2).
  rewrite batch_loop_logged. fold rs. rewrite Hc. cbn [omap list_omap ui_call_of fst snd].
  f_equal. f_equal. f_equal; unfold total; lia.
Qed.

Lemma _do_download_logged (E : env) (t : nat) (cfg : settings) (fs : filesystem)
    (song_id : Z) (song_name artist download_link : str) :
  exists m, logged (_do_download E t cfg fs song_id song_name artist download_link).2 = [m].
Proof.
  unfold _do_download.
  pose proof (fetch_events E t cfg fs song_id song_name artist download_link) as Hev.
  destruct (fetch_and_download_song E t cfg fs song_id song_name artist download_link)
    as [[fs1 [ok res]] ev]. cbn [snd] in *. subst ev.
  destruct ok; eexists; reflexivity.
Qed.

Lemma reset_search_log (a : app) : download_log_text (txt (reset_search a)) = [].
Proof. reflexivity. Qed.

(** C10, as stated, fails: after a line was recorded, resetting the
    search leaves a download record of which the old one is no prefix. *)
Lemma reset_search_erases_download_log :
  let a := add_download_log (py "2025-01-01 12:00:00") (py "✅ 下载成功: a - 歌手")
             (__init__ NoFile) in
  ~ exists suffix : str,
      download_log_text (txt (reset_search a)) = download_log_text (txt a) ++ suffix.
Proof. intros a [suffix H]. vm_compute in H. discriminate H. Qed.

(** C10, amended.  Whatever interface calls the main loop runs, the
    download record afterwards is the one before followed by one line
    [[timestamp] message] per message handed to [add_download_log], in
    order; a single download hands over one message; a batch hands over
    one per track, in order, and then its summary; resetting the search
    empties the download record. *)
Theorem download_log_appended (E : env) (clock : nat -> str) (t : nat) (cfg : settings)
    (fs : filesystem) :
  (forall (evs : list event) (k : nat) (a : app),
     exists stamps : list str,
       length stamps = length (logged evs)
       /\ download_log_text (txt (mainloop E clock k evs a))
          = download_log_text (txt a) ++ concat (zip_with log_line stamps (logged evs)))
  /\ (forall (song_id : Z) (song_name artist download_link : str),
        exists m,
          logged (_do_download E t cfg fs song_id song_name artist download_link).2 = [m])
  /\ (forall songs_info : list song_info,
        let total := Z.of_nat (length songs_info) in
        let rs := attempts E t cfg fs songs_info in
        logged (_do_batch_download E t cfg fs songs_info).2
        = zip_with track_entry songs_info rs
          ++ [batch_summary total (total - Z.of_nat (failures rs))
                (Z.of_nat (failures rs))])
  /\ (forall a : app, download_log_text (txt (reset_search a)) = []).
Proof.
  split; [intros; apply mainloop_log|].
  split; [intros; apply _do_download_logged|].
  split; [intros; apply _do_batch_download_logged|].
  apply reset_search_log.
Qed.

(** * Further properties *)

(** ** Preferences on disk *)

Lemma load_saved (s s0 : settings) (old : settings_file) :
  load_settings (save_settings Written s old) s0 = s.
Proof.
  destruct s as [nf dd]. unfold save_settings, load_settings, dict_get.
  cbn [naming_format download_dir].
  rewrite lookup_insert_eq, lookup_insert_ne by discriminate.
  rewrite lookup_insert_eq. reflexivity.
Qed.

(** X1.  What [save_settings] writes, [load_settings] reads back: after
    a complete write both preferences are the saved ones, whatever they
    were before, also at the next start of the program; a write broken
    off in the middle leaves a file that loads as the defaults; when the
    file could not be opened the old file is read as before. *)
Theorem saved_settings_reload (s s0 : settings) (old : settings_file) :
  load_settings (save_settings Written s old) s0 = s
  /\ prefs (__init__ (save_settings Written s old)) = s
  /\ load_settings (save_settings BrokenOff s old) s0 = default_settings
  /\ load_settings (save_settings NotOpened s old) s0 = load_settings old s0.
Proof.
  split; [apply load_saved|]. split; [apply load_saved|]. split; reflexivity.
Qed.

Lemma log_info (message : str) (a : app) :
  log message (py "INFO") a = with_txt (set_status_label message) a.
Proof. reflexivity. Qed.

Lemma log_other (message level : str) (a : app) :
  level <> py "INFO" -> log message level a = a.
Proof. intros H. unfold log, str_eqb. rewrite bool_decide_eq_false_2 by exact H. reflexivity. Qed.

(** X2.  Confirming the naming dialog sets the naming format to the
    chosen value, leaves the download directory alone, and, when the
    settings file is written, the next start of the program comes up with
    the same preferences. *)
Theorem dialog_settings_reload (chosen : str) (a : app) (file : settings_file) :
  let out := save_naming_settings Written chosen a file in
  naming_format (prefs out.1) = JStr chosen
  /\ download_dir (prefs out.1) = download_dir (prefs a)
  /\ prefs (__init__ out.2) = prefs out.1.
Proof.
  cbv zeta. unfold save_naming_settings. rewrite log_info. cbn [fst snd prefs with_txt with_prefs].
  split; [reflexivity|]. split; [reflexivity|].
  apply load_saved.
Qed.

Lemma test_file_differs (d : str) : os_path_join d (py "test_write.tmp") <> d.
Proof.
  unfold os_path_join. cbn [startswith]. change (116 =? sep)%N with false.
  intros H. apply (f_equal (@length N)) in H.
  destruct (bool_decide (d = []) || endswith sep d)%bool;
    rewrite length_app in H; cbn [length] in H; lia.
Qed.

(** X3.  The location dialog.  A blank entry gives the warning and
    changes nothing.  When the dialog ends without an error box, the
    download directory of the object is the entry without surrounding
    white space, the naming format is kept, the directory exists, the
    probe file [test_write.tmp] is gone (also one that was there
    before), a later download finds the directory without creating
    anything, and the preferences were handed to [save_settings]: when
    the write completes the next start of the program reads them back,
    but a write that fails is only logged, so the dialog closes without
    a box also when the settings file could not be opened and stays as
    it was, or was left truncated.  When the dialog ends with a box, the
    object and the settings file are as before. *)
Theorem save_location_settings_outcomes (E : env)
    (remove_error : filesystem -> str -> option str) (abspath : str -> str)
    (o : save_outcome) (typed : str) (a : app) (fs : filesystem) (file : settings_file) :
  let new_location := strip typed in
  let test_file := os_path_join new_location (py "test_write.tmp") in
  let out := save_location_settings E remove_error abspath o typed a fs file in
  (new_location = [] -> out = (a, fs, file, [location_warning]))
  /\ (out.2 = [] ->
      prefs out.1.1.1 = {| naming_format := naming_format (prefs a);
                           download_dir := JStr new_location |}
      /\ out.1.2 = save_settings o (prefs out.1.1.1) file
      /\ (o = Written -> prefs (__init__ out.1.2) = prefs out.1.1.1)
      /\ (o = NotOpened -> out.1.2 = file)
      /\ (o = BrokenOff -> out.1.2 = Unreadable)
      /\ is_Some (out.1.1.2 !! new_location)
      /\ out.1.1.2 !! test_file = None
      /\ with_download_dir E out.1.1.2 new_location = inr out.1.1.2)
  /\ (out.2 <> [] -> out.1.1.1 = a /\ out.1.2 = file).
Proof.
  intros new_location test_file out. subst out. unfold save_location_settings.
  fold new_location. unfold nonempty.
  destruct (decide (new_location = [])) as [He|He].
  { rewrite bool_decide_eq_true_2 by exact He. cbn [negb fst snd].
    split; [reflexivity|]. split; [discriminate|]. intros _. split; reflexivity. }
  rewrite bool_decide_eq_false_2 by exact He. cbn [negb].
  split; [intros H; contradiction|].
  fold (with_download_dir E fs new_location).
  destruct (with_download_dir E fs new_location) as [e|fs1] eqn:Hdir; cbn [fst snd].
  { split; [discriminate|]. intros _. split; reflexivity. }
  fold test_file.
  destruct (open_write_error E fs1 test_file) as [[e partial]|]; cbn [fst snd].
  { split; [discriminate|]. intros _. split; reflexivity. }
  destruct (remove_error _ test_file) as [e|]; cbn [fst snd].
  { split; [discriminate|]. intros _. split; reflexivity. }
  rewrite log_info. cbn [fst snd prefs with_txt with_prefs].
  split; [|intros H; contradiction].
  intros _. apply with_download_dir_spec in Hdir. destruct Hdir as [_ Hd].
  assert (Hex : is_Some (delete test_file (<[test_file := File (py "test")]> fs1)
                         !! new_location)).
  { rewrite lookup_delete_ne by (apply test_file_differs).
    rewrite lookup_insert_ne by (apply test_file_differs). exact Hd. }
  split; [reflexivity|]. split; [reflexivity|].
  split; [intros ->; apply load_saved|].
  split; [intros ->; reflexivity|]. split; [intros ->; reflexivity|].
  split; [exact Hex|]. split; [apply lookup_delete_eq|].
  unfold with_download_dir, os_path_exists. rewrite bool_decide_eq_true_2 by exact Hex.
  reflexivity.
Qed.

Example saving_the_location_removes_a_test_file :
  let fs : filesystem := <[py "music/test_write.tmp" := File [7%N]]> (<[py "music" := Dir]> ∅) in
  let out := save_location_settings serving_env (fun _ _ => None) (fun p => p) Written
               (py " music ") (__init__ NoFile) fs NoFile in
  out.2 = [] /\ out.1.1.2 !! py "music/test_write.tmp" = None
  /\ download_dir (prefs out.1.1.1) = JStr (py "music").
Proof. vm_compute. repeat split. Qed.

Example location_dialog_closes_when_saving_fails :
  let out := save_location_settings serving_env (fun _ _ => None) (fun p => p) NotOpened
               (py "music") (__init__ NoFile) ∅ NoFile in
  out.2 = [] /\ out.1.2 = NoFile
  /\ download_dir (prefs out.1.1.1) = JStr (py "music")
  /\ download_dir (prefs (__init__ out.1.2)) = JStr (py "downloads").
Proof. vm_compute. repeat split. Qed.

(** ** Searching *)

(** X4.  [reset_search] puts the search state, the buttons and the texts
    back to what the constructor builds and empties the entry fields,
    with three exceptions: the page size in use, the content of the
    page-size field and the preferences stay.  Resetting twice is
    resetting once. *)
Theorem reset_search_restores_start (a : app) (f : settings_file) :
  reset_search a
  = {| search := set_current_limit (current_limit (search a)) (search (__init__ f));
       prefs := prefs a;
       vars := {| keyword_var := []; offset_var := py "0"; goto_var := [];
                  limit_var := limit_var (vars a) |};
       btns := btns (__init__ f);
       txt := txt (__init__ f) |}
  /\ reset_search (reset_search a) = reset_search a.
Proof.
  assert (H : forall b, reset_search b
    = {| search := set_current_limit (current_limit (search b)) (search (__init__ f));
         prefs := prefs b;
         vars := {| keyword_var := []; offset_var := py "0"; goto_var := [];
                    limit_var := limit_var (vars b) |};
         btns := btns (__init__ f);
         txt := txt (__init__ f) |}).
  { intros b. unfold reset_search. rewrite log_info. reflexivity. }
  split; [apply H|]. rewrite (H (reset_search a)), (H a). reflexivity.
Qed.

(** X5.  [on_search] by its input: without a keyword (after stripping)
    it warns and changes nothing; with a keyword but an offset or page
    size that is no integer it warns and changes nothing; otherwise the
    cursor becomes the stripped keyword with the parsed offset and page
    size (blank fields count as 0 and 20), the entry fields are untouched
    and exactly one search request is sent. *)
Theorem on_search_validates (E : env) (t : nat) (a : app) :
  let keywords := strip (keyword_var (vars a)) in
  let offset := or_default (strip (offset_var (vars a))) (py "0") in
  let limit := or_default (strip (limit_var (vars a))) (py "20") in
  (keywords = [] -> on_search E t a = (a, [keyword_warning]))
  /\ (keywords <> [] -> int_of_str E offset = None \/ int_of_str E limit = None ->
      on_search E t a = (a, [number_warning]))
  /\ (forall o l : Z,
        keywords <> [] -> int_of_str E offset = Some o -> int_of_str E limit = Some l ->
        cursor (on_search E t a).1 = (keywords, o, l)
        /\ vars (on_search E t a).1 = vars a
        /\ requests_of (on_search E t a).2 = [(t, search_link keywords offset limit)]).
Proof.
  intros keywords offset limit. unfold on_search. fold keywords offset limit.
  unfold nonempty. split; [|split].
  - intros H. rewrite bool_decide_eq_true_2 by exact H. reflexivity.
  - intros H Hint. rewrite bool_decide_eq_false_2 by exact H. cbn [negb].
    destruct Hint as [Hint|Hint]; rewrite Hint; [reflexivity|].
    destruct (int_of_str E offset); reflexivity.
  - intros o l H Ho Hl. rewrite bool_decide_eq_false_2 by exact H. cbn [negb].
    rewrite Ho, Hl. cbv zeta.
    match goal with
    | |- context [_do_search E t ?k ?o ?l ?x] =>
      destruct (_do_search_spec E t k o l x) as [(Hs & Hv & _) Hr]
    end.
    unfold cursor. rewrite Hs, Hv, Hr. repeat split.
Qed.

Example on_search_keeps_negative_offset :
  let a := with_vars (set_offset_var (py "-5"))
             (with_vars (set_keyword_var (py "测试")) (__init__ NoFile)) in
  cursor (on_search serving_env 0 a).1 = (py "测试", -5, 20).
Proof. vm_compute. reflexivity. Qed.

(** X6.  One search changes nothing but the status bar, and its events
    are given by the answer: an exception, an HTTP error status or a body
    that is no JSON gives the request and one error dialog with the text
    of the exception; a falsy document gives the request alone; any other
    document is handed to [display_results].  When nothing is handed to
    [display_results], replaying the events leaves the state as it is. *)
Theorem _do_search_outcomes (E : env) (t : nat) (keywords offset limit : str) (a : app) :
  let link := search_link keywords offset limit in
  let out := _do_search E t keywords offset limit a in
  same_but_status a out.1
  /\ match requests_get E t link with
     | Raises e => out.2 = [HttpGet t link; search_error e]
     | Responds r =>
       if (400 <=? status_code r) && (status_code r <? 600)
       then out.2 = [HttpGet t link; search_error (exc_text E r)]
       else match json_body r with
            | None => out.2 = [HttpGet t link; search_error (exc_text E r)]
            | Some d =>
              if truthy d then out.2 = [HttpGet t link; After (DisplayResults d)]
              else out.2 = [HttpGet t link]
            end
     end
  /\ ((forall d, ~ In (After (DisplayResults d)) out.2) ->
      forall (clock : nat -> str) (k : nat), mainloop E clock k out.2 out.1 = out.1).
Proof.
  intros link out.
  assert (Htable : match requests_get E t link with
     | Raises e => out.2 = [HttpGet t link; search_error e]
     | Responds r =>
       if (400 <=? status_code r) && (status_code r <? 600)
       then out.2 = [HttpGet t link; search_error (exc_text E r)]
       else match json_body r with
            | None => out.2 = [HttpGet t link; search_error (exc_text E r)]
            | Some d =>
              if truthy d then out.2 = [HttpGet t link; After (DisplayResults d)]
              else out.2 = [HttpGet t link]
            end
     end).
  { subst out. unfold _do_search, search_music. fold (search_link keywords offset limit).
    fold link. destruct (requests_get E t link) as [e|r]; [reflexivity|].
    destruct ((400 <=? status_code r) && (status_code r <? 600)); [reflexivity|].
    destruct (json_body r) as [d|]; [|reflexivity].
    destruct (truthy d); reflexivity. }
  split; [apply _do_search_spec|]. split; [exact Htable|].
  intros Hno clock k.
  destruct (requests_get E t link) as [e|r]; [rewrite Htable; reflexivity|].
  destruct ((400 <=? status_code r) && (status_code r <? 600));
    [rewrite Htable; reflexivity|].
  destruct (json_body r) as [d|]; [|rewrite Htable; reflexivity].
  destruct (truthy d); [|rewrite Htable; reflexivity].
  exfalso. apply (Hno d). rewrite Htable. right. left. reflexivity.
Qed.

(** ** The result list *)

Lemma extract_loop_all (E : env) (l : list json) (details : list song_info) :
  Forall2 (fun song info => extract_song_info E song = Some info) l details ->
  forall acc, extract_loop E l acc = (acc ++ details, true).
Proof.
  induction 1 as [|song info l details Hx _ IH]; intros acc; cbn [extract_loop].
  - rewrite app_nil_r. reflexivity.
  - rewrite Hx, IH, <- app_assoc. reflexivity.
Qed.

Lemma extract_loop_stops (E : env) (l1 l2 : list json) (bad : json)
    (details : list song_info) :
  Forall2 (fun song info => extract_song_info E song = Some info) l1 details ->
  extract_song_info E bad = None ->
  forall acc, extract_loop E (l1 ++ bad :: l2) acc = (acc ++ details, false).
Proof.
  intros H Hbad.
  induction H as [|song info l details Hx _ IH]; intros acc;
    cbn [extract_loop Datatypes.app].
  - rewrite Hbad, app_nil_r. reflexivity.
  - rewrite Hx, IH, <- app_assoc. reflexivity.
Qed.

(** X7.  A page whose records all extract: the list holds the extracted
    tracks in order, the first one is selected, the cursor is unchanged,
    the download buttons are enabled, the previous button is enabled
    exactly at a positive offset and the next button exactly when the
    page has at least as many records as the page size. *)
Theorem display_results_full_page (E : env) (data result : json) (l : list json)
    (details : list song_info) (a : app) :
  truthy data = true ->
  dict_get data (py "result") (JObj ∅) = Some result ->
  dict_get result (py "songs") (JArr []) = Some (JArr l) ->
  l <> [] ->
  Forall2 (fun song info => extract_song_info E song = Some info) l details ->
  let a' := (display_results E data a).1 in
  song_details (search a') = details
  /\ length details = length l
  /\ selected_song (search a') = option_map selection_of (head details)
  /\ cursor a' = cursor a
  /\ btns a'
     = {| prev_btn := if 0 <? current_offset (search a) then normal else disabled;
          next_btn := if current_limit (search a) <=? Z.of_nat (length l)
                      then normal else disabled;
          download_btn := normal; batch_download_btn := normal;
          test_download_btn := normal |}.
Proof.
  intros Hd Hr Hs Hne Hx a'. subst a'. unfold display_results.
  rewrite Hd, Hr, Hs. cbn [negb].
  assert (Ht : truthy (JArr l) = true) by (destruct l; [contradiction|reflexivity]).
  rewrite Ht. cbn [negb]. rewrite (extract_loop_all E l details Hx []).
  cbn [Datatypes.app].
  pose proof (Forall2_length _ _ _ Hx) as Hlen.
  destruct details as [|d details]; [destruct l; [contradiction|discriminate Hlen]|].
  rewrite log_info. cbn [fst]. unfold update_song_detail.
  cbn [search with_txt with_btns with_search song_details set_song_details length].
  replace (Z.of_nat (S (length details)) <=? 0) with false
    by (symmetry; apply Z.leb_gt; lia).
  cbn [Z.ltb Z.compare orb Z.to_nat lookup list_lookup].
  split; [reflexivity|]. split; [symmetry; exact Hlen|]. repeat split.
Qed.

Lemma display_results_full_page_witness :
  truthy two_songs = true
  /\ dict_get two_songs (py "result") (JObj ∅)
     = Some (JObj (<[py "songs" := JArr [sample_song; sample_song]]>
                     {[ py "songCount" := JNum 137 ]}))
  /\ Forall2 (fun song info => extract_song_info serving_env song = Some info)
       [sample_song; sample_song] [track 1 (py "a"); track 1 (py "a")]
  /\ song_details (search (display_results serving_env two_songs (__init__ NoFile)).1)
     = [track 1 (py "a"); track 1 (py "a")].
Proof.
  split; [reflexivity|]. split; [vm_compute; reflexivity|].
  assert (Hx : Forall2 (fun song info => extract_song_info serving_env song = Some info)
                 [sample_song; sample_song] [track 1 (py "a"); track 1 (py "a")]).
  { repeat constructor; vm_compute; reflexivity. }
  split; [exact Hx|].
  apply (display_results_full_page serving_env two_songs
           (JObj (<[py "songs" := JArr [sample_song; sample_song]]>
                    {[ py "songCount" := JNum 137 ]}))
           [sample_song; sample_song] [track 1 (py "a"); track 1 (py "a")]
           (__init__ NoFile)).
  - reflexivity.
  - vm_compute. reflexivity.
  - vm_compute. reflexivity.
  - discriminate.
  - exact Hx.
Defined.

(** X8.  A page with a record on which the extraction raises: the list
    holds the tracks before that record and nothing after it, while the
    selection, the cursor, the buttons and the texts stay as they were
    before the page arrived. *)
Theorem display_results_stops_at_bad_record (E : env) (data result bad : json)
    (l1 l2 : list json) (details : list song_info) (a : app) :
  truthy data = true ->
  dict_get data (py "result") (JObj ∅) = Some result ->
  dict_get result (py "songs") (JArr []) = Some (JArr (l1 ++ bad :: l2)) ->
  Forall2 (fun song info => extract_song_info E song = Some info) l1 details ->
  extract_song_info E bad = None ->
  let a' := (display_results E data a).1 in
  song_details (search a') = details
  /\ selected_song (search a') = selected_song (search a)
  /\ cursor a' = cursor a
  /\ btns a' = btns a
  /\ txt a' = txt a.
Proof.
  intros Hd Hr Hs Hx Hbad a'. subst a'. unfold display_results.
  rewrite Hd, Hr, Hs. cbn [negb].
  assert (Ht : truthy (JArr (l1 ++ bad :: l2)) = true) by (destruct l1; reflexivity).
  rewrite Ht. cbn [negb]. rewrite (extract_loop_stops E l1 l2 bad details Hx Hbad []).
  cbn [Datatypes.app fst]. repeat split.
Qed.

Lemma display_results_stops_at_bad_record_witness :
  truthy one_good_one_bad = true
  /\ extract_song_info serving_env JNull = None
  /\ song_details (search (display_results serving_env one_good_one_bad selected_track).1)
     = [track 1 (py "a")]
  /\ btns (display_results serving_env one_good_one_bad selected_track).1
     = btns selected_track.
Proof.
  split; [reflexivity|]. split; [reflexivity|].
  assert (H := display_results_stops_at_bad_record serving_env one_good_one_bad
           (JObj (<[py "songs" := JArr [sample_song; JNull; sample_song]]>
                    {[ py "songCount" := JNum 137 ]}))
           JNull [sample_song] [sample_song] [track 1 (py "a")] selected_track).
  destruct H as (H1 & _ & _ & H4 & _).
  - reflexivity.
  - vm_compute. reflexivity.
  - vm_compute. reflexivity.
  - repeat constructor; vm_compute; reflexivity.
  - reflexivity.
  - split; [exact H1 | exact H4].
Defined.

(** X9.  [update_song_detail] does nothing for an index below zero or
    past the end of the list; for an index inside it selects that track,
    enables the download and test buttons and clears the download status,
    leaving the list, the cursor, the preferences, the entry fields, the
    previous, next and batch buttons, the status bar and the download
    record alone. *)
Theorem update_song_detail_bounds (index : Z) (a : app) :
  (index < 0 \/ Z.of_nat (length (song_details (search a))) <= index ->
     update_song_detail index a = a)
  /\ (forall s : song_info,
        0 <= index -> song_details (search a) !! Z.to_nat index = Some s ->
        let a' := update_song_detail index a in
        selected_song (search a') = Some (selection_of s)
        /\ download_btn (btns a') = normal /\ test_download_btn (btns a') = normal
        /\ detail_download_status (txt a') = []
        /\ song_details (search a') = song_details (search a)
        /\ cursor a' = cursor a /\ prefs a' = prefs a /\ vars a' = vars a
        /\ download_log_text (txt a') = download_log_text (txt a)
        /\ prev_btn (btns a') = prev_btn (btns a)
        /\ next_btn (btns a') = next_btn (btns a)
        /\ batch_download_btn (btns a') = batch_download_btn (btns a)
        /\ status_label (txt a') = status_label (txt a)).
Proof.
  unfold update_song_detail. split.
  - intros [H|H].
    + replace (index <? 0) with true by (symmetry; apply Z.ltb_lt; lia). reflexivity.
    + replace (Z.of_nat (length (song_details (search a))) <=? index) with true
        by (symmetry; apply Z.leb_le; lia).
      rewrite orb_true_r. reflexivity.
  - intros s H0 Hs. cbv zeta.
    pose proof (lookup_lt_Some _ _ _ Hs) as Hlt.
    replace (index <? 0) with false by (symmetry; apply Z.ltb_ge; lia).
    replace (Z.of_nat (length (song_details (search a))) <=? index) with false
      by (symmetry; apply Z.leb_gt; lia).
    cbn [orb]. rewrite Hs. repeat split.
Qed.

(** X10.  Selecting a row: no selection, or a row past the end of the
    list, changes nothing; a row of the list selects its track and shows
    name and id in the status bar.  A download started then requests the
    link of that track (the one built from the id when the track has
    none), and a link test sends its HEAD request to the link as stored. *)
Theorem select_then_download (E : env) (t : nat) (a : app) (fs : filesystem) :
  on_song_selected None a = a
  /\ (forall index : nat,
        song_details (search a) !! index = None -> on_song_selected (Some index) a = a)
  /\ (forall (index : nat) (s : song_info),
        song_details (search a) !! index = Some s ->
        let a1 := on_song_selected (Some index) a in
        selected_song (search a1) = Some (selection_of s)
        /\ song_details (search a1) = song_details (search a)
        /\ status_label (txt a1)
           = py "选中: " ++ name s ++ py " - ID: " ++ str_of_int (song_id s)
        /\ requests_of (download_selected_song E t a1 fs).2
           = [(t, effective_link (song_id s) (download_link s))]
        /\ (test_download_link E t a1).2 = [HttpHead t (download_link s)]).
Proof.
  split; [reflexivity|]. split.
  - intros index H. unfold on_song_selected, update_song_detail.
    pose proof (lookup_ge_None_1 _ _ H) as Hge.
    replace (Z.of_nat (length (song_details (search a))) <=? Z.of_nat index) with true
      by (symmetry; apply Z.leb_le; lia).
    rewrite orb_true_r, H. reflexivity.
  - intros index s H. cbv zeta.
    pose proof (lookup_lt_Some _ _ _ H) as Hlt.
    assert (Hu : update_song_detail (Z.of_nat index) a
                 = with_btns (set_test_download_btn normal)
                     (with_btns (set_download_btn normal)
                        (with_search (set_selected_song (Some (selection_of s)))
                           (with_txt (set_detail_download_status []) a)))).
    { unfold update_song_detail.
      replace (Z.of_nat index <? 0) with false by (symmetry; apply Z.ltb_ge; lia).
      replace (Z.of_nat (length (song_details (search a))) <=? Z.of_nat index) with false
        by (symmetry; apply Z.leb_gt; lia).
      cbn [orb]. rewrite Nat2Z.id, H. reflexivity. }
    unfold on_song_selected. rewrite Hu.
    cbn [search with_btns with_search with_txt song_details set_selected_song].
    rewrite H.
    split; [reflexivity|]. split; [reflexivity|]. split; [reflexivity|].
    split.
    + unfold download_selected_song, _do_download.
      cbn [search with_btns with_search with_txt selected_song set_selected_song prefs
           selection_of sel_id sel_name sel_artist sel_download_link].
      pose proof (fetch_events E t (prefs a) fs (song_id s) (name s) (artist_str s)
                    (download_link s)) as Hev.
      destruct (fetch_and_download_song E t (prefs a) fs (song_id s) (name s)
                  (artist_str s) (download_link s)) as [[fs1 [ok res]] ev].
      cbn [snd] in *. subst ev. destruct ok; reflexivity.
    + unfold test_download_link.
      cbn [search with_btns with_search with_txt selected_song set_selected_song
           selection_of sel_download_link].
      destruct (requests_head E t (download_link s)) as [e|r]; [reflexivity|].
      destruct (status_code r =? 200); [reflexivity|].
      destruct (str_eqb (url r) _); reflexivity.
Qed.

(** X11.  At an offset and page size that are not negative, going to
    the next page and back again returns to the same cursor. *)
Theorem next_then_prev (E : env) (t t' : nat) (a : app) :
  0 <= current_offset (search a) -> 0 <= current_limit (search a) ->
  cursor (prev_page E t' (next_page E t a).1).1 = cursor a.
Proof.
  intros Ho Hl.
  destruct (next_page_spec E t a) as (Hc & _). cbv zeta in Hc.
  set (b := (next_page E t a).1) in *.
  unfold cursor in Hc. injection Hc as Hk Hoff Hlim.
  destruct (prev_page_spec E t' b) as [H0 H1].
  destruct (Z.le_gt_cases (current_offset (search b)) 0) as [H|H].
  - rewrite (H0 H). cbn [fst]. unfold cursor. rewrite Hk, Hoff, Hlim. f_equal. f_equal. lia.
  - destruct (H1 H) as (Hc & _). cbv zeta in Hc. rewrite Hc, Hk, Hoff, Hlim.
    unfold cursor. f_equal. f_equal. lia.
Qed.

Lemma next_then_prev_witness :
  0 <= current_offset (search first_page_shown)
  /\ 0 <= current_limit (search first_page_shown)
  /\ cursor (prev_page paging_env 2 (next_page paging_env 1 first_page_shown).1).1
     = cursor first_page_shown.
Proof.
  split; [vm_compute; discriminate|]. split; [vm_compute; discriminate|].
  apply (next_then_prev paging_env 1 2 first_page_shown); vm_compute; discriminate.
Defined.

Example prev_then_next_differs :
  let a := with_search (set_current_offset 5) (__init__ NoFile) in
  current_offset (search (next_page serving_env 1 (prev_page serving_env 0 a).1).1) = 20.
Proof. vm_compute. reflexivity. Qed.

(** ** File names *)

Lemma lstrip_map (f : N -> N) (s : str) :
  (forall c, isspace (f c) = isspace c) -> lstrip (map f s) = map f (lstrip s).
Proof.
  intros Hf. induction s as [|c s IH]; [reflexivity|].
  cbn [map lstrip]. rewrite Hf. destruct (isspace c); [exact IH | reflexivity].
Qed.

Lemma strip_map (f : N -> N) (s : str) :
  (forall c, isspace (f c) = isspace c) -> strip (map f s) = map f (strip s).
Proof.
  intros Hf. unfold strip, rstrip.
  rewrite lstrip_map, <- map_rev, lstrip_map, map_rev by exact Hf. reflexivity.
Qed.

Lemma lstrip_fixed (s : str) :
  (forall c r, s = c :: r -> isspace c = false) -> lstrip s = s.
Proof.
  destruct s as [|c r]; [reflexivity|]. intros H. cbn [lstrip].
  rewrite (H c r eq_refl). reflexivity.
Qed.

Lemma strip_idempotent (s : str) : strip (strip s) = strip s.
Proof.
  destruct (strip_spec s) as (l & r & _ & _ & _ & Hhead & Hlast).
  unfold strip at 1. rewrite (lstrip_fixed (strip s)) by (intros c t H; eapply Hhead, H).
  unfold rstrip. rewrite (lstrip_fixed (rev (strip s))); [apply rev_involutive|].
  intros c t H. apply (Hlast c (rev t)).
  rewrite <- (rev_involutive (strip s)), H. reflexivity.
Qed.

Lemma sanitize_space (c : N) : isspace (sanitize c) = isspace c.
Proof.
  unfold sanitize, forbidden. cbn [existsb].
  destruct (N.eqb_spec c 60) as [->|?]; [reflexivity|].
  destruct (N.eqb_spec c 62) as [->|?]; [reflexivity|].
  destruct (N.eqb_spec c 58) as [->|?]; [reflexivity|].
  destruct (N.eqb_spec c 34) as [->|?]; [reflexivity|].
  destruct (N.eqb_spec c 47) as [->|?]; [reflexivity|].
  destruct (N.eqb_spec c 92) as [->|?]; [reflexivity|].
  destruct (N.eqb_spec c 124) as [->|?]; [reflexivity|].
  destruct (N.eqb_spec c 63) as [->|?]; [reflexivity|].
  destruct (N.eqb_spec c 42) as [->|?]; reflexivity.
Qed.

Lemma sanitize_idempotent (c : N) : sanitize (sanitize c) = sanitize c.
Proof.
  unfold sanitize at 2 3. destruct (existsb (N.eqb c) forbidden) eqn:H.
  - reflexivity.
  - unfold sanitize. rewrite H. reflexivity.
Qed.

Lemma strip_length (s : str) : (length (strip s) <= length s)%nat.
Proof.
  destruct (strip_spec s) as (l & r & Hs & _).
  rewrite Hs at 2. rewrite !length_app. lia.
Qed.

(** X12.  [clean_filename] is idempotent and never lengthens its input;
    hence [generate_filename] gives the same name for cleaned and for raw
    title and artist. *)
Theorem clean_filename_idempotent (text : str) :
  clean_filename (clean_filename text) = clean_filename text
  /\ (length (clean_filename text) <= length text)%nat
  /\ (forall naming_format artist,
        generate_filename naming_format (clean_filename text) (clean_filename artist)
        = generate_filename naming_format text artist).
Proof.
  assert (H : forall t, clean_filename (clean_filename t) = clean_filename t).
  { intros t. rewrite !clean_filename_map.
    rewrite (strip_map sanitize t) by apply sanitize_space.
    rewrite map_map, (map_ext _ sanitize) by apply sanitize_idempotent.
    rewrite (strip_map sanitize) by apply sanitize_space.
    rewrite strip_idempotent. reflexivity. }
  split; [apply H|]. split.
  - rewrite clean_filename_map. etransitivity; [apply strip_length|].
    rewrite length_map. reflexivity.
  - intros nf artist. unfold generate_filename. rewrite !H. reflexivity.
Qed.

Lemma rfind_from_absent (c : N) (s : str) :
  ~ In c s -> forall i acc, rfind_from c s i acc = acc.
Proof.
  induction s as [|x s IH]; intros Hc i acc; cbn [rfind_from]; [reflexivity|].
  destruct (N.eqb_spec x c) as [->|_]; [exfalso; apply Hc; left; reflexivity|].
  apply IH. intros H. apply Hc. right. exact H.
Qed.

Lemma rfind_from_last (c : N) (s tail : str) :
  ~ In c tail ->
  forall i acc, rfind_from c (s ++ c :: tail) i acc = i + Z.of_nat (length s).
Proof.
  intros Ht. induction s as [|x s IH]; intros i acc; cbn [rfind_from Datatypes.app length].
  - rewrite N.eqb_refl, rfind_from_absent by exact Ht. lia.
  - rewrite IH. lia.
Qed.

Lemma os_path_splitext_mp3 (stem : str) :
  ~ In sep stem ->
  (exists c, In c stem /\ c <> extsep) ->
  os_path_splitext (stem ++ py ".mp3") = (stem, py ".mp3").
Proof.
  intros Hsep (c & Hc & Hdot). unfold os_path_splitext.
  assert (Hs : rfind sep (stem ++ py ".mp3") = -1).
  { unfold rfind. apply rfind_from_absent. intros H. apply in_app_or in H.
    destruct H as [H|H]; [exact (Hsep H)|].
    cbn in H. unfold sep in H. intuition discriminate. }
  assert (Hd : rfind extsep (stem ++ py ".mp3") = Z.of_nat (length stem)).
  { unfold rfind. change (py ".mp3") with (extsep :: py "mp3").
    rewrite rfind_from_last; [lia|].
    cbn. unfold extsep. intuition discriminate. }
  rewrite Hs, Hd. unfold slice.
  replace (-1 + 1) with 0 by lia. rewrite Z.sub_0_r, Nat2Z.id.
  change (Z.to_nat 0) with 0%nat. rewrite drop_0, take_app_length, drop_app_length.
  replace (-1 <? Z.of_nat (length stem)) with true by (symmetry; apply Z.ltb_lt; lia).
  assert (He : existsb (fun x => negb (x =? extsep)%N) stem = true).
  { apply existsb_exists. exists c. split; [exact Hc|].
    apply negb_true_iff, N.eqb_neq. exact Hdot. }
  rewrite He. reflexivity.
Qed.

Lemma generate_filename_not_forbidden (naming_format : json) (song_name artist : str)
    (c : N) :
  In c (generate_filename naming_format song_name artist) -> ~ In c forbidden.
Proof.
  unfold generate_filename. intros Hc.
  destruct (match naming_format with JStr s => str_eqb s (py "歌曲名") | _ => false end).
  - apply in_app_or in Hc. destruct Hc as [Hc|Hc].
    + eapply clean_filename_not_forbidden, Hc.
    + eapply literal_not_forbidden; [|exact Hc]. reflexivity.
  - apply in_app_or in Hc. destruct Hc as [Hc|Hc];
      [eapply clean_filename_not_forbidden, Hc|].
    apply in_app_or in Hc. destruct Hc as [Hc|Hc];
      [eapply literal_not_forbidden; [|exact Hc]; reflexivity|].
    apply in_app_or in Hc. destruct Hc as [Hc|Hc];
      [eapply clean_filename_not_forbidden, Hc|].
    eapply literal_not_forbidden; [|exact Hc]. reflexivity.
Qed.

(** X13.  A generated name is its stem followed by [.mp3] and holds no
    path separator, and the k-th alternative the duplicate loop tries is
    the stem, the number in brackets, then [.mp3] -- provided that, in the
    title-only format, the cleaned title has a character other than a
    dot. *)
Theorem numbered_names_keep_extension (naming_format : json) (song_name artist dir : str) :
  (title_only naming_format = true ->
   exists c, In c (clean_filename song_name) /\ c <> extsep) ->
  let stem := stem_of naming_format song_name artist in
  let filename := generate_filename naming_format song_name artist in
  filename = stem ++ py ".mp3"
  /\ ~ In sep filename
  /\ (forall k, numbered dir filename k
                = os_path_join dir (stem ++ py " (" ++ str_of_int k ++ py ").mp3")).
Proof.
  intros Hc stem filename.
  assert (Hf : filename = stem ++ py ".mp3").
  { subst filename stem. unfold generate_filename, stem_of, title_only.
    destruct (match naming_format with JStr s => str_eqb s (py "歌曲名") | _ => false end);
      [reflexivity|]. rewrite <- !app_assoc. reflexivity. }
  assert (Hsep : ~ In sep filename).
  { intros H. subst filename.
    apply (generate_filename_not_forbidden naming_format song_name artist sep H).
    unfold sep, forbidden. cbn. tauto. }
  split; [exact Hf|]. split; [exact Hsep|].
  intros k. unfold numbered. rewrite Hf, os_path_splitext_mp3.
  - reflexivity.
  - intros H. apply Hsep. rewrite Hf. apply in_or_app. left. exact H.
  - subst stem. unfold stem_of. destruct (title_only naming_format).
    + apply Hc. reflexivity.
    + exists 32%N. split; [|unfold extsep; discriminate].
      apply in_or_app. right. left. reflexivity.
Qed.

Lemma numbered_names_keep_extension_witness :
  (title_only (JStr (py "歌曲名")) = true ->
   exists c, In c (clean_filename (py "a.b")) /\ c <> extsep)
  /\ numbered (py "d") (generate_filename (JStr (py "歌曲名")) (py "a.b") (py "x")) 2
     = py "d/a.b (2).mp3".
Proof.
  assert (H : title_only (JStr (py "歌曲名")) = true ->
              exists c, In c (clean_filename (py "a.b")) /\ c <> extsep).
  { intros _. exists 97%N. split; [vm_compute; tauto | discriminate]. }
  split; [exact H|].
  destruct (numbered_names_keep_extension (JStr (py "歌曲名")) (py "a.b") (py "x")
              (py "d") H) as (_ & _ & Hk).
  rewrite Hk. vm_compute. reflexivity.
Defined.

Example dots_only_title_loses_extension :
  numbered (py "d") (generate_filename (JStr (py "歌曲名")) (py ".") (py "x")) 1
  = py "d/..mp3 (1)".
Proof. vm_compute. reflexivity. Qed.

(** ** Downloads and the file system *)

Lemma makedirs_subseteq (fs : filesystem) (ps : list str) :
  (forall p, In p ps -> fs !! p = None) ->
  fs ⊆ foldr (fun p m => <[p := Dir]> m) fs ps.
Proof.
  induction ps as [|p ps IH]; intros H; cbn [foldr]; [reflexivity|].
  apply insert_subseteq_r; [apply H; left; reflexivity|].
  apply IH. intros q Hq. apply H. right. exact Hq.
Qed.

Lemma with_download_dir_subseteq (E : env) (fs fs1 : filesystem) (dir : str) :
  makedirs_only_new E ->
  with_download_dir E fs dir = inr fs1 -> fs ⊆ fs1.
Proof.
  intros HE. unfold with_download_dir. destruct (os_path_exists fs dir) eqn:Hex.
  - intros [= <-]. reflexivity.
  - destruct (os_makedirs E fs dir) as [e|ps] eqn:Hmk; [discriminate|]. intros [= <-].
    apply os_path_exists_false in Hex.
    apply insert_subseteq_r; [exact Hex|]. apply makedirs_subseteq. eapply HE, Hmk.
Qed.

(** X14.  When [os.makedirs] creates only what did not exist, a download
    keeps every file and directory that was there, content included; a
    successful one writes the body of the response to a path that did not
    exist before. *)
Theorem fetch_keeps_files (E : env) (t : nat) (cfg : settings) (fs : filesystem)
    (song_id : Z) (song_name artist download_link : str) :
  makedirs_only_new E ->
  let out := fetch_and_download_song E t cfg fs song_id song_name artist download_link in
  fs ⊆ out.1.1
  /\ (forall p, out.1.2 = (true, p) ->
        fs !! p = None
        /\ exists r, requests_get E t (effective_link song_id download_link) = Responds r
                     /\ out.1.1 !! p = Some (File (content r))).
Proof.
  intros HE out. split.
  - subst out. rewrite fetch_unfold. cbv zeta.
    destruct (requests_get E t (effective_link song_id download_link)) as [e|r];
      [reflexivity|].
    destruct (str_eqb (url r) sentinel); [reflexivity|].
    destruct (negb (status_code r =? 200)); [reflexivity|].
    destruct (download_dir cfg) as [| | | |dir| |]; try reflexivity.
    destruct (with_download_dir E fs dir) as [e|fs1] eqn:Hdir; [reflexivity|].
    pose proof (with_download_dir_subseteq E fs fs1 dir HE Hdir) as Hsub.
    destruct (avoid_duplicate_spec fs1 dir (filename_of cfg song_id song_name artist))
      as [Hfree _].
    destruct (open_write_error E fs1 _) as [[e [bytes|]]|]; cbn [fst snd].
    + etransitivity; [exact Hsub | apply insert_subseteq, Hfree].
    + exact Hsub.
    + etransitivity; [exact Hsub | apply insert_subseteq, Hfree].
  - intros p Hp. destruct (fetch_success_fresh E t cfg fs _ _ _ _ p Hp) as [Hfresh _].
    split; [exact Hfresh|].
    destruct (fetch_success E t cfg fs _ _ _ _ p Hp) as (dir & fs1 & r & _ & Hr & _ & _ & Hfs).
    exists r. split; [exact Hr|]. subst out. rewrite Hfs. apply lookup_insert_eq.
Qed.

Lemma sample_env_makedirs (get head : nat -> str -> http_outcome) :
  makedirs_only_new (sample_env get head).
Proof. intros fs d ps [= <-] p []. Qed.

Lemma fetch_keeps_files_witness :
  makedirs_only_new serving_env
  /\ (<[py "downloads/A - B.mp3" := File [1%N]]> ∅ : filesystem)
     ⊆ (fetch_and_download_song serving_env 0 default_settings
          (<[py "downloads/A - B.mp3" := File [1%N]]> ∅) 7 (py "A") (py "B") []).1.1.
Proof.
  split; [apply sample_env_makedirs|].
  apply (fetch_keeps_files serving_env 0 default_settings
           (<[py "downloads/A - B.mp3" := File [1%N]]> ∅) 7 (py "A") (py "B") []).
  apply sample_env_makedirs.
Defined.

Example download_beside_existing_file :
  let out := fetch_and_download_song serving_env 0 default_settings
               (<[py "downloads/A - B.mp3" := File [1%N]]> ∅) 7 (py "A") (py "B") [] in
  out.1.2 = (true, py "downloads/A - B (1).mp3")
  /\ out.1.1 !! py "downloads/A - B.mp3" = Some (File [1%N])
  /\ out.1.1 !! py "downloads/A - B (1).mp3" = Some (File [73; 68; 51]%N).
Proof. vm_compute. repeat split. Qed.

(** X15.  The file system changes only after an answer with status 200
    that is not the sentinel page, with a string as download directory.
    A request that raises gives the failure text with the exception; a
    download directory that is no string makes every download fail. *)
Theorem fetch_touches_files_only_after_200 (E : env) (t : nat) (cfg : settings)
    (fs : filesystem) (song_id : Z) (song_name artist download_link : str) :
  let out := fetch_and_download_song E t cfg fs song_id song_name artist download_link in
  (out.1.1 = fs
   \/ exists r dir,
        requests_get E t (effective_link song_id download_link) = Responds r
        /\ url r <> sentinel /\ status_code r = 200 /\ download_dir cfg = JStr dir)
  /\ (forall e, requests_get E t (effective_link song_id download_link) = Raises e ->
        out.1 = (fs, (false, py "网络请求失败: " ++ e)))
  /\ (is_str (download_dir cfg) = false -> out.1.1 = fs /\ out.1.2.1 = false).
Proof.
  intros out. subst out. rewrite fetch_unfold. cbv zeta.
  destruct (requests_get E t (effective_link song_id download_link)) as [e|r].
  { split; [left; reflexivity|]. split; [intros e' [= <-]; reflexivity|].
    intros _. split; reflexivity. }
  unfold str_eqb. destruct (bool_decide (url r = sentinel)) eqn:Hu.
  { split; [left; reflexivity|]. split; [discriminate|]. intros _. split; reflexivity. }
  apply bool_decide_eq_false in Hu.
  destruct (Z.eqb_spec (status_code r) 200) as [Hs|Hs]; cbn [negb].
  2:{ split; [left; reflexivity|]. split; [discriminate|]. intros _. split; reflexivity. }
  destruct (download_dir cfg) as [| | | |dir| |];
    try (split; [left; reflexivity|]; split; [discriminate|]; intros _; split; reflexivity).
  split; [right; exists r, dir; repeat split; assumption|].
  split; discriminate.
Qed.

Lemma batch_loop_fs (E : env) (cfg : settings) (total : Z) (s : song_info)
    (rest : list song_info) (t : nat) (i : Z) (fs : filesystem) (sc fc : Z) :
  exists sc' fc',
    (batch_loop E cfg total t i (s :: rest) fs sc fc).1.1
    = (batch_loop E cfg total (S t) (i + 1) rest
         (fetch_and_download_song E t cfg fs (song_id s) (name s) (artist_str s)
            (download_link s)).1.1 sc' fc').1.1.
Proof. rewrite batch_loop_cons. cbv zeta. cbn [fst]. eauto. Qed.

Lemma batch_paths (E : env) (cfg : settings) (total : Z) (songs : list song_info) :
  forall (t : nat) (i : Z) (fs : filesystem) (sc fc : Z),
    let final := (batch_loop E cfg total t i songs fs sc fc).1.1 in
    let rs := attempts E t cfg fs songs in
    grows fs final
    /\ NoDup (saved_paths rs)
    /\ (forall p, In p (saved_paths rs) -> fs !! p = None /\ is_Some (final !! p)).
Proof.
  induction songs as [|s rest IH]; intros t i fs sc fc.
  - cbn. split; [apply grows_refl|]. split; [constructor|]. intros p [].
  - cbv zeta. destruct (batch_loop_fs E cfg total s rest t i fs sc fc) as (sc' & fc' & ->).
    rewrite attempts_cons. cbv zeta.
    pose proof (fetch_grows E t cfg fs (song_id s) (name s) (artist_str s)
                  (download_link s)) as Hg.
    pose proof (fetch_success_fresh E t cfg fs (song_id s) (name s) (artist_str s)
                  (download_link s)) as Hs.
    set (r := fetch_and_download_song E t cfg fs (song_id s) (name s) (artist_str s)
                (download_link s)) in *.
    destruct (IH (S t) (i + 1) r.1.1 sc' fc') as (Hg2 & Hnd & Hin).
    split; [eapply grows_trans; eassumption|].
    unfold saved_paths in *. cbn [List.filter].
    destruct (r.1.2) as [ok q] eqn:Hr. cbn [fst]. destruct ok; cbn [map snd].
    + destruct (Hs q eq_refl) as [Hfresh Hnew]. split.
      * constructor; [|exact Hnd]. intros Hq. apply list_elem_of_In, Hin in Hq.
        destruct Hq as [Hq _]. rewrite Hq in Hnew. destruct Hnew as [? ?]. discriminate.
      * intros p [<-|Hp]; [split; [exact Hfresh | apply Hg2, Hnew]|].
        destruct (Hin p Hp) as [Hp1 Hp2]. split; [|exact Hp2].
        destruct (fs !! p) eqn:Hfp; [|reflexivity].
        destruct (Hg p) as [x Hx]; [eauto|]. congruence.
    + split; [exact Hnd|]. intros p Hp. destruct (Hin p Hp) as [Hp1 Hp2].
      split; [|exact Hp2]. destruct (fs !! p) eqn:Hfp; [|reflexivity].
      destruct (Hg p) as [x Hx]; [eauto|]. congruence.
Qed.

Lemma _do_batch_download_fs (E : env) (t : nat) (cfg : settings) (fs : filesystem)
    (songs : list song_info) :
  (_do_batch_download E t cfg fs songs).1
  = (batch_loop E cfg (Z.of_nat (length songs)) t 0 songs fs 0 0).1.1.
Proof.
  unfold _do_batch_download.
  destruct (batch_loop E cfg (Z.of_nat (length songs)) t 0 songs fs 0 0)
    as [[fs1 [sc fc]] evs]. reflexivity.
Qed.

(** X16.  The paths a batch saves to are pairwise different, none of
    them existed before the batch, all of them exist after it, there is
    one per successful track, and nothing that existed before is lost. *)
Theorem batch_never_reuses_a_path (E : env) (t : nat) (cfg : settings) (fs : filesystem)
    (songs_info : list song_info) :
  let final := (_do_batch_download E t cfg fs songs_info).1 in
  let rs := attempts E t cfg fs songs_info in
  grows fs final
  /\ NoDup (saved_paths rs)
  /\ (forall p, In p (saved_paths rs) -> fs !! p = None /\ is_Some (final !! p))
  /\ length (saved_paths rs) = successes rs.
Proof.
  cbv zeta. rewrite _do_batch_download_fs.
  destruct (batch_paths E cfg (Z.of_nat (length songs_info)) songs_info t 0 fs 0 0)
    as (H1 & H2 & H3).
  split; [exact H1|]. split; [exact H2|]. split; [exact H3|].
  unfold saved_paths, successes. apply length_map.
Qed.

Example batch_of_namesakes :
  saved_paths (attempts serving_env 0 default_settings ∅
                 [track 1 (py "a"); track 2 (py "a"); track 3 (py "a")])
  = [py "downloads/a - 歌手.mp3"; py "downloads/a - 歌手 (1).mp3";
     py "downloads/a - 歌手 (2).mp3"].
Proof. vm_compute. reflexivity. Qed.

(** X17.  The last event of a batch is its closing dialog: an
    information box when no track failed, a warning box otherwise. *)
Theorem batch_closing_dialog (E : env) (t : nat) (cfg : settings) (fs : filesystem)
    (songs_info : list song_info) :
  let rs := attempts E t cfg fs songs_info in
  exists message,
    last (_do_batch_download E t cfg fs songs_info).2
    = Some (After (MessageBox (match failures rs with
                               | O => showinfo
                               | S _ => showwarning
                               end) (py "批量下载完成") message)).
Proof.
  intros rs. unfold _do_batch_download.
  destruct (batch_loop_spec E cfg (Z.of_nat (length songs_info)) songs_info t 0 fs 0 0)
    as (Hc & _). fold rs in Hc.
  destruct (batch_loop E cfg (Z.of_nat (length songs_info)) t 0 songs_info fs 0 0)
    as [[fs1 [sc fc]] evs]. cbn [fst snd] in *. injection Hc as _ Hfc.
  rewrite app_comm_cons, last_app. cbn [last].
  destruct (failures rs) as [|k]; subst fc.
  - cbn [Z.of_nat Z.add Z.eqb]. eexists. reflexivity.
  - replace (0 + Z.of_nat (S k) =? 0) with false by (symmetry; apply Z.eqb_neq; lia).
    eexists. reflexivity.
Qed.

(** X18.  With a download directory that is no string (the settings
    file is not checked for that) every track of a batch fails and the
    file system stays as it is. *)
Theorem downloads_fail_without_a_directory (E : env) (cfg : settings)
    (songs_info : list song_info) :
  is_str (download_dir cfg) = false ->
  forall (t : nat) (fs : filesystem),
    Forall (fun r : bool * str => r.1 = false) (attempts E t cfg fs songs_info)
    /\ (_do_batch_download E t cfg fs songs_info).1 = fs
    /\ failures (attempts E t cfg fs songs_info) = length songs_info.
Proof.
  intros Hdir.
  assert (Hf : forall t fs id nm ar lk,
             (fetch_and_download_song E t cfg fs id nm ar lk).1.1 = fs
             /\ (fetch_and_download_song E t cfg fs id nm ar lk).1.2.1 = false).
  { intros. rewrite fetch_unfold. cbv zeta.
    destruct (requests_get E t (effective_link id lk)) as [e|r]; [split; reflexivity|].
    destruct (str_eqb (url r) sentinel); [split; reflexivity|].
    destruct (negb (status_code r =? 200)); [split; reflexivity|].
    destruct (download_dir cfg); try discriminate Hdir; split; reflexivity. }
  assert (Hloop : forall songs t i fs sc fc,
             (batch_loop E cfg (Z.of_nat (length songs_info)) t i songs fs sc fc).1.1 = fs).
  { induction songs as [|s rest IH]; intros t i fs sc fc; [reflexivity|].
    destruct (batch_loop_fs E cfg (Z.of_nat (length songs_info)) s rest t i fs sc fc)
      as (sc' & fc' & ->).
    rewrite IH. apply Hf. }
  assert (Hall : forall songs t fs,
             Forall (fun r : bool * str => r.1 = false) (attempts E t cfg fs songs)).
  { induction songs as [|s rest IH]; intros t fs; [constructor|].
    rewrite attempts_cons. cbv zeta. constructor; [apply Hf | apply IH]. }
  intros t fs. split; [apply Hall|]. split; [rewrite _do_batch_download_fs; apply Hloop|].
  rewrite <- (attempts_length E cfg songs_info t fs).
  unfold failures. specialize (Hall songs_info t fs).
  induction Hall as [|[ok m] rs Hok _ IH]; [reflexivity|].
  cbn in Hok. subst ok. cbn. rewrite IH. reflexivity.
Qed.

Lemma downloads_fail_without_a_directory_witness :
  is_str (download_dir unchecked_prefs) = false
  /\ Forall (fun r : bool * str => r.1 = false)
       (attempts serving_env 0 unchecked_prefs ∅ [track 1 (py "a"); track 2 (py "b")]).
Proof.
  split; [vm_compute; reflexivity|].
  apply (downloads_fail_without_a_directory serving_env unchecked_prefs
           [track 1 (py "a"); track 2 (py "b")]).
  vm_compute. reflexivity.
Defined.

(** ** Starting a download or a link test *)

(** X19.  The link test: without a selection it warns and changes
    nothing.  With one it sends exactly one HEAD request to the stored
    link, changes neither search state, buttons, preferences, entry
    fields nor download record; the download status shows the error of a
    failed request, the size and type of a 200 answer, the sentinel text
    for another answer ending on the sentinel page, the status code
    otherwise; the status bar changes only on a 200 answer. *)
Theorem test_download_link_reports (E : env) (t : nat) (a : app) :
  (selected_song (search a) = None ->
     test_download_link E t a = (a, [select_first_warning]))
  /\ (forall sel : selection,
        selected_song (search a) = Some sel ->
        let out := test_download_link E t a in
        out.2 = [HttpHead t (sel_download_link sel)]
        /\ search out.1 = search a /\ btns out.1 = btns a /\ prefs out.1 = prefs a
        /\ vars out.1 = vars a
        /\ download_log_text (txt out.1) = download_log_text (txt a)
        /\ detail_download_status (txt out.1)
           = match requests_head E t (sel_download_link sel) with
             | Raises e => text_error e
             | Responds r =>
               if status_code r =? 200
               then text_valid (default (py "未知") (headers r !! (py "content-length" : str)))
                               (default (py "未知") (headers r !! (py "content-type" : str)))
               else if bool_decide (url r = sentinel) then text_unavailable
               else text_failed (status_code r)
             end
        /\ (status_label (txt out.1) <> status_label (txt a) ->
            exists r, requests_head E t (sel_download_link sel) = Responds r
                      /\ status_code r = 200)).
Proof.
  unfold test_download_link. split.
  - intros H. rewrite H. reflexivity.
  - intros sel H. rewrite H. cbv zeta.
    destruct (requests_head E t (sel_download_link sel)) as [e|r].
    + rewrite log_other by discriminate. repeat split. intros Hn. exfalso. apply Hn. reflexivity.
    + destruct (status_code r =? 200) eqn:Hs.
      * rewrite log_info. repeat split. intros _. exists r. split; [reflexivity|].
        apply Z.eqb_eq. exact Hs.
      * unfold str_eqb. change (py "https://music.163.com/#/404") with sentinel.
        destruct (bool_decide (url r = sentinel)); rewrite log_other by discriminate;
          repeat split; intros Hn; exfalso; apply Hn; reflexivity.
Qed.

Lemma _do_batch_download_requests (E : env) (t : nat) (cfg : settings) (fs : filesystem)
    (songs : list song_info) :
  requests_of (_do_batch_download E t cfg fs songs).2
  = imap (fun j s => ((t + j)%nat, effective_link (song_id s) (download_link s))) songs.
Proof.
  destruct (_do_batch_download_events E t cfg fs songs) as [box Hev].
  cbv zeta in Hev. rewrite Hev.
  destruct (batch_loop_spec E cfg (Z.of_nat (length songs)) songs t 0 fs 0 0)
    as (_ & Hreq & _).
  unfold requests_of. cbn [omap list_omap]. rewrite omap_app.
  fold (requests_of (batch_loop E cfg (Z.of_nat (length songs)) t 0 songs fs 0 0).2).
  rewrite Hreq. cbn. apply app_nil_r.
Qed.

(** X20.  Without a selected track the single download sends no request,
    records nothing and leaves the file system alone; with one it sends
    one request, to the link of the selection.  The batch download does
    nothing on an empty list or a declined confirmation; confirmed on a
    list it sends one request per track, in order. *)
Theorem download_needs_a_selection (E : env) (t : nat) (a : app) (fs : filesystem) :
  (selected_song (search a) = None ->
     let out := download_selected_song E t a fs in
     out.1 = fs /\ requests_of out.2 = [] /\ logged out.2 = [])
  /\ (forall sel : selection,
        selected_song (search a) = Some sel ->
        requests_of (download_selected_song E t a fs).2
        = [(t, effective_link (sel_id sel) (sel_download_link sel))])
  /\ (song_details (search a) = [] ->
      forall confirmed,
        let out := batch_download E t confirmed a fs in
        out.1 = fs /\ requests_of out.2 = [] /\ logged out.2 = [])
  /\ (let out := batch_download E t false a fs in
      out.1 = fs /\ requests_of out.2 = [] /\ logged out.2 = [])
  /\ (song_details (search a) <> [] ->
      requests_of (batch_download E t true a fs).2
      = imap (fun j s => ((t + j)%nat, effective_link (song_id s) (download_link s)))
          (song_details (search a))).
Proof.
  split; [|split; [|split; [|split]]].
  - intros H. unfold download_selected_song. rewrite H. repeat split.
  - intros sel H. unfold download_selected_song, _do_download. rewrite H.
    pose proof (fetch_events E t (prefs a) fs (sel_id sel) (sel_name sel) (sel_artist sel)
                  (sel_download_link sel)) as Hev.
    destruct (fetch_and_download_song E t (prefs a) fs (sel_id sel) (sel_name sel)
                (sel_artist sel) (sel_download_link sel)) as [[fs1 [ok res]] ev].
    cbn [snd] in *. subst ev. destruct ok; reflexivity.
  - intros H confirmed. unfold batch_download. rewrite H. repeat split.
  - unfold batch_download. destruct (song_details (search a)); repeat split.
  - intros H. unfold batch_download.
    destruct (song_details (search a)) as [|s rest] eqn:Hd; [contradiction|].
    apply _do_batch_download_requests.
Qed.

(** X21.  After the interface calls of a single download have run: the
    search state, buttons, preferences and entry fields are untouched;
    the download record has one more line; the download status shows the
    base name of the saved file or the failure text; the status bar shows
    the success message, but after a failure still the progress message;
    the last event is an information box on success and an error box on
    failure. *)
Theorem _do_download_final_state (E : env) (clock : nat -> str) (k t : nat)
    (cfg : settings) (fs : filesystem) (song_id : Z) (song_name artist download_link : str)
    (a : app) :
  let r := (fetch_and_download_song E t cfg fs song_id song_name artist download_link).1 in
  let out := _do_download E t cfg fs song_id song_name artist download_link in
  let a' := mainloop E clock k out.2 a in
  out.1 = r.1
  /\ search a' = search a /\ btns a' = btns a /\ prefs a' = prefs a /\ vars a' = vars a
  /\ status_label (txt a')
     = (if r.2.1 then py "下载成功: " ++ song_name ++ py " - " ++ artist
        else py "正在下载: " ++ song_name)
  /\ detail_download_status (txt a')
     = (if r.2.1 then py "✅ 下载完成: " ++ os_path_basename r.2.2
        else py "❌ 下载失败: " ++ r.2.2)
  /\ download_log_text (txt a')
     = download_log_text (txt a)
       ++ log_line (clock (k + 4)%nat)
            (if r.2.1 then py "✅ 下载成功: " ++ song_name ++ py " - " ++ artist
             else py "❌ 下载失败: " ++ song_name ++ py " - " ++ r.2.2)
  /\ last out.2
     = Some (After (if r.2.1
                    then MessageBox showinfo (py "下载成功")
                           (py "歌曲已下载到:" ++ nl ++ r.2.2)
                    else MessageBox showerror (py "下载失败")
                           (py "下载失败:" ++ nl ++ r.2.2))).
Proof.
  cbv zeta. unfold _do_download.
  pose proof (fetch_events E t cfg fs song_id song_name artist download_link) as Hev.
  destruct (fetch_and_download_song E t cfg fs song_id song_name artist download_link)
    as [[fs1 [ok res]] ev]. cbn [fst snd] in *. subst ev. unfold attempt_events.
  replace (k + 4)%nat with (S (S (S (S k)))) by lia.
  destruct ok; cbn [Datatypes.app mainloop ui_call_of run_ui_call last];
    rewrite ?log_info, ?log_other by discriminate; unfold add_download_log, log_line;
    repeat split; cbn [txt with_txt download_log_text set_download_log_text
                       set_detail_download_status set_status_label];
    rewrite <- ?app_assoc; reflexivity.
Qed.

(** ** Track extraction *)

Import Track.

Lemma extract_inv (E : env) (ft : number -> option str) (song : json) (d : song_dict) :
  Track.extract_song_info E ft song = Some d ->
  exists (m : gmap str json) (album : gmap str json) (l jnames : list json),
    song = JObj m
    /\ default (JObj ∅) (m !! py "album") = JObj album
    /\ elements_of (default (JArr []) (m !! py "artists")) = Some l
    /\ artists_loop E l [] [] = Some (jnames, d_artist_ids d)
    /\ all_str jnames = Some (d_artists d)
    /\ d_song_id d = default (JNum 0) (m !! py "id")
    /\ d_name d = default (JStr (py "未知歌曲")) (m !! py "name")
    /\ d_album_id d = default (JNum 0) (album !! py "id")
    /\ d_album_name d = default (JStr (py "未知专辑")) (album !! py "name")
    /\ d_duration_ms d = default (JNum 0) (m !! py "duration")
    /\ format_duration (d_duration_ms d) = Some (d_duration d)
    /\ d_publish_time d
       = format_publish E ft (default (JNum 0) (album !! py "publishTime"))
    /\ d_download_link d
       = py "http://music.163.com/song/media/outer/url?id="
         ++ str_of_value E (d_song_id d) ++ py ".mp3"
    /\ d_artist_str d = match d_artists d with
                        | [] => py "未知歌手"
                        | _ :: _ => join (py "/") (d_artists d)
                        end.
Proof.
  unfold Track.extract_song_info.
  destruct song as [| | | | | |m]; try discriminate.
  cbn [dict_get mbind option_bind].
  match goal with
  | |- context [dict_get ?x _ _] =>
    destruct x as [| | | | | |album] eqn:Halbum;
      cbn [dict_get mbind option_bind]; try discriminate
  end.
  match goal with
  | |- context [elements_of ?x] =>
    destruct (elements_of x) as [l|] eqn:Hl; cbn [mbind option_bind]; [|discriminate]
  end.
  destruct (artists_loop E l [] []) as [[jnames ids]|] eqn:Hloop;
    cbn [mbind option_bind]; [|discriminate].
  match goal with
  | |- context [format_duration ?x] =>
    destruct (format_duration x) as [dur|] eqn:Hdur; cbn [mbind option_bind]; [|discriminate]
  end.
  destruct (all_str jnames) as [names|] eqn:Hnames;
    cbn [mbind option_bind]; [|discriminate].
  intros [= <-].
  exists m, album, l, jnames. cbn.
  repeat split; try reflexivity; assumption.
Qed.

Lemma artists_loop_spec (E : env) (l : list json) :
  forall (ns : list json) (ids : list str),
    artists_loop E l ns ids
    = if forallb is_dict l
      then Some (ns ++ map name_of_artist l, ids ++ map (id_of_artist E) l)
      else None.
Proof.
  induction l as [|a l IH]; intros ns ids; cbn [artists_loop forallb map].
  - rewrite !app_nil_r. reflexivity.
  - destruct a as [| | | | | |m]; try reflexivity.
    cbn [dict_get is_dict andb]. rewrite IH. cbn [name_of_artist id_of_artist].
    destruct (forallb is_dict l); [|reflexivity].
    rewrite <- !app_assoc. reflexivity.
Qed.

Lemma all_str_spec (l : list json) :
  (forallb is_str l = true -> exists names, all_str l = Some names /\ map JStr names = l)
  /\ (forallb is_str l = false -> all_str l = None).
Proof.
  induction l as [|a l [IH1 IH2]]; cbn [all_str forallb].
  - split; [intros _; exists []; split; reflexivity | discriminate].
  - destruct a as [| | | |s| |]; cbn [is_str andb]; try (split; [discriminate|reflexivity]).
    split; intros H.
    + destruct (IH1 H) as (names & Hn & Hm). exists (s :: names).
      rewrite Hn. split; [reflexivity|]. cbn. rewrite Hm. reflexivity.
    + rewrite (IH2 H). reflexivity.
Qed.

Lemma forallb_artist_ok (l : list json) :
  forallb artist_ok l = forallb is_dict l && forallb is_str (map name_of_artist l).
Proof.
  induction l as [|a l IH]; [reflexivity|].
  cbn [forallb map]. rewrite IH.
  destruct a as [| | | | | |m]; cbn [artist_ok is_dict name_of_artist andb]; try reflexivity.
  destruct (m !! (py "name" : str)) as [[| | | | | |]|]; cbn [default is_str andb];
    try reflexivity; destruct (forallb is_dict l); reflexivity.
Qed.

Lemma names_of_artists (E : env) (l : list json) :
  (exists jnames ids names,
      artists_loop E l [] [] = Some (jnames, ids) /\ all_str jnames = Some names)
  <-> forallb artist_ok l = true.
Proof.
  rewrite artists_loop_spec, forallb_artist_ok.
  destruct (all_str_spec (map name_of_artist l)) as [H1 H2].
  destruct (forallb is_dict l); cbn [andb].
  - split.
    + intros (jnames & ids & names & [= <- _] & Hn).
      destruct (forallb is_str (map name_of_artist l)); [reflexivity|].
      rewrite (H2 eq_refl) in Hn. discriminate Hn.
    + intros H. destruct (H1 H) as (names & Hn & _).
      exists (map name_of_artist l), (map (id_of_artist E) l), names.
      split; [reflexivity | exact Hn].
  - split; [intros (? & ? & ? & H & _); discriminate H | discriminate].
Qed.

Lemma elements_of_well_shaped (E : env) (v : json) :
  (exists l jnames ids names,
      elements_of v = Some l /\ artists_loop E l [] [] = Some (jnames, ids)
      /\ all_str jnames = Some names)
  <-> match v with
      | JArr l => forallb artist_ok l
      | JStr s => bool_decide (s = [])
      | JObj keys => match size keys with O => true | S _ => false end
      | _ => false
      end = true.
Proof.
  destruct v as [| | | |s|l|keys]; cbn [elements_of];
    try (split; [intros (? & ? & ? & ? & H & _); discriminate H | discriminate]).
  - destruct s as [|c s].
    + split; [reflexivity|]. intros _. exists [], [], [], []. repeat split.
    + split; [|discriminate].
      intros (l & jn & ids & names & [= <-] & H & _). discriminate H.
  - rewrite <- (names_of_artists E l). split.
    + intros (l' & jn & ids & names & [= <-] & H1 & H2). eauto.
    + intros (jn & ids & names & H1 & H2). exists l, jn, ids, names. eauto.
  - destruct (map_to_list keys) as [|[k v] rest] eqn:Hk.
    + apply map_to_list_empty_iff in Hk. subst keys. split; [reflexivity|].
      intros _. exists [], [], [], []. repeat split.
    + assert (Hs : size keys = S (length rest)).
      { rewrite <- length_map_to_list, Hk. reflexivity. }
      rewrite Hs. split; [|discriminate].
      intros (l & jn & ids & names & [= <-] & H & _). discriminate H.
Qed.

Lemma extract_some_iff (E : env) (ft : number -> option str) (m : gmap str json) :
  is_Some (Track.extract_song_info E ft (JObj m))
  <-> is_dict (default (JObj ∅) (m !! (py "album" : str))) = true
      /\ (exists l jnames ids names,
            elements_of (default (JArr []) (m !! (py "artists" : str))) = Some l
            /\ artists_loop E l [] [] = Some (jnames, ids)
            /\ all_str jnames = Some names)
      /\ is_Some (format_duration (default (JNum 0) (m !! (py "duration" : str)))).
Proof.
  split.
  - intros [d Hd]. destruct (extract_inv E ft _ d Hd)
      as (m' & album & l & jnames & [= <-] & Ha & Hl & Hloop & Hn & _ & _ & _ & _
          & Hms & Hdur & _).
    split; [|split].
    + exact (eq_trans (f_equal is_dict Ha) eq_refl).
    + exists l, jnames, (d_artist_ids d), (d_artists d). 
      split; [exact Hl|]. split; assumption.
    + rewrite Hms in Hdur. exists (d_duration d). exact Hdur.
  - intros (Ha & (l & jnames & ids & names & Hl & Hloop & Hn) & [dur Hdur]).
    unfold Track.extract_song_info. cbn [dict_get mbind option_bind].
    destruct (default (JObj ∅) (m !! (py "album" : str))) as [| | | | | |album];
      try discriminate Ha.
    cbn [dict_get mbind option_bind]. rewrite Hl. cbn [mbind option_bind].
    rewrite Hloop. cbn [mbind option_bind]. rewrite Hdur. cbn [mbind option_bind].
    rewrite Hn. cbn [mbind option_bind]. eauto.
Qed.

Lemma album_shape (o : option json) :
  is_dict (default (JObj ∅) o)
  = match o with
    | Some (JObj _) | None => true
    | Some _ => false
    end.
Proof. destruct o as [[| | | | | |]|]; reflexivity. Qed.

Lemma artists_shape (E : env) (o : option json) :
  (exists l jnames ids names,
      elements_of (default (JArr []) o) = Some l
      /\ artists_loop E l [] [] = Some (jnames, ids)
      /\ all_str jnames = Some names)
  <-> match o with
      | None => true
      | Some (JArr l) => forallb artist_ok l
      | Some (JStr s) => bool_decide (s = [])
      | Some (JObj keys) => match size keys with O => true | S _ => false end
      | Some _ => false
      end = true.
Proof.
  rewrite elements_of_well_shaped. destruct o as [v|]; reflexivity.
Qed.

Lemma duration_shape (o : option json) :
  is_Some (format_duration (default (JNum 0) o))
  <-> match o with
      | None | Some (JNum _) | Some (JBool _) => true
      | Some v => negb (truthy v)
      end = true.
Proof.
  unfold format_duration.
  destruct o as [[|b|n|fl|s|l|keys]|]; cbn [default int_value];
    try (destruct (truthy _)); cbn [negb];
    (split; [intros [x Hx]; try discriminate Hx; reflexivity
            | intros Hx; try discriminate Hx; eexists; reflexivity]).
Qed.

(** X22.  [extract_song_info] raises exactly on the records that are not
    well shaped: those that are no dictionary, or whose album is present
    and no dictionary, or whose artists are present and neither empty nor
    a list of dictionaries with string names, or whose duration is
    present, truthy and neither an integer nor a boolean.  So it raises
    on every record whose duration is a floating-point number other than
    zero. *)
Theorem extraction_raises_iff_ill_shaped (E : env) (ft : number -> option str) (song : json) :
  (Track.extract_song_info E ft song = None <-> well_shaped song = false)
  /\ (forall (m : gmap str json) (x : spec_float),
        song = JObj m -> m !! (py "duration" : str) = Some (JFloat x) ->
        truthy (JFloat x) = true -> Track.extract_song_info E ft song = None).
Proof.
  assert (Hiff : Track.extract_song_info E ft song = None <-> well_shaped song = false);
    [|split; [exact Hiff|];
      intros m x -> Hm Hx; apply Hiff; unfold well_shaped; rewrite Hm, Hx;
      cbn [negb]; apply andb_false_r].
  assert (H : is_Some (Track.extract_song_info E ft song) <-> well_shaped song = true).
  { destruct song as [| | | | | |m];
      try (split; [intros [? H]; discriminate H | discriminate]).
    rewrite extract_some_iff, album_shape, artists_shape, duration_shape.
    unfold well_shaped. rewrite !andb_true_iff. tauto. }
  rewrite <- not_true_iff_false, <- H, eq_None_not_Some. reflexivity.
Qed.

Example float_duration_raises :
  Track.extract_song_info serving_env (fun _ => None)
    (JObj {[ py "duration" := JFloat (S754_finite false 430001 (-1)) ]}) = None
  /\ option_map d_duration
       (Track.extract_song_info serving_env (fun _ => None)
          (JObj {[ py "duration" := JFloat (S754_zero false) ]}))
     = Some (py "0:00").
Proof. vm_compute. repeat split. Qed.

(** X23.  The defaults of an extracted record: without id the id is 0
    and the link is the one of id 0; without name the name is the
    placeholder; without album the album id is 0, its name and the
    publication date are the placeholders; without artists both artist
    lists are empty and the artist text is the placeholder; without
    duration the duration text is 0:00. *)
Theorem missing_keys_take_defaults (E : env) (ft : number -> option str) (m : gmap str json)
    (d : song_dict) :
  Track.extract_song_info E ft (JObj m) = Some d ->
  (m !! (py "id" : str) = None ->
     d_song_id d = JNum 0
     /\ d_download_link d = py "http://music.163.com/song/media/outer/url?id=0.mp3")
  /\ (m !! (py "name" : str) = None -> d_name d = JStr (py "未知歌曲"))
  /\ (m !! (py "album" : str) = None ->
      d_album_id d = JNum 0 /\ d_album_name d = JStr (py "未知专辑")
      /\ d_publish_time d = py "未知")
  /\ (m !! (py "artists" : str) = None ->
      d_artists d = [] /\ d_artist_ids d = [] /\ d_artist_str d = py "未知歌手")
  /\ (m !! (py "duration" : str) = None -> d_duration d = py "0:00").
Proof.
  intros Hd.
  destruct (extract_inv E ft _ d Hd)
    as (m' & album & l & jnames & [= <-] & Ha & Hl & Hloop & Hn & Hid & Hname & Haid
        & Haname & Hms & Hdur & Hpub & Hlink & Hstr).
  split; [|split; [|split; [|split]]].
  - intros H. assert (Hid' : d_song_id d = JNum 0).
    { rewrite Hid. exact (f_equal (default (JNum 0)) H). }
    split; [exact Hid'|]. rewrite Hlink, Hid'. reflexivity.
  - intros H. rewrite Hname. exact (f_equal (default (JStr (py "未知歌曲"))) H).
  - intros H. assert (Halb : JObj album = JObj ∅).
    { rewrite <- Ha. exact (f_equal (default (JObj ∅)) H). }
    injection Halb as ->. rewrite Haid, Haname, Hpub. repeat split.
  - intros H. assert (Hel : elements_of (JArr []) = Some l).
    { rewrite <- Hl. exact (f_equal (fun o => elements_of (default (JArr []) o)) (eq_sym H)). }
    injection Hel as <-. cbn [artists_loop] in Hloop. injection Hloop as Hj Hi.
    subst jnames. cbn [all_str] in Hn. injection Hn as Hn.
    rewrite Hstr, <- Hn, <- Hi. repeat split.
  - intros H. assert (Hz : d_duration_ms d = JNum 0).
    { rewrite Hms. exact (f_equal (default (JNum 0)) H). }
    rewrite Hz in Hdur. injection Hdur as <-. reflexivity.
Qed.

Lemma missing_keys_take_defaults_witness :
  Track.extract_song_info serving_env (fun _ => None) (JObj ∅) = Some default_dict
  /\ ((∅ : gmap str json) !! (py "album" : str) = None ->
      d_album_id default_dict = JNum 0 /\ d_album_name default_dict = JStr (py "未知专辑")
      /\ d_publish_time default_dict = py "未知").
Proof.
  split; [vm_compute; reflexivity|].
  apply (missing_keys_take_defaults serving_env (fun _ => None) ∅ default_dict).
  vm_compute. reflexivity.
Defined.

(** X24.  With a list of artists in the record, the extracted names and
    ids are those of the entries in order, one per entry (name and id
    defaulting per entry), and the artist text joins the names with a
    slash, or is the placeholder for an empty list. *)
Theorem artists_in_order (E : env) (ft : number -> option str) (m : gmap str json)
    (d : song_dict) (l : list json) :
  Track.extract_song_info E ft (JObj m) = Some d ->
  m !! (py "artists" : str) = Some (JArr l) ->
  map JStr (d_artists d) = map name_of_artist l
  /\ d_artist_ids d = map (id_of_artist E) l
  /\ length (d_artists d) = length l
  /\ d_artist_str d = match l with
                      | [] => py "未知歌手"
                      | _ :: _ => join (py "/") (d_artists d)
                      end.
Proof.
  intros Hd Hm.
  destruct (extract_inv E ft _ d Hd)
    as (m' & album & l' & jnames & [= <-] & _ & Hl & Hloop & Hn & _ & _ & _ & _ & _ & _
        & _ & _ & Hstr).
  assert (Hl' : elements_of (JArr l) = Some l').
  { rewrite <- Hl. exact (f_equal (fun o => elements_of (default (JArr []) o)) (eq_sym Hm)). }
  injection Hl' as <-. rewrite artists_loop_spec in Hloop.
  destruct (forallb is_dict l); [|discriminate Hloop].
  injection Hloop as <- Hids.
  destruct (all_str_spec (map name_of_artist l)) as [H1 H2].
  destruct (forallb is_str (map name_of_artist l)).
  - destruct (H1 eq_refl) as (names & Hnames & Hmap). rewrite Hnames in Hn.
    injection Hn as Hn. subst names.
    assert (Hlen : length (d_artists d) = length l).
    { rewrite <- (length_map JStr), Hmap, length_map. reflexivity. }
    split; [exact Hmap|]. split; [symmetry; exact Hids|]. split; [exact Hlen|].
    rewrite Hstr. destruct l, (d_artists d); try discriminate Hlen; reflexivity.
  - rewrite (H2 eq_refl) in Hn. discriminate Hn.
Qed.

Lemma artists_in_order_witness :
  Track.extract_song_info serving_env (fun _ => None) (JObj duet) = Some duet_dict
  /\ duet !! (py "artists" : str)
     = Some (JArr [JObj (<[py "id" := JNum 11]> {[ py "name" := JStr (py "甲") ]});
                   JObj {[ py "id" := JNum 12 ]}])
  /\ d_artist_ids duet_dict
     = map (id_of_artist serving_env)
         [JObj (<[py "id" := JNum 11]> {[ py "name" := JStr (py "甲") ]});
          JObj {[ py "id" := JNum 12 ]}].
Proof.
  split; [vm_compute; reflexivity|]. split; [vm_compute; reflexivity|].
  apply (artists_in_order serving_env (fun _ => None) duet duet_dict
           [JObj (<[py "id" := JNum 11]> {[ py "name" := JStr (py "甲") ]});
            JObj {[ py "id" := JNum 12 ]}]); vm_compute; reflexivity.
Defined.

Lemma format_02d_two_digits (s : Z) : 0 <= s < 60 -> length (format_02d s) = 2%nat.
Proof.
  intros Hs.
  assert (H : forallb (fun k => (length (format_02d (Z.of_nat k)) =? 2)%nat) (seq 0 60) = true)
    by (vm_compute; reflexivity).
  rewrite forallb_forall in H. specialize (H (Z.to_nat s)).
  rewrite Z2Nat.id in H by lia. apply Nat.eqb_eq, H, in_seq. lia.
Qed.

(** X25.  The duration text of a record with a whole number of
    milliseconds is minutes, a colon and seconds, where the seconds are
    two digits between 00 and 59 and minutes and seconds add up to the
    duration in whole seconds (rounded down). *)
Theorem duration_minutes_seconds (E : env) (ft : number -> option str) (song : json)
    (d : song_dict) (n : Z) :
  Track.extract_song_info E ft song = Some d ->
  d_duration_ms d = JNum n ->
  let total_seconds := n / 1000 in
  d_duration d = str_of_int (total_seconds / 60) ++ py ":"
                 ++ format_02d (total_seconds mod 60)
  /\ length (format_02d (total_seconds mod 60)) = 2%nat
  /\ 0 <= total_seconds mod 60 < 60
  /\ 60 * (total_seconds / 60) + total_seconds mod 60 = total_seconds.
Proof.
  intros Hd Hn total_seconds.
  destruct (extract_inv E ft song d Hd)
    as (m & album & l & jnames & _ & _ & _ & _ & _ & _ & _ & _ & _ & _ & Hdur & _).
  rewrite Hn in Hdur. unfold format_duration in Hdur. cbn [truthy int_value] in Hdur.
  assert (Hmod : 0 <= total_seconds mod 60 < 60) by (apply Z.mod_pos_bound; lia).
  split; [|split; [apply format_02d_two_digits; exact Hmod|split; [exact Hmod|]]].
  - destruct (Z.eqb_spec n 0) as [->|Hne]; cbn [negb] in Hdur.
    + injection Hdur as <-. reflexivity.
    + injection Hdur as <-. reflexivity.
  - pose proof (Z.div_mod total_seconds 60). lia.
Qed.

Lemma duration_minutes_seconds_witness :
  Track.extract_song_info serving_env (fun _ => None) hundred_seconds
  = Some {| d_song_id := JNum 7; d_name := JStr (py "未知歌曲"); d_artists := [];
            d_artist_ids := []; d_artist_str := py "未知歌手"; d_album_id := JNum 0;
            d_album_name := JStr (py "未知专辑"); d_duration := py "1:40";
            d_duration_ms := JNum 100999; d_publish_time := py "未知";
            d_download_link := py "http://music.163.com/song/media/outer/url?id=7.mp3" |}
  /\ py "1:40" = str_of_int (100999 / 1000 / 60) ++ py ":"
                 ++ format_02d ((100999 / 1000) mod 60).
Proof.
  split; [vm_compute; reflexivity|].
  apply (duration_minutes_seconds serving_env (fun _ => None) hundred_seconds
           {| d_song_id := JNum 7; d_name := JStr (py "未知歌曲"); d_artists := [];
              d_artist_ids := []; d_artist_str := py "未知歌手"; d_album_id := JNum 0;
              d_album_name := JStr (py "未知专辑"); d_duration := py "1:40";
              d_duration_ms := JNum 100999; d_publish_time := py "未知";
              d_download_link := py "http://music.163.com/song/media/outer/url?id=7.mp3" |}
           100999); [vm_compute; reflexivity | reflexivity].
Defined.

Example negative_duration :
  format_duration (JNum (-1)) = Some (py "-1:59").
Proof. vm_compute. reflexivity. Qed.

(** X26.  The download link of an extracted track is the link
    [fetch_and_download_song] builds from the track id when it is given
    none, so a download requests the same address either way. *)
Theorem track_link_from_id (E : env) (ft : number -> option str) (song : json)
    (d : song_dict) (t : song_info) :
  Track.extract_song_info E ft song = Some d ->
  to_song_info d = Some t ->
  d_song_id d = JNum (song_id t)
  /\ download_link t = effective_link (song_id t) []
  /\ effective_link (song_id t) (download_link t) = effective_link (song_id t) [].
Proof.
  intros Hd Ht.
  destruct (extract_inv E ft song d Hd)
    as (m & album & l & jnames & _ & _ & _ & _ & _ & _ & _ & _ & _ & _ & _ & _ & Hlink & _).
  unfold to_song_info in Ht.
  destruct (d_song_id d) as [| |id| | | |] eqn:Hid; try discriminate Ht.
  destruct (d_name d) as [| | | |title| |]; try discriminate Ht.
  destruct (d_album_id d) as [| |alb| | | |]; try discriminate Ht.
  destruct (d_album_name d) as [| | | |at'| |]; try discriminate Ht.
  destruct (d_duration_ms d) as [| |ms| | | |]; try discriminate Ht.
  injection Ht as <-. cbn [song_id download_link].
  split; [reflexivity|]. rewrite Hlink. cbn [str_of_value].
  split; reflexivity.
Qed.

Lemma track_link_from_id_witness :
  Track.extract_song_info serving_env (fun _ => None) hundred_seconds = Some seven_dict
  /\ to_song_info seven_dict = Some seven_track
  /\ download_link seven_track = effective_link (song_id seven_track) [].
Proof.
  split; [vm_compute; reflexivity|]. split; [reflexivity|].
  apply (track_link_from_id serving_env (fun _ => None) hundred_seconds seven_dict
           seven_track); [vm_compute; reflexivity | reflexivity].
Defined.
